(** * FOB report processing: segmentation of the daily report grid and
      reconciliation of the per-product summary tables.

    A shallow embedding of [fob_analysis.py]:
    - [Segmenter] follows [parse_pdf_to_dfs];
    - [Reconciler] follows the per-sheet body of [update_summary_workbook]
      and the loop over [SHEET_NAMES] around it;
    - [FileNames] follows [get_date_from_filename] and the two patterns;
    - [DailyFiles] follows [process_daily_pdfs] and the head of
      [update_summary_workbook], on the directories [data/] and [csv/].

    Python values are modelled as follows.
    - A [str] is a [string]; every character stands for one code point
      below 256, so [String.length] is Python's [len].
    - An exception is a value of [exn]; code that can raise returns a
      [result], and a [try]/[except] is a match on it.
    - [print] appends a [msg] to a log.
    - A pdfplumber cell is [None] or a [str]; a worksheet or DataFrame
      cell is missing, a text, a number or a timestamp.
    - A worksheet table is the list of the rows that its range covers;
      dates and timestamps are instants in [Z].
    - Of pandas, [pd.to_datetime] and [DataFrame.sort_values] are taken
      through their contracts, the class [Pandas]; the other DataFrame
      operations of the code are list functions.
    - Of [datetime], [strptime] and [strftime] are taken through their
      contracts for the two formats of the code, the class [Datetime].
    - A directory is a finite map from names to files; [os.listdir]
      gives its names in some order. The Excel writer is a function
      from the frames to the file it leaves, or to the exception it
      raises. Writing cells and saving the workbook are taken not to
      raise. *)

From stdpp Require Import base option list strings sorting gmap.
From Stdlib Require Import ZArith Ascii Lia.

Local Open Scope nat_scope.

(** ** Exceptions *)

Inductive exn : Type :=
  | IndexError
  | TypeError
  | ValueError
  | KeyError
  | AttributeError
  | IOError.

Inductive result (A : Type) : Type :=
  | Ok (a : A)
  | Raise (e : exn).

Arguments Ok {A} a.
Arguments Raise {A} e.

#[global] Instance result_ret : MRet result := fun A a => Ok a.
#[global] Instance result_bind : MBind result := fun A B f m =>
  match m with
  | Ok a => f a
  | Raise e => Raise e
  end.
#[global] Instance result_fmap : FMap result := fun A B f m =>
  match m with
  | Ok a => Ok (f a)
  | Raise e => Raise e
  end.

Definition is_Ok {A} (m : result A) : Prop := ∃ a, m = Ok a.

(** [l[i]] for a non-negative index. *)
Definition getitem {A} (l : list A) (i : nat) : result A :=
  match l !! i with
  | Some x => Ok x
  | None => Raise IndexError
  end.

(** [l[i:j]] for [0 <= i] and [0 <= j]. *)
Definition slice {A} (l : list A) (i j : nat) : list A :=
  take (j - i) (drop i l).

(** ** Python strings *)

Module PyStr.

(** [str.isspace] on one character, for code points below 256. *)
Definition isspace (a : ascii) : bool :=
  let n := nat_of_ascii a in
  ((9 <=? n) && (n <=? 13)) || ((28 <=? n) && (n <=? 32))
  || (n =? 133) || (n =? 160).

Fixpoint lstrip (s : string) : string :=
  match s with
  | EmptyString => EmptyString
  | String a s' => if isspace a then lstrip s' else s
  end.

Fixpoint rstrip (s : string) : string :=
  match s with
  | EmptyString => EmptyString
  | String a s' =>
      match rstrip s' with
      | EmptyString => if isspace a then EmptyString else String a EmptyString
      | t => String a t
      end
  end.

(** [s.strip()] *)
Definition strip (s : string) : string := rstrip (lstrip s).

(** [sub in s] *)
Fixpoint contains (sub s : string) : bool :=
  String.prefix sub s ||
  match s with
  | EmptyString => false
  | String _ s' => contains sub s'
  end.

(** [bool(s)] *)
Definition nonempty (s : string) : bool :=
  match s with
  | EmptyString => false
  | String _ _ => true
  end.

Definition len (s : string) : nat := String.length s.

End PyStr.

(** ** Console output *)

Inductive msg : Type :=
  (* parse_pdf_to_dfs *)
  | ParsingPdf
  | NoPagesFound
  | NoTablesFound
  | SectionCountWarning (found : nat)
  (* update_summary_workbook *)
  | SheetNotFound (sheet : string)
  | NoTableFound (sheet : string)
  | EmptyTable (sheet : string)
  | NoDateColumn (sheet : string)
  | Updating (sheet : string) (new_dates : nat)
  | ColumnMismatch (date : Z) (sheet : string)
  | ErrorReading (date : Z) (e : exn)
  | Updated (sheet : string) (row_count : nat)
  | SavingWorkbook
  | Done.

(** The 28 products, left to right and top to bottom. *)
Definition SHEET_NAMES : list string :=
  [ "SRW_US_Gulf"; "HRW_Texas_Gulf"; "HRW_US_PNW"; "White_Wheat_US_PNW";
    "DNS_US_PNW"; "No1_Milling_DNS"; "Argentine_Wheat"; "French_Wheat";
    "Russian_Milling_Wheat"; "Ukrainian_Milling_Wheat"; "Russian_Corn";
    "Ukrainian_Corn";
    "Gulf_Corn"; "PNW_Corn"; "Argentine_Corn"; "Brazilian_Corn";
    "Gulf_Soybeans"; "Argentine_Soybeans"; "Brazilian_Soybeans";
    "Canadian_Canola";
    "Gulf_Soyoil"; "Argentine_Soyoil"; "Brazilian_Soyoil"; "Malaysian_Olein";
    "Gulf_Soymeal"; "Argentine_Soymeal_Pellets"; "Brazilian_Soymeal_Pellets";
    "Indian_Soymeal" ].

(** A Python [dict] with string keys, as its items in insertion order:
    [d[k] = v] replaces the value of an existing key in place and appends
    a new key at the end. *)
Fixpoint dict_set {V} (k : string) (v : V) (d : list (string * V))
  : list (string * V) :=
  match d with
  | [] => [(k, v)]
  | (k', v') :: d' =>
      if decide (k' = k) then (k, v) :: d' else (k', v') :: dict_set k v d'
  end.

Fixpoint dict_get {V} (k : string) (d : list (string * V)) : option V :=
  match d with
  | [] => None
  | (k', v') :: d' => if decide (k' = k) then Some v' else dict_get k d'
  end.

(** ** The report segmenter: [parse_pdf_to_dfs] *)

Module Segmenter.

(** A cell of the extracted grid is [None] or a [str]. *)
Abbreviation cell := (option string).
Abbreviation row := (list cell).
Abbreviation grid := (list row).

(** [bool(c)] *)
Definition truthy (c : cell) : bool :=
  match c with
  | Some s => PyStr.nonempty s
  | None => false
  end.

(** [str(c)] *)
Definition str (c : cell) : string :=
  match c with
  | Some s => s
  | None => "None"
  end.

(** [c and str(c).strip()], as a condition: the cell carries text. *)
Definition has_text (c : cell) : bool :=
  truthy c && PyStr.nonempty (PyStr.strip (str c)).

(** The loop of lines 85-97, from row index [i] on. The test
    [i < len(raw_data)] holds at every iteration and is left out. *)
Fixpoint scan_from (i : nat) (rows : grid) : result (list nat) :=
  match rows with
  | [] => Ok []
  | r :: rest =>
      c1 ← getitem r 1;
      if has_text c1 then
        if PyStr.contains "vs" (str c1) then scan_from (S i) rest
        else
          c0 ← getitem r 0;
          if has_text c0 then scan_from (S i) rest
          else cons i <$> scan_from (S i) rest
      else scan_from (S i) rest
  end.

Definition section_starts (raw_data : grid) : result (list nat) :=
  scan_from 0 raw_data.

(** Lines 126-136: one candidate data row. *)
Definition is_valid_row (r : row) : result bool :=
  c0 ← getitem r 0;
  if negb (truthy c0) || negb (PyStr.nonempty (PyStr.strip (str c0)))
  then Ok false
  else
    let val := PyStr.strip (str c0) in
    if PyStr.contains "Price" val || PyStr.contains "Disclaimer" val
       || (15 <? PyStr.len val)
    then Ok false
    else Ok true.

Fixpoint valid_rows (data_rows : list row) : result (list row) :=
  match data_rows with
  | [] => Ok []
  | r :: rest =>
      ok ← is_valid_row r;
      if ok : bool then cons r <$> valid_rows rest else valid_rows rest
  end.

(** One record of a product's frame. *)
Record entry : Type := Entry {
  Month : string;
  vs : cell;
  Chg1 : cell;
  Flat : cell;
  Chg2 : cell;
  Date : Z
}.

(** [pd.DataFrame(clean_data)], after the renaming of line 185. *)
Record frame : Type := Frame {
  columns : list string;
  records : list entry
}.

(** The [while] loop of lines 159-160. *)
Definition pad (chunk : row) : row :=
  chunk ++ replicate (4 - length chunk) None.

(** Lines 155-170 for one row: [None] when the guard skips the row. *)
Definition make_entry (col_start : nat) (date : Z) (r : row)
  : result (option entry) :=
  if decide (col_start < length r) then
    let chunk := pad (slice r col_start (col_start + 4)) in
    c0 ← getitem r 0;
    v ← getitem chunk 0;
    c1 ← getitem chunk 1;
    f ← getitem chunk 2;
    c2 ← getitem chunk 3;
    Ok (Some (Entry (PyStr.strip (str c0)) v c1 f c2 date))
  else Ok None.

Fixpoint clean_data (col_start : nat) (date : Z) (rows : list row)
  : result (list entry) :=
  match rows with
  | [] => Ok []
  | r :: rest =>
      e ← make_entry col_start date r;
      es ← clean_data col_start date rest;
      Ok (match e with Some x => x :: es | None => es end)
  end.

(** Lines 178-182. *)
Definition vs_header (section_data : grid) (col_start : nat) : string :=
  match section_data !! 1 with
  | Some sub =>
      match sub !! col_start with
      | Some val => if truthy val then PyStr.strip (str val) else "vs"
      | None => "vs"
      end
  | None => "vs"
  end.

(** Lines 172-185: an empty frame has no columns and is not renamed. *)
Definition make_frame (header : string) (es : list entry) : frame :=
  match es with
  | [] => Frame [] []
  | _ => Frame ["Month"; header; "Chg1"; "Flat"; "Chg2"; "Date"] es
  end.

Abbreviation results := (list (string * frame)).

(** The loop [for i in range(4)] of lines 138-187, over the remaining
    values of [i]; a product index past the list of names breaks. *)
Fixpoint blocks (section_idx : nat) (section_data : grid)
    (valid : list row) (date : Z) (todo : list nat) (res : results)
  : result results :=
  match todo with
  | [] => Ok res
  | i :: rest =>
      let prod_idx := section_idx * 4 + i in
      match SHEET_NAMES !! prod_idx with
      | None => Ok res
      | Some sheet_name =>
          let col_start := 1 + i * 4 in
          es ← clean_data col_start date valid;
          let df := make_frame (vs_header section_data col_start) es in
          blocks section_idx section_data valid date rest
                 (dict_set sheet_name df res)
      end
  end.

(** Lines 107-112. *)
Definition section_of (raw_data : grid) (starts : list nat)
    (section_idx start_row : nat) : grid :=
  let end_row :=
    if decide (section_idx < length starts - 1)
    then default 0 (starts !! (section_idx + 1))
    else length raw_data in
  slice raw_data start_row end_row.

(** The loop of lines 105-187 over [enumerate(section_starts)], from
    section [section_idx] on. *)
Fixpoint sections (raw_data : grid) (starts : list nat) (date : Z)
    (section_idx : nat) (todo : list nat) (res : results)
  : result results :=
  match todo with
  | [] => Ok res
  | start_row :: rest =>
      let section_data := section_of raw_data starts section_idx start_row in
      valid ← valid_rows (drop 2 section_data);
      res' ← blocks section_idx section_data valid date (seq 0 4) res;
      sections raw_data starts date (S section_idx) rest res'
  end.

(** Lines 81-189, on the grid [raw_data]. [date] is the value of
    [datetime.strptime(date_str, '%Y-%m-%d')], which the caller has
    computed from the same string at line 205. *)
Definition segment (raw_data : grid) (date : Z)
  : result (results * list msg) :=
  starts ← section_starts raw_data;
  let warn :=
    if decide (length starts = 7) then []
    else [SectionCountWarning (length starts)] in
  res ← sections raw_data starts date 0 starts [];
  Ok (res, warn).

(** A document is the list of its pages, a page the list of the tables
    extracted from it. *)
Abbreviation pdf := (list (list grid)).

Definition parse_pdf_to_dfs (doc : pdf) (date : Z)
  : result (results * list msg) :=
  match doc with
  | [] => Ok ([], [ParsingPdf; NoPagesFound])
  | page :: _ =>
      match page with
      | [] => Ok ([], [ParsingPdf; NoTablesFound])
      | raw_data :: _ =>
          '(res, log) ← segment raw_data date;
          Ok (res, ParsingPdf :: log)
      end
  end.

(** *** The row classes, as the design states them *)

(** A section header: text in the second cell, no "vs" in it, and no
    text in the first cell. *)
Definition header_cells (c0 c1 : cell) : bool :=
  has_text c1 && negb (PyStr.contains "vs" (str c1)) && negb (has_text c0).

(** A valid data row, by its first cell: it has text, and the trimmed
    text mentions neither "Price" nor "Disclaimer" and has at most 15
    characters. *)
Definition valid_cell (c0 : cell) : bool :=
  let val := PyStr.strip (str c0) in
  has_text c0
  && negb (PyStr.contains "Price" val)
  && negb (PyStr.contains "Disclaimer" val)
  && (PyStr.len val <=? 15).

Definition valid (r : row) : bool :=
  match r with
  | c0 :: _ => valid_cell c0
  | [] => false
  end.

(** The cell of a row at a position, a missing cell being empty. *)
Definition cell_or_empty (r : row) (j : nat) : cell :=
  default None (r !! j).

(** The record of a row for the block that starts at [col_start]. *)
Definition record_of (col_start : nat) (date : Z) (r : row) : entry :=
  Entry (PyStr.strip (str (cell_or_empty r 0)))
        (cell_or_empty r col_start)
        (cell_or_empty r (col_start + 1))
        (cell_or_empty r (col_start + 2))
        (cell_or_empty r (col_start + 3))
        date.

(** What one candidate data row contributes to the block that starts at
    [col_start]: one record, or nothing. *)
Definition contribution (col_start : nat) (date : Z) (r : row) : list entry :=
  if valid r && (col_start <? length r) then [record_of col_start date r]
  else [].

(** The frame of block [k] of a section. *)
Definition block_frame (section_data : grid) (date : Z) (k : nat) : frame :=
  make_frame (vs_header section_data (1 + k * 4))
             (drop 2 section_data ≫= contribution (1 + k * 4) date).

(** The row at index [j] is a section header. *)
Definition header_at (raw_data : grid) (j : nat) : Prop :=
  ∃ r c0 c1,
    raw_data !! j = Some r ∧ r !! 0 = Some c0 ∧ r !! 1 = Some c1 ∧
    has_text c1 = true ∧ PyStr.contains "vs" (str c1) = false ∧
    has_text c0 = false.

End Segmenter.

(** ** The table reconciler: [update_summary_workbook] *)

Module Reconciler.

(** A cell of a worksheet or of a DataFrame. [NA] stands for [None],
    [NaN] and [NaT]; [Stamp t] for the [datetime] or [Timestamp] at
    instant [t]; [Num] for a number. *)
Inductive cell : Type :=
  | NA
  | Text (s : string)
  | Num (z : Z)
  | Stamp (t : Z).

#[global] Instance cell_eq_dec : EqDecision cell.
Proof. solve_decision. Defined.

Abbreviation row := (list cell).

(** A DataFrame: column labels and rows of values. *)
Record frame : Type := Frame {
  columns : list cell;
  values : list row
}.

(** [range_boundaries(table.ref)] *)
Record range : Type := Range {
  min_col : Z;
  min_row : Z;
  max_col : Z;
  max_row : Z
}.

(** A worksheet table: the rows of cells that its range covers, header
    row first, and the range. *)
Record table : Type := Table {
  data : list row;
  ref : range
}.

Definition cell_at (k : nat) (r : row) : cell := default NA (r !! k).

(** [df[label]] as a list, for the column at position [k]. *)
Definition column (k : nat) (rows : list row) : list cell :=
  cell_at k <$> rows.

(** [df[label] = col] for the column at position [k]. *)
Definition set_column (k : nat) (col : list cell) (rows : list row)
  : list row :=
  zip_with (λ r v, <[k:=v]> r) rows col.

(** The positions of a label among the column labels. *)
Fixpoint positions_from (i : nat) (label : cell) (cols : list cell) : list nat :=
  match cols with
  | [] => []
  | c :: cols' =>
      if decide (c = label) then i :: positions_from (S i) label cols'
      else positions_from (S i) label cols'
  end.

Definition positions (label : cell) (cols : list cell) : list nat :=
  positions_from 0 label cols.

(** The position of the one column that carries a label; [dup] is what
    the use of [df[label]] raises when several columns carry it. *)
Definition the_column (label : cell) (cols : list cell) (dup : exn)
  : result nat :=
  match positions label cols with
  | [] => Raise KeyError
  | [k] => Ok k
  | _ => Raise dup
  end.

Definition is_date (c : cell) : Prop :=
  match c with
  | NA | Stamp _ => True
  | _ => False
  end.

Definition isna (c : cell) : bool :=
  match c with
  | NA => true
  | _ => false
  end.

(** Values of different kinds do not compare in Python. *)
Definition kind (c : cell) : nat :=
  match c with
  | NA => 0
  | Text _ => 1
  | Num _ => 2
  | Stamp _ => 3
  end.

(** The keys of a column can be sorted when those that are not [NA]
    are all of one kind. *)
Definition sortable (keys : list cell) : bool :=
  match filter (λ c, isna c = false) keys with
  | [] => true
  | c :: cs => forallb (λ c', kind c' =? kind c) cs
  end.

(** Ascending order of the keys, missing values last. *)
Definition key_le (a b : cell) : Prop :=
  match a, b with
  | _, NA => True
  | Stamp x, Stamp y => (x ≤ y)%Z
  | Num x, Num y => (x ≤ y)%Z
  | Text s, Text t => String.leb s t = true
  | _, _ => False
  end.

Definition by_key (k : nat) (r1 r2 : row) : Prop :=
  key_le (cell_at k r1) (cell_at k r2).

(** What the reconciler relies on from pandas.
    - [to_datetime col] is [pd.to_datetime(col, errors='coerce')]: it
      keeps timestamps and missing values where they are and turns
      every other value into a timestamp or into [NaT].
    - [sort_values k rows] is [df.sort_values(label)] for the label at
      position [k], with the default [kind='quicksort'] and
      [na_position='last']: a rearrangement of the rows in ascending
      order of the key; it raises [TypeError] on keys that do not
      compare. The order of rows with equal keys is not part of the
      contract. *)
Class Pandas : Type := {
  to_datetime : list cell → list cell;
  to_datetime_length : ∀ col, length (to_datetime col) = length col;
  to_datetime_Stamp : ∀ col i t,
    col !! i = Some (Stamp t) → to_datetime col !! i = Some (Stamp t);
  to_datetime_NA : ∀ col i,
    col !! i = Some NA → to_datetime col !! i = Some NA;
  to_datetime_is_date : ∀ col, Forall is_date (to_datetime col);
  sort_values : nat → list row → result (list row);
  sort_values_sorted : ∀ k rows,
    sortable (column k rows) = true →
    ∃ out, sort_values k rows = Ok out ∧ out ≡ₚ rows ∧ Sorted (by_key k) out;
  sort_values_raises : ∀ k rows,
    sortable (column k rows) = false → sort_values k rows = Raise TypeError
}.

(** A daily file [FOB_YYYYMMDD.xlsx]: unreadable, or its sheets. *)
Inductive daily_file : Type :=
  | Unreadable (e : exn)
  | Workbook (sheets : list (string * frame)).

(** [pd.read_excel(file_path, sheet_name=sheet_name)] *)
Definition read_excel (f : daily_file) (sheet_name : string) : result frame :=
  match f with
  | Unreadable e => Raise e
  | Workbook sheets =>
      match dict_get sheet_name sheets with
      | Some df => Ok df
      | None => Raise ValueError
      end
  end.

Definition stamps (col : list cell) : list Z :=
  omap (λ c, match c with Stamp t => Some t | _ => None end) col.

(** A worksheet, as the dict [ws.tables]. *)
Record worksheet : Type := Worksheet {
  tables : list (string * table)
}.

(** The loaded workbook: its sheets by name. *)
Abbreviation workbook := (list (string * worksheet)).

Section with_pandas.
Context `{Pandas}.

(** [df['Date'] = pd.to_datetime(df['Date'], errors='coerce')] for the
    Date column at position [k]. *)
Definition coerced_rows (k : nat) (rows : list row) : list row :=
  set_column k (to_datetime (column k rows)) rows.

(** With the label at several positions [df['Date']] is a DataFrame, and
    [to_datetime] raises on it. *)
Definition coerce_dates (df : frame) : result frame :=
  k ← the_column (Text "Date") (columns df) ValueError;
  Ok (Frame (columns df) (coerced_rows k (values df))).

(** Lines 323-341, the body of the [try]: [Some] is the frame that is
    appended to [new_rows], [None] a column mismatch. *)
Definition prepare (df_columns : list cell) (f : daily_file)
    (sheet_name : string) : result (option frame) :=
  daily_df ← read_excel f sheet_name;
  daily_df ← (if decide (Text "Date" ∈ columns daily_df)
              then coerce_dates daily_df else Ok daily_df);
  if decide (length (columns daily_df) = length df_columns)
  then Ok (Some (Frame df_columns (values daily_df)))
  else Ok None.

(** The loop of lines 321-343. *)
Fixpoint load_new_rows (df_columns : list cell) (sheet_name : string)
    (updates_needed : list (Z * daily_file)) : list frame * list msg :=
  match updates_needed with
  | [] => ([], [])
  | (d_obj, f) :: rest =>
      let '(new_rows, log) := load_new_rows df_columns sheet_name rest in
      match prepare df_columns f sheet_name with
      | Ok (Some daily_df) => (daily_df :: new_rows, log)
      | Ok None => (new_rows, ColumnMismatch d_obj sheet_name :: log)
      | Raise e => (new_rows, ErrorReading d_obj e :: log)
      end
  end.

(** [df.dropna(how='all')] *)
Definition dropna_all (rows : list row) : list row :=
  filter (λ r, forallb isna r = false) rows.

(** [c.notna() & (str(c).strip() != '')] for one cell of the Month
    column; the text of a number or of a timestamp is never blank. *)
Definition month_present (c : cell) : bool :=
  match c with
  | NA => false
  | Text s => PyStr.nonempty (PyStr.strip s)
  | Num _ | Stamp _ => true
  end.

(** Lines 351-353. With the label at several positions [df['Month']]
    is a DataFrame, which has no [.str]. *)
Definition remove_empty_rows (cols : list cell) (rows : list row)
  : result (list row) :=
  let rows := dropna_all rows in
  match positions (Text "Month") cols with
  | [] => Ok rows
  | [m] => Ok (filter (λ r, month_present (cell_at m r) = true) rows)
  | _ => Raise AttributeError
  end.

(** A row that lines 351-353 keep: some cell is present, and so is the
    Month when the table has one Month column. *)
Definition kept_by_cleanup (headers : list cell) (r : row) : bool :=
  negb (forallb isna r) &&
  match positions (Text "Month") headers with
  | [m] => month_present (cell_at m r)
  | _ => true
  end.

(** [set(df['Date'].dropna().tolist())] *)
Definition existing_dates (col : list cell) : gset Z :=
  list_to_set (stamps col).

(** Lines 308-311. *)
Definition updates_needed (dates : gset Z)
    (daily_files : list (Z * daily_file)) : list (Z * daily_file) :=
  filter (λ item, item.1 ∉ dates) daily_files.

(** Lines 347-356: append, remove empty rows, sort by Date. *)
Definition append_and_sort (headers : list cell) (date_col : nat)
    (df_rows : list row) (new_rows : list frame) : result (list row) :=
  let new_data := mjoin (values <$> new_rows) in
  kept ← remove_empty_rows headers (df_rows ++ new_data);
  sort_values date_col kept.

(** Lines 365-375: the cells written and the new range. Cells below the
    new range are left as they are; they are no part of the table. *)
Definition write_back (t : table) (headers : list cell) (sorted : list row)
  : table :=
  let updated_data := headers :: sorted in
  let new_max_row :=
    (min_row (ref t) + Z.of_nat (length updated_data) - 1)%Z in
  Table updated_data
        (Range (min_col (ref t)) (min_row (ref t)) (max_col (ref t)) new_max_row).

(** Lines 279-377: the reconciliation of one table with the daily
    files, given as the items of the dict [daily_files]. *)
Definition reconcile (sheet_name : string) (t : table)
    (daily_files : list (Z * daily_file)) : result (table * list msg) :=
  match data t with
  | [] => Ok (t, [EmptyTable sheet_name])
  | headers :: rows =>
      if decide (Text "Date" ∈ headers) then
        df ← coerce_dates (Frame headers rows);
        date_col ← the_column (Text "Date") headers ValueError;
        let dates := existing_dates (column date_col (values df)) in
        let updates := updates_needed dates daily_files in
        match updates with
        | [] => Ok (t, [])
        | _ =>
            let '(new_rows, log) := load_new_rows headers sheet_name updates in
            let log := Updating sheet_name (length updates) :: log in
            match new_rows with
            | [] => Ok (t, log)
            | _ =>
                sorted ← append_and_sort headers date_col (values df) new_rows;
                Ok (write_back t headers sorted,
                    log ++ [Updated sheet_name (length sorted)])
            end
        end
      else Ok (t, [NoDateColumn sheet_name])
  end.


(** Lines 259-377: one iteration of the loop over [SHEET_NAMES]. No
    [try] encloses it. *)
Definition update_sheet (sheet_name : string) (wb : workbook)
    (daily_files : list (Z * daily_file)) : result (workbook * list msg) :=
  match dict_get sheet_name wb with
  | None => Ok (wb, [SheetNotFound sheet_name])
  | Some ws =>
      match tables ws with
      | [] => Ok (wb, [NoTableFound sheet_name])
      | (first_name, first) :: _ =>
          let '(name, t) :=
            match dict_get sheet_name (tables ws) with
            | Some t => (sheet_name, t)
            | None => (first_name, first)
            end in
          '(t', log) ← reconcile sheet_name t daily_files;
          Ok (dict_set sheet_name (Worksheet (dict_set name t' (tables ws))) wb,
              log)
      end
  end.

(** The loop of line 258. *)
Fixpoint update_sheets (names : list string) (wb : workbook)
    (daily_files : list (Z * daily_file)) : result (workbook * list msg) :=
  match names with
  | [] => Ok (wb, [])
  | sheet_name :: rest =>
      '(wb, log) ← update_sheet sheet_name wb daily_files;
      '(wb, log') ← update_sheets rest wb daily_files;
      Ok (wb, log ++ log')
  end.

(** Lines 257-382, once the summary workbook is loaded and the daily
    files are listed: the result is the workbook that is saved. *)
Definition update_summary_workbook (wb : workbook)
    (daily_files : list (Z * daily_file)) : result (workbook * list msg) :=
  '(wb, log) ← update_sheets SHEET_NAMES wb daily_files;
  Ok (wb, log ++ [SavingWorkbook; Done]).

End with_pandas.

End Reconciler.

(** ** Models of the pandas interface *)

Module PandasModels.
Import Reconciler.

(** A total order that agrees with [key_le] on keys of one kind. *)
Definition rank (c : cell) : nat :=
  match c with
  | NA => 4
  | _ => kind c
  end.

Definition total_le (a b : cell) : Prop :=
  rank a < rank b ∨ (rank a = rank b ∧ key_le a b).

#[global] Instance key_le_dec : RelDecision key_le.
Proof. intros [] []; simpl; apply _. Defined.

#[global] Instance total_le_dec : RelDecision total_le.
Proof. intros a b. unfold total_le. apply _. Defined.

Definition rows_le (k : nat) : relation (list cell) :=
  λ r1 r2, total_le (cell_at k r1) (cell_at k r2).

#[global] Instance rows_le_dec k : RelDecision (rows_le k).
Proof. intros r1 r2. unfold rows_le. apply _. Defined.

(** [to_datetime] that parses no text: only timestamps are dates. *)
Definition strict_to_datetime (col : list cell) : list cell :=
  (λ c, match c with Stamp t => Stamp t | _ => NA end) <$> col.

(** Two sorts that meet the contract of [sort_values]: an insertion sort,
    which keeps rows of equal key in their input order, and the merge
    sort of stdpp, which does not. *)
Fixpoint insert_row (k : nat) (x : list cell) (l : list (list cell))
  : list (list cell) :=
  match l with
  | [] => [x]
  | y :: l' =>
      if decide (rows_le k x y) then x :: y :: l' else y :: insert_row k x l'
  end.

Definition insertion_sort (k : nat) (rows : list (list cell))
  : list (list cell) :=
  foldr (insert_row k) [] rows.

Definition stable_sort_values (k : nat) (rows : list (list cell))
  : result (list (list cell)) :=
  if sortable (column k rows) then Ok (insertion_sort k rows)
  else Raise TypeError.


End PandasModels.

(** ** File names: [get_date_from_filename] and the two patterns *)

Module FileNames.

(** [\d] on one character: among the code points below 256 the decimal
    digits are the ten ASCII digits. *)
Definition isdigit (a : ascii) : bool :=
  let n := nat_of_ascii a in
  (48 <=? n) && (n <=? 57).

(** A literal of a pattern at the start of [s]: what follows it. *)
Fixpoint literal (lit s : string) : option string :=
  match lit with
  | EmptyString => Some s
  | String a lit' =>
      match s with
      | String b s' => if decide (a = b) then literal lit' s' else None
      | EmptyString => None
      end
  end.

(** [\d{n}] at the start of [s]: the digits and what follows them. *)
Fixpoint digits (n : nat) (s : string) : option (string * string) :=
  match n with
  | 0 => Some (EmptyString, s)
  | S n' =>
      match s with
      | String a s' =>
          if isdigit a then
            '(ds, rest) ← digits n' s';
            Some (String a ds, rest)
          else None
      | EmptyString => None
      end
  end.

(** [re.search(pattern, s)]: the match at the first position that has
    one. [pattern] gives the group of a match that starts where the
    string does. *)
Fixpoint search {A} (pattern : string → option A) (s : string) : option A :=
  match pattern s with
  | Some m => Some m
  | None =>
      match s with
      | EmptyString => None
      | String _ s' => search pattern s'
      end
  end.

(** [RJODailyFOBComparative(\d{4}-\d{2}-\d{2})] *)
Definition report_pattern (s : string) : option string :=
  s ← literal "RJODailyFOBComparative" s;
  '(y, s) ← digits 4 s;
  s ← literal "-" s;
  '(m, s) ← digits 2 s;
  s ← literal "-" s;
  '(d, _) ← digits 2 s;
  Some (y +:+ "-" +:+ m +:+ "-" +:+ d).

(** Lines 54-59. *)
Definition get_date_from_filename (filename : string) : option string :=
  match search report_pattern filename with
  | Some group1 => Some group1
  | None => None
  end.

(** [FOB_(\d{8})] *)
Definition daily_pattern (s : string) : option string :=
  s ← literal "FOB_" s;
  '(d, _) ← digits 8 s;
  Some d.

(** [s.startswith(prefix)] *)
Definition startswith (prefix s : string) : bool := String.prefix prefix s.

(** [s.endswith(suffix)] *)
Fixpoint endswith (suffix s : string) : bool :=
  String.eqb s suffix ||
  match s with
  | EmptyString => false
  | String _ s' => endswith suffix s'
  end.

(** A string of [n] decimal digits. *)
Fixpoint is_digits (n : nat) (s : string) : bool :=
  match n, s with
  | 0, EmptyString => true
  | S n', String a s' => isdigit a && is_digits n' s'
  | _, _ => false
  end.

End FileNames.

(** ** Dates: what the code uses of [datetime] *)

Module Dates.
Import FileNames.
Local Open Scope Z_scope.

(** [int(s)] for a string of decimal digits. *)
Fixpoint int_from (acc : Z) (s : string) : Z :=
  match s with
  | EmptyString => acc
  | String a s' => int_from (10 * acc + (Z.of_nat (nat_of_ascii a) - 48)) s'
  end.

Definition int (s : string) : Z := int_from 0 s.

Definition is_leap (y : Z) : bool :=
  (y mod 4 =? 0) && (negb (y mod 100 =? 0) || (y mod 400 =? 0)).

Definition days_in_month (y m : Z) : Z :=
  match m with
  | 1 | 3 | 5 | 7 | 8 | 10 | 12 => 31
  | 4 | 6 | 9 | 11 => 30
  | 2 => if is_leap y then 29 else 28
  | _ => 0
  end.

(** The days that a [datetime] can hold: years 1 to 9999. *)
Definition valid_date (y m d : Z) : bool :=
  (1 <=? y) && (y <=? 9999) && (1 <=? m) && (m <=? 12)
  && (1 <=? d) && (d <=? days_in_month y m).

(** [datetime(y, m, d)], midnight of a day, as an instant: a later day
    has a larger number. *)
Definition datetime (y m d : Z) : Z := y * 10000 + m * 100 + d.

(** What the code relies on from [datetime], for the two formats it
    uses and for the strings that its two patterns let through.
    - [strptime s fmt] is [datetime.strptime(s, fmt)]: on four, two and
      two digits, with or without dashes, it gives the day they denote
      and raises [ValueError] when there is no such day.
    - [strftime t fmt] is [t.strftime(fmt)]: for a day of a year from
      1000 on, ['%Y%m%d'] gives the eight digits of the day. *)
Class Datetime : Type := {
  strptime : string → string → result Z;
  strftime : Z → string → string;
  strptime_dashed : ∀ y m d,
    is_digits 4 y = true → is_digits 2 m = true → is_digits 2 d = true →
    strptime (y +:+ "-" +:+ m +:+ "-" +:+ d) "%Y-%m-%d" =
      if valid_date (int y) (int m) (int d)
      then Ok (datetime (int y) (int m) (int d)) else Raise ValueError;
  strptime_compact : ∀ y m d,
    is_digits 4 y = true → is_digits 2 m = true → is_digits 2 d = true →
    strptime (y +:+ m +:+ d) "%Y%m%d" =
      if valid_date (int y) (int m) (int d)
      then Ok (datetime (int y) (int m) (int d)) else Raise ValueError;
  strftime_compact : ∀ y m d,
    is_digits 4 y = true → is_digits 2 m = true → is_digits 2 d = true →
    valid_date (int y) (int m) (int d) = true → 1000 ≤ int y →
    strftime (datetime (int y) (int m) (int d)) "%Y%m%d" = y +:+ m +:+ d
}.

End Dates.

(** ** The two steps on the directories: [process_daily_pdfs] and the
    listing of the daily files in [update_summary_workbook] *)

Module DailyFiles.
Import FileNames Dates.

(** What step 1 prints; [Parser] wraps the messages of
    [parse_pdf_to_dfs]. *)
Inductive step1_msg : Type :=
  | Step1
  | SkippingPdf (pdf_file : string)
  | Processing (pdf_file output_filename : string)
  | Parser (m : msg)
  | Created (output_filename : string)
  | FailedToExtract
  | ErrorProcessing (pdf_file : string) (e : exn).

(** What the block [with pd.ExcelWriter(...)] of lines 219-221 leaves
    behind: the file it saves, or the exception it raises and the file,
    if any, that is at the path then. *)
Inductive write_outcome : Type :=
  | Saved (f : Reconciler.daily_file)
  | WriteFailed (e : exn) (remains : option Reconciler.daily_file).

(** The directory [csv/]: its files by name. *)
Abbreviation directory := (gmap string Reconciler.daily_file).

(** The state in which a run of step 1 ends: the directory [csv/], the
    output, and the exception that ended the run, if one did. *)
Record run : Type := Run {
  files : directory;
  printed : list step1_msg;
  raised : option exn
}.

(** A [dict] with dates as its keys, in insertion order. *)
Fixpoint date_dict_set {V} (k : Z) (v : V) (d : list (Z * V))
  : list (Z * V) :=
  match d with
  | [] => [(k, v)]
  | (k', v') :: d' =>
      if decide (k' = k) then (k, v) :: d' else (k', v') :: date_dict_set k v d'
  end.

(** What step 2 prints before and around the loop over the sheets. *)
Inductive step2_msg : Type :=
  | Step2
  | SummaryNotFound
  | ErrorLoading (e : exn)
  | Sheets (m : msg).

Section with_libraries.
Context `{Datetime} (to_excel : Segmenter.results → write_outcome).

(** [parse_pdf_to_dfs(pdf_path, date_str)]: [src] is the document at
    the path, or what [pdfplumber] raises on it. *)
Definition parse_path (src : result Segmenter.pdf) (date : Z)
  : result (Segmenter.results * list msg) :=
  doc ← src;
  Segmenter.parse_pdf_to_dfs doc date.

(** Line 206. *)
Definition output_name (date_obj : Z) : string :=
  "FOB_" +:+ strftime date_obj "%Y%m%d" +:+ ".xlsx".

(** Lines 197-228, one iteration of the loop: the directory and the
    output after it. The conversion of line 205 is outside the [try]. *)
Definition process_pdf (pdf_file : string) (src : result Segmenter.pdf)
    (csv : directory) : result (directory * list step1_msg) :=
  match get_date_from_filename pdf_file with
  | None => Ok (csv, [SkippingPdf pdf_file])
  | Some date_str =>
      if negb (PyStr.nonempty date_str) then Ok (csv, [SkippingPdf pdf_file])
      else
        date_obj ← strptime date_str "%Y-%m-%d";
        let output_filename := output_name date_obj in
        if decide (is_Some (csv !! output_filename)) then Ok (csv, [])
        else
          let log := [Processing pdf_file output_filename] in
          match parse_path src date_obj with
          | Ok (dfs, parser_log) =>
              let log := log ++ (Parser <$> parser_log) in
              match dfs with
              | [] => Ok (csv, log ++ [FailedToExtract])
              | _ =>
                  match to_excel dfs with
                  | Saved f =>
                      Ok (<[output_filename:=f]> csv,
                          log ++ [Created output_filename])
                  | WriteFailed e remains =>
                      Ok (match remains with
                          | Some f => <[output_filename:=f]> csv
                          | None => csv
                          end,
                          log ++ [ErrorProcessing pdf_file e])
                  end
              end
          | Raise e =>
              Ok (csv, log ++ [Parser ParsingPdf; ErrorProcessing pdf_file e])
          end
  end.

(** The loop of line 196. *)
Fixpoint process_files (pdf_files : list (string * result Segmenter.pdf))
    (csv : directory) : run :=
  match pdf_files with
  | [] => Run csv [] None
  | (pdf_file, src) :: rest =>
      match process_pdf pdf_file src csv with
      | Ok (csv', log) =>
          let r := process_files rest csv' in
          Run (files r) (log ++ printed r) (raised r)
      | Raise e => Run csv [] (Some e)
      end
  end.

(** Lines 191-228. [listing] is [os.listdir(DATA_DIR)] with, for each
    name, the document at that path. *)
Definition process_daily_pdfs (listing : list (string * result Segmenter.pdf))
    (csv : directory) : run :=
  let pdf_files := filter (λ f, endswith ".pdf" f.1 = true) listing in
  let r := process_files pdf_files csv in
  Run (files r) (Step1 :: printed r) (raised r).

(** Lines 246-255: the dict [daily_files], from [os.listdir(CSV_DIR)]
    with, for each name, the file at that path. The conversion of line
    254 is in no [try]. *)
Fixpoint list_daily_files (listing : list (string * Reconciler.daily_file))
    (daily_files : list (Z * Reconciler.daily_file))
  : result (list (Z * Reconciler.daily_file)) :=
  match listing with
  | [] => Ok daily_files
  | (f, file) :: rest =>
      if startswith "FOB_" f && endswith ".xlsx" f then
        match search daily_pattern f with
        | Some d_str =>
            d_obj ← strptime d_str "%Y%m%d";
            list_daily_files rest (date_dict_set d_obj file daily_files)
        | None => list_daily_files rest daily_files
        end
      else list_daily_files rest daily_files
  end.

(** The day that lines 249-254 read in a name of [csv/]: [None] for a
    name that the loop passes over, and else what the conversion of its
    eight digits gives. Used to state properties of the loop. *)
Definition daily_date (f : string) : option (result Z) :=
  if startswith "FOB_" f && endswith ".xlsx" f then
    d_str ← search daily_pattern f;
    Some (strptime d_str "%Y%m%d")
  else None.

(** Lines 230-382. [summary] is [None] when there is no summary file,
    and else the workbook that [openpyxl.load_workbook] gives or what it
    raises; the result is the workbook that is saved, if one is. *)
Definition update_summary_file `{Reconciler.Pandas}
    (summary : option (result Reconciler.workbook))
    (listing : list (string * Reconciler.daily_file))
  : result (option Reconciler.workbook * list step2_msg) :=
  match summary with
  | None => Ok (None, [Step2; SummaryNotFound])
  | Some (Raise e) => Ok (None, [Step2; ErrorLoading e])
  | Some (Ok wb) =>
      daily_files ← list_daily_files listing [];
      '(wb', log) ← Reconciler.update_summary_workbook wb daily_files;
      Ok (Some wb', Step2 :: (Sheets <$> log))
  end.

End with_libraries.

End DailyFiles.

(** ** A model of the [datetime] interface *)

Module DatetimeModel.
Import FileNames Dates.
Local Open Scope Z_scope.

Definition digit (n : Z) : ascii := ascii_of_nat (Z.to_nat (48 + n)).

Definition show2 (n : Z) : string :=
  String (digit (n / 10 mod 10)) (String (digit (n mod 10)) EmptyString).

Definition show4 (n : Z) : string :=
  String (digit (n / 1000 mod 10))
    (String (digit (n / 100 mod 10)) (show2 n)).

Definition parse_dashed (s : string) : option (string * string * string) :=
  '(y, s) ← digits 4 s;
  s ← literal "-" s;
  '(m, s) ← digits 2 s;
  s ← literal "-" s;
  '(d, s) ← digits 2 s;
  match s with
  | EmptyString => Some (y, m, d)
  | _ => None
  end.

Definition parse_compact (s : string) : option (string * string * string) :=
  '(y, s) ← digits 4 s;
  '(m, s) ← digits 2 s;
  '(d, s) ← digits 2 s;
  match s with
  | EmptyString => Some (y, m, d)
  | _ => None
  end.

Definition model_strptime (s fmt : string) : result Z :=
  let parsed :=
    if decide (fmt = "%Y-%m-%d") then parse_dashed s
    else if decide (fmt = "%Y%m%d") then parse_compact s
    else None in
  match parsed with
  | Some (y, m, d) =>
      if valid_date (int y) (int m) (int d)
      then Ok (datetime (int y) (int m) (int d)) else Raise ValueError
  | None => Raise ValueError
  end.

Definition model_strftime (t : Z) (fmt : string) : string :=
  show4 (t / 10000) +:+ show2 (t / 100 mod 100) +:+ show2 (t mod 100).

End DatetimeModel.

(** ** Sample inputs *)

Module Samples.
Import Reconciler.

(** A grid with two section headers, at rows 0 and 3. *)
Definition sample_grid : list (list (option string)) :=
  [ [None; Some "SRW US Gulf"; None; None; None; Some "HRW Texas Gulf"];
    [Some ""; Some "vs W"; Some "Chg"; Some "Flat"; Some "Chg"; Some "vs KW"];
    [Some "Oct"; Some "95"; Some "-2"; Some "6.10"; Some "0.05"; Some "120"];
    [Some " "; Some "Footer"];
    [Some "Nov"; Some "97"] ].

Definition headers6 : list cell :=
  [Text "Month"; Text "vs W"; Text "Chg1"; Text "Flat"; Text "Chg2"; Text "Date"].

Definition sample_row (month : string) (date : Z) : list cell :=
  [Text month; Num 10; Num 1; Num 610; Num 5; Stamp date].

(** A table with two rows for day 1 and one for day 2. *)
Definition sample_table : table :=
  Table [headers6; sample_row "Oct" 1; sample_row "Nov" 1; sample_row "Oct" 2]
        (Range 1 1 6 4).

(** The file of day 3, with its own label for the comparison column. *)
Definition file_day3 : daily_file :=
  Workbook
    [("SRW_US_Gulf",
      Frame [Text "Month"; Text "vs X"; Text "Chg1"; Text "Flat"; Text "Chg2";
             Text "Date"]
            [sample_row "Oct" 3; sample_row "Nov" 3])].

(** A file whose sheet has five columns. *)
Definition file_five_columns : daily_file :=
  Workbook
    [("SRW_US_Gulf",
      Frame [Text "Month"; Text "vs W"; Text "Chg1"; Text "Flat"; Text "Chg2"]
            [[Text "Oct"; Num 10; Num 1; Num 610; Num 5]])].

(** [sample_table] once the file of day 3 is merged, and the log of that
    reconciliation when a file of five columns for day 4 is present. *)
Definition sample_result : table :=
  Table [headers6; sample_row "Oct" 1; sample_row "Nov" 1; sample_row "Oct" 2;
         sample_row "Oct" 3; sample_row "Nov" 3]
        (Range 1 1 6 6).

Definition sample_log : list msg :=
  [Updating "SRW_US_Gulf" 2; ColumnMismatch 4 "SRW_US_Gulf";
   Updated "SRW_US_Gulf" 5].

(** A file named for day 5 that holds a row dated day 3. *)
Definition file_misdated : daily_file :=
  Workbook [("SRW_US_Gulf", Frame headers6 [sample_row "Oct" 3])].


(** The file of day 1. *)
Definition file_day1 : daily_file :=
  Workbook [("SRW_US_Gulf", Frame headers6 [sample_row "Oct" 1])].


(** A file for day 3 whose first sheet has six columns, none of them
    labelled Date, and in the sixth a text that [pd.read_excel] keeps
    as a text (it is none of its default [na_values]); its second sheet
    is regular. *)
Definition file_without_date_label : daily_file :=
  Workbook
    [("SRW_US_Gulf",
      Frame [Text "Month"; Text "vs W"; Text "Chg1"; Text "Flat"; Text "Chg2";
             Text "Day"]
            [[Text "Oct"; Num 10; Num 1; Num 610; Num 5; Text "abc"]]);
     ("HRW_Texas_Gulf", Frame headers6 [sample_row "Oct" 3])].

(** A workbook with the sheets of the first two products. *)
Definition two_sheets : list (string * worksheet) :=
  [("SRW_US_Gulf", Worksheet [("SRW_US_Gulf", sample_table)]);
   ("HRW_Texas_Gulf", Worksheet [("HRW_Texas_Gulf", sample_table)])].

End Samples.

(** ** Sample directories *)

Module PipelineSamples.
Import Reconciler DailyFiles.

(** A report of one page whose first table is [sample_grid]. *)
Definition sample_pdf : Segmenter.pdf := [[Samples.sample_grid]].

(** A writer that saves one sheet without rows for every frame. *)
Definition sample_writer (dfs : Segmenter.results) : write_outcome :=
  Saved (Workbook ((λ item, (item.1, Frame [] [])) <$> dfs)).

(** The directory [data/] with the report of 15 October 2025, named as
    in the docstring of [get_date_from_filename], and a file that is
    no report. *)
Definition sample_listing : list (string * result Segmenter.pdf) :=
  [("RJODailyFOBComparative2025-10-15202510.pdf", Ok sample_pdf);
   ("notes.txt", Raise IOError)].

(** A report named for 30 February. *)
Definition misdated_listing : list (string * result Segmenter.pdf) :=
  [("RJODailyFOBComparative2025-02-30.pdf", Ok sample_pdf)].

(** The directory [csv/] with the file of a day and a copy of it. *)
Definition listing_with_copy : list (string * daily_file) :=
  [("FOB_20251015.xlsx", Samples.file_day1);
   ("FOB_20251015 (1).xlsx", Samples.file_day3)].

End PipelineSamples.

(** * Properties *)

(** ** Python strings and dicts *)

Example strip_example : PyStr.strip "  Oct 25 " = "Oct 25".
Proof. reflexivity. Qed.

Example contains_example :
  PyStr.contains "vs" "Chg vs W" = true ∧ PyStr.contains "vs" "v s" = false.
Proof. split; reflexivity. Qed.

Lemma dict_get_set_eq {V} (k : string) (v : V) d :
  dict_get k (dict_set k v d) = Some v.
Proof.
  induction d as [|[k' v'] d IH]; simpl.
  - by rewrite decide_True.
  - destruct (decide (k' = k)) as [->|Hne]; simpl.
    + by rewrite decide_True.
    + by rewrite decide_False.
Qed.

Lemma dict_get_set_ne {V} (k k' : string) (v : V) d :
  k ≠ k' → dict_get k' (dict_set k v d) = dict_get k' d.
Proof.
  intros Hne. induction d as [|[k0 v0] d IH]; simpl.
  - by rewrite decide_False.
  - destruct (decide (k0 = k)) as [->|Hne0]; simpl.
    + by rewrite !decide_False.
    + by rewrite IH.
Qed.

Lemma SHEET_NAMES_length : length SHEET_NAMES = 28.
Proof. reflexivity. Qed.

Lemma SHEET_NAMES_NoDup : NoDup SHEET_NAMES.
Proof. apply (bool_decide_unpack _). by vm_compute. Qed.

Lemma SHEET_NAMES_inj i j name :
  SHEET_NAMES !! i = Some name → SHEET_NAMES !! j = Some name → i = j.
Proof. apply NoDup_lookup, SHEET_NAMES_NoDup. Qed.

Lemma getitem_Ok {A} (l : list A) i x : l !! i = Some x → getitem l i = Ok x.
Proof. unfold getitem. by intros ->. Qed.

Lemma getitem_Raise {A} (l : list A) i :
  length l ≤ i → getitem l i = Raise IndexError.
Proof. intros Hi. unfold getitem. by rewrite lookup_ge_None_2. Qed.

(** ** The section-header scan *)

Module SegmenterProofs.
Import Segmenter Samples.

(** One step of the scan on a row that has its first two cells. *)
Lemma scan_from_cons i c0 c1 r rest :
  scan_from i ((c0 :: c1 :: r) :: rest) =
    if header_cells c0 c1 then cons i <$> scan_from (S i) rest
    else scan_from (S i) rest.
Proof.
  unfold header_cells. simpl.
  destruct (has_text c1); [|done].
  destruct (PyStr.contains "vs" (str c1)); [done|]. simpl.
  by destruct (has_text c0).
Qed.

(** A row without a second cell stops the scan, whatever follows. *)
Lemma scan_from_short i r rest :
  length r < 2 → scan_from i (r :: rest) = Raise IndexError.
Proof.
  intros Hr. cbn [scan_from]. rewrite (getitem_Raise r 1); [reflexivity|lia].
Qed.

Lemma scan_from_Exists_short rows :
  Exists (λ r, length r < 2) rows →
  ∀ i, scan_from i rows = Raise IndexError.
Proof.
  induction rows as [|r rest IH]; intros Hex i; [by inversion Hex|].
  destruct r as [|c0 [|c1 r]]; [apply scan_from_short; simpl; lia..|].
  rewrite scan_from_cons.
  inversion Hex as [? ? Hr|? ? Hrest]; subst; [simpl in Hr; lia|].
  rewrite (IH Hrest). by destruct (header_cells c0 c1).
Qed.

Lemma header_cells_true c0 c1 :
  header_cells c0 c1 = true ↔
  has_text c1 = true ∧ PyStr.contains "vs" (str c1) = false ∧ has_text c0 = false.
Proof.
  unfold header_cells. rewrite !andb_true_iff, !negb_true_iff. tauto.
Qed.

Lemma scan_from_spec rows :
  Forall (λ r, 2 ≤ length r) rows →
  ∀ i, ∃ starts,
    scan_from i rows = Ok starts ∧
    StronglySorted lt starts ∧
    ∀ j, j ∈ starts ↔ i ≤ j ∧ header_at rows (j - i).
Proof.
  induction 1 as [|r rest Hr _ IH]; intros i.
  { exists []. split; [done|]. split; [constructor|].
    intros j. split; [by intros ?%elem_of_nil|].
    by intros [_ (r & ? & ? & ? & _)]. }
  destruct r as [|c0 [|c1 r]]; [simpl in Hr; lia..|].
  destruct (IH (S i)) as (starts & Hscan & Hsorted & Hin).
  rewrite scan_from_cons, Hscan.
  assert (Hrest : ∀ j, S i ≤ j →
            header_at ((c0 :: c1 :: r) :: rest) (j - i) ↔ header_at rest (j - S i)).
  { intros j Hj. unfold header_at.
    replace (j - i) with (S (j - S i)) by lia. done. }
  destruct (header_cells c0 c1) eqn:Hhead.
  - exists (i :: starts). split; [done|]. split.
    + constructor; [done|]. apply Forall_forall. intros j Hj.
      apply Hin in Hj as [Hj _]. lia.
    + intros j. rewrite elem_of_cons, Hin. split.
      * intros [->|[Hj Hhd]].
        -- split; [done|]. rewrite Nat.sub_diag.
           apply header_cells_true in Hhead. by exists (c0 :: c1 :: r), c0, c1.
        -- split; [lia|]. by apply Hrest.
      * intros [Hj Hhd]. destruct (decide (j = i)) as [->|Hne]; [by left|].
        right. split; [lia|]. apply Hrest; [lia|done].
  - exists starts. split; [done|]. split; [done|].
    intros j. rewrite Hin. split.
    + intros [Hj Hhd]. split; [lia|]. by apply Hrest.
    + intros [Hj Hhd]. destruct (decide (j = i)) as [->|Hne].
      * rewrite Nat.sub_diag in Hhd.
        destruct Hhd as (r' & c0' & c1' & Hr' & H0 & H1 & Hh).
        simpl in Hr'. injection Hr' as <-. simpl in H0, H1.
        injection H0 as <-. injection H1 as <-.
        apply header_cells_true in Hh. congruence.
      * split; [lia|]. apply Hrest; [lia|done].
Qed.

(** C6. On a grid whose rows all have their first two cells, the scan
    returns the section boundaries: in ascending order, exactly the
    indices [j] whose row has text in its second cell, no "vs" in that
    text, and no text in its first cell. A cell has text when it is
    neither [None] nor made of white space only; "vs" is looked for as
    a substring. *)
Theorem section_header_iff (raw_data : grid) :
  Forall (λ r, 2 ≤ length r) raw_data →
  ∃ starts,
    section_starts raw_data = Ok starts ∧
    StronglySorted lt starts ∧
    ∀ j, j ∈ starts ↔ header_at raw_data j.
Proof.
  intros Hrows.
  destruct (scan_from_spec raw_data Hrows 0) as (starts & Hscan & Hsorted & Hin).
  exists starts. split; [done|]. split; [done|].
  intros j. rewrite Hin, Nat.sub_0_r. split; [by intros [_ ?]|].
  intros ?. split; [lia|done].
Qed.

Lemma section_header_iff_witness :
  ∃ starts,
    section_starts sample_grid = Ok starts ∧
    StronglySorted lt starts ∧
    ∀ j, j ∈ starts ↔ header_at sample_grid j.
Proof.
  apply (section_header_iff sample_grid).
  unfold sample_grid. repeat constructor; simpl; lia.
Defined.

Example section_starts_sample : section_starts sample_grid = Ok [0; 3].
Proof. reflexivity. Qed.

(** A cell of white space counts as a cell without text, in either
    position: the first row is a header, the second is not. *)
Example blank_cells_have_no_text :
  section_starts [[Some "  "; Some "Wheat"]; [None; Some " "]] = Ok [0] ∧
  is_valid_row [Some "  "; Some "95"] = Ok false.
Proof. split; reflexivity. Qed.

(** C10. The scan reads the cells at positions 0 and 1 of every row
    without a guard: it returns on every grid whose rows all have at
    least two cells, and on a grid with a shorter row it raises
    [IndexError]. *)
Theorem scan_unguarded :
  (∀ raw_data : grid,
     Forall (λ r, 2 ≤ length r) raw_data → is_Ok (section_starts raw_data)) ∧
  (∃ raw_data : grid,
     Exists (λ r, length r < 2) raw_data ∧
     section_starts raw_data = Raise IndexError).
Proof.
  split.
  - intros raw_data Hrows.
    destruct (scan_from_spec raw_data Hrows 0) as (starts & Hs & _).
    by exists starts.
  - exists [[None; Some "Wheat"]; [Some "Oct"]]. split; [|done].
    apply Exists_cons_tl, Exists_cons_hd. simpl. lia.
Qed.

(** *** Data rows and records *)

Lemma scan_from_Ok_rows rows :
  ∀ i starts, scan_from i rows = Ok starts → Forall (λ r, 2 ≤ length r) rows.
Proof.
  induction rows as [|r rest IH]; intros i starts Hscan; [constructor|].
  destruct r as [|c0 [|c1 r]];
    [by rewrite scan_from_short in Hscan by (simpl; lia)..|].
  rewrite scan_from_cons in Hscan.
  constructor; [simpl; lia|].
  destruct (header_cells c0 c1); [|by eapply IH].
  destruct (scan_from (S i) rest) eqn:Hrest; [by eapply IH|done].
Qed.

Lemma is_valid_row_cons c0 r : is_valid_row (c0 :: r) = Ok (valid_cell c0).
Proof.
  unfold is_valid_row, valid_cell, has_text, PyStr.len. simpl.
  destruct (truthy c0); simpl; [|done].
  destruct (PyStr.nonempty (PyStr.strip (str c0))); simpl; [|done].
  destruct (PyStr.contains "Price" _); simpl; [done|].
  destruct (PyStr.contains "Disclaimer" _); simpl; [done|].
  rewrite Nat.ltb_antisym. by destruct (_ <=? 15).
Qed.

Lemma valid_rows_filter rows :
  Forall (λ r, 2 ≤ length r) rows →
  valid_rows rows = Ok (filter (λ r, valid r = true) rows).
Proof.
  induction 1 as [|r rest Hr _ IH]; [done|].
  destruct r as [|c0 r]; [simpl in Hr; lia|].
  cbn [valid_rows]. rewrite is_valid_row_cons, IH, filter_cons. simpl.
  destruct (valid_cell c0); [by rewrite decide_True|by rewrite decide_False].
Qed.

(** The padded chunk holds the four cells of the block, a cell that the
    row does not have being [None]. *)
Lemma pad_slice_lookup (r : row) col j :
  j < 4 → pad (slice r col (col + 4)) !! j = Some (cell_or_empty r (col + j)).
Proof.
  intros Hj. unfold pad, slice, cell_or_empty.
  replace (col + 4 - col) with 4 by lia.
  destruct (decide (col + j < length r)) as [Hlt|Hge].
  - rewrite lookup_app_l by (rewrite length_take, length_drop; lia).
    rewrite lookup_take_lt, lookup_drop by done.
    destruct (lookup_lt_is_Some_2 r (col + j) Hlt) as [x ->]. done.
  - rewrite (lookup_ge_None_2 r (col + j)) by lia. simpl.
    assert (length (take 4 (drop col r)) ≤ j)
      by (rewrite length_take, length_drop; lia).
    rewrite lookup_app_r by done.
    apply lookup_replicate_2. rewrite length_take, length_drop in *. lia.
Qed.

Lemma make_entry_spec col date (r : row) :
  make_entry col date r =
    Ok (if decide (col < length r) then Some (record_of col date r) else None).
Proof.
  unfold make_entry. destruct (decide (col < length r)) as [Hlt|]; [|done].
  destruct r as [|c0 r]; [simpl in Hlt; lia|].
  rewrite (getitem_Ok (c0 :: r) 0 c0) by done.
  rewrite (getitem_Ok _ 0 _ (pad_slice_lookup (c0 :: r) col 0 ltac:(lia))).
  rewrite (getitem_Ok _ 1 _ (pad_slice_lookup (c0 :: r) col 1 ltac:(lia))).
  rewrite (getitem_Ok _ 2 _ (pad_slice_lookup (c0 :: r) col 2 ltac:(lia))).
  rewrite (getitem_Ok _ 3 _ (pad_slice_lookup (c0 :: r) col 3 ltac:(lia))).
  unfold record_of. by rewrite Nat.add_0_r.
Qed.

Lemma clean_data_valid col date (rows : list row) :
  clean_data col date (filter (λ r, valid r = true) rows) =
    Ok (rows ≫= contribution col date).
Proof.
  induction rows as [|r rest IH]; [done|].
  rewrite filter_cons, bind_cons. unfold contribution at 1.
  destruct (decide (valid r = true)) as [Hv|Hv].
  - cbn [clean_data]. rewrite make_entry_spec, IH, Hv. simpl.
    destruct (decide (col < length r)) as [Hlt|Hge].
    + by rewrite (proj2 (Nat.ltb_lt _ _) Hlt).
    + by rewrite (proj2 (Nat.ltb_ge _ _)) by lia.
  - rewrite IH. apply not_true_is_false in Hv. by rewrite Hv.
Qed.

(** *** The frames of a section *)

Section one_section.
Variables (section_idx : nat) (section_data : grid) (date : Z).

Let valid_data := filter (λ r, valid r = true) (drop 2 section_data).

Lemma blocks_spec todo :
  ∀ res res',
    blocks section_idx section_data valid_data date todo res = Ok res' →
    (∀ name,
       (∀ i, i ∈ todo → SHEET_NAMES !! (section_idx * 4 + i) ≠ Some name) →
       dict_get name res' = dict_get name res) ∧
    (StronglySorted lt todo →
     ∀ i name,
       i ∈ todo → SHEET_NAMES !! (section_idx * 4 + i) = Some name →
       dict_get name res' = Some (block_frame section_data date i)).
Proof.
  induction todo as [|i rest IH]; intros res res' Hb.
  { injection Hb as <-. split; [done|]. by intros _ i name ?%elem_of_nil. }
  cbn [blocks] in Hb.
  destruct (SHEET_NAMES !! (section_idx * 4 + i)) as [n|] eqn:Hn.
  - unfold valid_data in Hb. rewrite clean_data_valid in Hb.
    fold valid_data in Hb. apply IH in Hb as [Hother Hthis].
    split.
    + intros name Hname. rewrite Hother.
      * apply dict_get_set_ne. intros ->. by apply (Hname i); [left|].
      * intros j Hj. apply Hname. by right.
    + intros Hsorted j name Hj Hname.
      apply StronglySorted_inv in Hsorted as [Hsorted Hlt].
      apply elem_of_cons in Hj as [->|Hj]; [|by eapply Hthis].
      assert (name = n) as -> by congruence.
      rewrite Hother; [apply dict_get_set_eq|].
      intros j Hj Hj'. rewrite Forall_forall in Hlt.
      specialize (Hlt j Hj).
      pose proof (SHEET_NAMES_inj _ _ _ Hn Hj'). lia.
  - injection Hb as <-. split; [done|].
    intros Hsorted j name Hj Hname.
    apply StronglySorted_inv in Hsorted as [_ Hlt].
    apply elem_of_cons in Hj as [->|Hj]; [congruence|].
    rewrite Forall_forall in Hlt. specialize (Hlt j Hj).
    apply lookup_ge_None in Hn. apply lookup_lt_Some in Hname. lia.
Qed.

Lemma blocks_total todo res :
  is_Ok (blocks section_idx section_data valid_data date todo res).
Proof.
  revert res. induction todo as [|i rest IH]; intros res; [by eexists|].
  cbn [blocks]. destruct (SHEET_NAMES !! _); [|by eexists].
  unfold valid_data. rewrite clean_data_valid. apply IH.
Qed.

End one_section.

Lemma seq_0_4_sorted : StronglySorted lt (seq 0 4).
Proof. repeat constructor. Qed.

Lemma section_of_rows (raw_data : grid) starts s start :
  Forall (λ r, 2 ≤ length r) raw_data →
  Forall (λ r, 2 ≤ length r) (drop 2 (section_of raw_data starts s start)).
Proof.
  intros Hrows. unfold section_of, slice.
  by apply Forall_drop, Forall_take, Forall_drop.
Qed.

Lemma sections_spec (raw_data : grid) starts date :
  Forall (λ r, 2 ≤ length r) raw_data →
  ∀ todo s res res',
    sections raw_data starts date s todo res = Ok res' →
    (∀ name,
       (∀ j k, j < length todo → k < 4 →
               SHEET_NAMES !! ((s + j) * 4 + k) ≠ Some name) →
       dict_get name res' = dict_get name res) ∧
    (∀ j start k name,
       todo !! j = Some start → k < 4 →
       SHEET_NAMES !! ((s + j) * 4 + k) = Some name →
       dict_get name res' =
         Some (block_frame (section_of raw_data starts (s + j) start) date k)).
Proof.
  intros Hrows. induction todo as [|start rest IH]; intros s res res' Hs.
  { injection Hs as <-. split; [done|]. by intros. }
  cbn [sections] in Hs.
  rewrite (valid_rows_filter _ (section_of_rows _ starts s start Hrows)) in Hs.
  cbn [mbind result_bind] in Hs.
  destruct (blocks _ _ _ _ _ res) as [res1|] eqn:Hb; [|done].
  cbn [mbind result_bind] in Hs.
  apply blocks_spec in Hb as [Hb_other Hb_this].
  apply IH in Hs as [Hother Hthis].
  split.
  - intros name Hname. rewrite Hother, Hb_other; [done|..].
    + intros i Hi%elem_of_seq Hi'. apply (Hname 0 i); simpl; [lia..|].
      by rewrite Nat.add_0_r.
    + intros j k Hj Hk. replace (S s + j) with (s + S j) by lia.
      apply Hname; simpl; lia.
  - intros j start' k name Hj Hk Hname. destruct j as [|j].
    + injection Hj as <-. rewrite Nat.add_0_r in *.
      rewrite Hother.
      * apply Hb_this; [apply seq_0_4_sorted|apply elem_of_seq; lia|done].
      * intros j k' _ Hk' Hname'.
        pose proof (SHEET_NAMES_inj _ _ _ Hname Hname'). lia.
    + replace (s + S j) with (S s + j) in * by lia. by eapply Hthis.
Qed.

Lemma sections_total (raw_data : grid) starts date :
  Forall (λ r, 2 ≤ length r) raw_data →
  ∀ todo s res, is_Ok (sections raw_data starts date s todo res).
Proof.
  intros Hrows. induction todo as [|start rest IH]; intros s res; [by eexists|].
  cbn [sections].
  rewrite (valid_rows_filter _ (section_of_rows _ starts s start Hrows)).
  cbn [mbind result_bind].
  destruct (blocks_total s (section_of raw_data starts s start) date (seq 0 4) res)
    as [res1 ->].
  apply IH.
Qed.

(** The segmenter returns on every grid on which the scan does, with a
    log that mentions the number of sections only, and with the frame
    of every product it reaches. *)
Lemma segment_spec (raw_data : grid) date starts :
  section_starts raw_data = Ok starts →
  ∃ res,
    segment raw_data date =
      Ok (res, if decide (length starts = 7) then []
               else [SectionCountWarning (length starts)]) ∧
    ∀ s start k name,
      starts !! s = Some start → k < 4 →
      SHEET_NAMES !! (s * 4 + k) = Some name →
      dict_get name res =
        Some (block_frame (section_of raw_data starts s start) date k).
Proof.
  intros Hstarts. pose proof (scan_from_Ok_rows _ _ _ Hstarts) as Hrows.
  destruct (sections_total raw_data starts date Hrows starts 0 []) as [res Hres].
  exists res. split.
  - unfold segment. rewrite Hstarts. cbn [mbind result_bind].
    by rewrite Hres.
  - intros s start k name Hs Hk Hname.
    by apply (sections_spec raw_data starts date Hrows starts 0 [] res Hres).
Qed.

Lemma records_make_frame header es : records (make_frame header es) = es.
Proof. by destruct es. Qed.

Lemma columns_make_frame header es :
  columns (make_frame header es) =
    match es with
    | [] => []
    | _ => ["Month"; header; "Chg1"; "Flat"; "Chg2"; "Date"]
    end.
Proof. by destruct es. Qed.

Lemma valid_cell_true c0 :
  valid_cell c0 = true ↔
  has_text c0 = true ∧
  PyStr.contains "Price" (PyStr.strip (str c0)) = false ∧
  PyStr.contains "Disclaimer" (PyStr.strip (str c0)) = false ∧
  PyStr.len (PyStr.strip (str c0)) ≤ 15.
Proof.
  unfold valid_cell.
  rewrite !andb_true_iff, !negb_true_iff, Nat.leb_le. tauto.
Qed.

(** C7. A candidate data row is accepted exactly when its first cell
    has text and the trimmed text contains neither "Price" nor
    "Disclaimer" and has at most 15 characters. The segmenter reports
    nothing about rejected rows: its log depends on the number of
    sections only. In every section the records of each of the 4
    products are drawn from the data rows one row at a time, and a
    rejected row contributes to none of them. *)
Theorem valid_row_iff (raw_data : grid) (date : Z) (starts : list nat) :
  section_starts raw_data = Ok starts →
  (∀ (r : row) c0, r !! 0 = Some c0 →
     ∃ b, is_valid_row r = Ok b ∧
          (b = true ↔
           has_text c0 = true ∧
           PyStr.contains "Price" (PyStr.strip (str c0)) = false ∧
           PyStr.contains "Disclaimer" (PyStr.strip (str c0)) = false ∧
           PyStr.len (PyStr.strip (str c0)) ≤ 15)) ∧
  (∀ (r : row) col_start,
     is_valid_row r = Ok false → contribution col_start date r = []) ∧
  ∃ res,
    segment raw_data date =
      Ok (res, if decide (length starts = 7) then []
               else [SectionCountWarning (length starts)]) ∧
    ∀ s start k name,
      starts !! s = Some start → k < 4 →
      SHEET_NAMES !! (s * 4 + k) = Some name →
      ∃ df,
        dict_get name res = Some df ∧
        records df =
          drop 2 (section_of raw_data starts s start)
            ≫= contribution (1 + k * 4) date.
Proof.
  intros Hstarts. split; [|split].
  - intros [|c r] c0 Hc0; [done|]. injection Hc0 as ->.
    exists (valid_cell c0). split; [apply is_valid_row_cons|].
    apply valid_cell_true.
  - intros [|c0 r] col_start Hr; [done|].
    rewrite is_valid_row_cons in Hr. injection Hr as Hr.
    unfold contribution. simpl. by rewrite Hr.
  - destruct (segment_spec raw_data date starts Hstarts) as (res & Hseg & Hres).
    exists res. split; [done|].
    intros s start k name Hs Hk Hname. eexists. split; [by eapply Hres|].
    apply records_make_frame.
Qed.

(** C8, as the code has it. For every section and each of its 4 blocks
    whose product is one of the 28, the frame of the product holds, in
    row order, one record for every valid data row that has a cell at
    the first offset of the block, and none for a valid row that ends
    before it. In a record, Month is the first cell trimmed and the
    four values are the cells of the block, a cell past the end of the
    row being [None]. A frame with records has the columns Month, the
    comparison label, Chg1, Flat, Chg2 and Date, where the label is the
    trimmed text of the second row of the section at the first offset
    of the block, or "vs" when that cell is missing, [None] or the
    empty string. A frame without records has no columns. *)
Theorem block_records (raw_data : grid) (date : Z) (starts : list nat) :
  section_starts raw_data = Ok starts →
  ∃ res log,
    segment raw_data date = Ok (res, log) ∧
    ∀ s start k name,
      starts !! s = Some start → k < 4 →
      SHEET_NAMES !! (s * 4 + k) = Some name →
      let section_data := section_of raw_data starts s start in
      let col_start := 1 + k * 4 in
      let label_cell := cell_or_empty (default [] (section_data !! 1)) col_start in
      let label := if truthy label_cell then PyStr.strip (str label_cell)
                   else "vs" in
      ∃ df,
        dict_get name res = Some df ∧
        records df =
          drop 2 section_data ≫= (λ r,
            if valid r && (col_start <? length r)
            then [ {| Month := PyStr.strip (str (cell_or_empty r 0));
                      vs := cell_or_empty r col_start;
                      Chg1 := cell_or_empty r (col_start + 1);
                      Flat := cell_or_empty r (col_start + 2);
                      Chg2 := cell_or_empty r (col_start + 3);
                      Date := date |} ]
            else []) ∧
        columns df =
          match records df with
          | [] => []
          | _ => ["Month"; label; "Chg1"; "Flat"; "Chg2"; "Date"]
          end.
Proof.
  intros Hstarts.
  destruct (segment_spec raw_data date starts Hstarts) as (res & Hseg & Hres).
  exists res. eexists. split; [done|].
  intros s start k name Hs Hk Hname section_data col_start label_cell label.
  eexists. split; [by eapply Hres|].
  unfold block_frame. rewrite records_make_frame, columns_make_frame.
  split; [done|]. fold section_data col_start.
  assert (vs_header section_data col_start = label) as ->; [|done].
  unfold vs_header, label, label_cell, cell_or_empty.
  destruct (section_data !! 1) as [sub|]; simpl; [|done].
  by destruct (sub !! col_start).
Qed.

Lemma valid_row_iff_witness :
  ∃ res,
    segment sample_grid 20251015 = Ok (res, [SectionCountWarning 2]) ∧
    ∃ df, dict_get "HRW_Texas_Gulf" res = Some df ∧
          records df = [Entry "Oct" (Some "120") None None None 20251015].
Proof.
  destruct (valid_row_iff sample_grid 20251015 [0; 3] eq_refl)
    as (_ & _ & res & Hseg & Hres).
  exists res. split; [exact Hseg|].
  exact (Hres 0 0 1 "HRW_Texas_Gulf" eq_refl ltac:(lia) eq_refl).
Defined.

Lemma block_records_witness :
  ∃ res log,
    segment sample_grid 20251015 = Ok (res, log) ∧
    ∃ df, dict_get "SRW_US_Gulf" res = Some df ∧
          records df =
            [Entry "Oct" (Some "95") (Some "-2") (Some "6.10") (Some "0.05")
                   20251015] ∧
          columns df = ["Month"; "vs W"; "Chg1"; "Flat"; "Chg2"; "Date"].
Proof.
  destruct (block_records sample_grid 20251015 [0; 3] eq_refl)
    as (res & log & Hseg & Hres).
  exists res, log. split; [exact Hseg|].
  destruct (Hres 0 0 0 "SRW_US_Gulf" eq_refl ltac:(lia) eq_refl)
    as (df & Hdf & Hrecords & Hcolumns).
  exists df. split; [exact Hdf|]. split; [exact Hrecords|].
  rewrite Hcolumns, Hrecords. reflexivity.
Defined.

(** The valid row of [sample_grid] has six cells: it reaches the second
    block, where the three cells it lacks are [None], but it ends
    before the third block, and the third product gets no record. *)
Lemma short_row_skipped :
  ∃ res log r,
    segment sample_grid 20251015 = Ok (res, log) ∧
    drop 2 (section_of sample_grid [0; 3] 0 0) = [r] ∧
    is_valid_row r = Ok true ∧
    dict_get "HRW_US_PNW" res = Some (Frame [] []).
Proof. by eexists _, _, _; vm_compute. Qed.

Lemma scan_unguarded_witness : is_Ok (section_starts sample_grid).
Proof.
  apply (proj1 scan_unguarded sample_grid).
  unfold sample_grid. repeat constructor; simpl; lia.
Defined.

End SegmenterProofs.

(** ** The pandas interface has models *)

Module PandasInstances.
Import Reconciler PandasModels.

Lemma sortable_spec (keys : list cell) :
  sortable keys = true ↔
  ∀ a b, a ∈ keys → b ∈ keys → a ≠ NA → b ≠ NA → kind a = kind b.
Proof.
  unfold sortable.
  assert (Hmem : ∀ c, c ∈ filter (λ c, isna c = false) keys ↔ c ∈ keys ∧ c ≠ NA).
  { intros c. rewrite list_elem_of_filter.
    destruct c; simpl; split; intros [? ?]; split; congruence. }
  destruct (filter _ keys) as [|c cs].
  - split; [|done]. intros _ a b Ha _ Hna _.
    by apply (conj Ha), Hmem, elem_of_nil in Hna.
  - rewrite forallb_forall. split.
    + intros Hall a b Ha Hb Hna Hnb.
      assert (Hk : ∀ x, x ∈ keys → x ≠ NA → kind x = kind c).
      { intros x Hx Hxna.
        apply (conj Hx), Hmem, elem_of_cons in Hxna as [->|Hin]; [done|].
        apply Nat.eqb_eq, Hall. by apply list_elem_of_In. }
      by rewrite (Hk a), (Hk b).
    + intros Hall x Hx%list_elem_of_In. apply Nat.eqb_eq.
      assert (Hc : c ∈ keys ∧ c ≠ NA) by (apply Hmem; left).
      assert (Hx' : x ∈ keys ∧ x ≠ NA) by (apply Hmem; by right).
      apply Hall; tauto.
Qed.

Lemma sortable_Permutation (keys keys' : list cell) :
  keys ≡ₚ keys' → sortable keys = sortable keys'.
Proof.
  intros Hp. apply eq_true_iff_eq. rewrite !sortable_spec.
  by setoid_rewrite Hp.
Qed.

#[global] Instance sortable_proper : Proper ((≡ₚ) ==> (=)) sortable.
Proof. intros keys keys'. apply sortable_Permutation. Qed.

#[global] Instance total_le_total : Total total_le.
Proof.
  intros a b. unfold total_le.
  destruct a as [|s|x|x], b as [|t|y|y]; simpl; try (left; lia); try (right; lia).
  - destruct (String.leb_total s t); [left|right]; by right.
  - destruct (Z.le_ge_cases x y); [left|right]; by right.
  - destruct (Z.le_ge_cases x y); [left|right]; by right.
Qed.

#[global] Instance rows_le_total k : Total (rows_le k).
Proof. intros r1 r2. apply total_le_total. Qed.

Lemma Sorted_weaken {A} (R R' : relation A) (l : list A) :
  (∀ x y, x ∈ l → y ∈ l → R x y → R' x y) → Sorted R l → Sorted R' l.
Proof.
  intros Himpl Hsorted. induction Hsorted as [|x l Hl IH Hhd]; [constructor|].
  constructor.
  - apply IH. intros y z Hy Hz. apply Himpl; by right.
  - destruct Hhd as [|y l' Hxy]; constructor.
    apply Himpl; [by left|by right; left|done].
Qed.

Lemma total_le_key_le (keys : list cell) a b :
  sortable keys = true → a ∈ keys → b ∈ keys → total_le a b → key_le a b.
Proof.
  intros Hs Ha Hb [Hlt|[_ Hle]]; [|done].
  destruct (decide (b = NA)) as [->|Hb']; [by destruct a|].
  assert (Ha' : a ≠ NA) by (intros ->; destruct b; simpl in *; [done|lia..]).
  pose proof (proj1 (sortable_spec keys) Hs a b Ha Hb Ha' Hb') as Hk.
  destruct a, b; simpl in *; try done; lia.
Qed.

Lemma Sorted_rows_le k (rows : list (list cell)) :
  sortable (column k rows) = true →
  Sorted (rows_le k) rows → Sorted (by_key k) rows.
Proof.
  intros Hs. apply Sorted_weaken. intros r1 r2 Hr1 Hr2.
  apply (total_le_key_le (column k rows)); [done|..];
    apply list_elem_of_fmap; eauto.
Qed.

Lemma strict_to_datetime_is_date col : Forall is_date (strict_to_datetime col).
Proof.
  apply Forall_forall. intros c (c' & -> & _)%list_elem_of_fmap. by destruct c'.
Qed.

Lemma insert_row_Permutation k x l : insert_row k x l ≡ₚ x :: l.
Proof.
  induction l as [|y l IH]; [done|]. simpl.
  destruct (decide (rows_le k x y)); [done|].
  by rewrite IH, Permutation_swap.
Qed.

Lemma insert_row_Sorted k x l :
  Sorted (rows_le k) l → Sorted (rows_le k) (insert_row k x l).
Proof.
  induction 1 as [|y l Hl IH Hhd]; simpl; [by apply Sorted_cons|].
  destruct (decide (rows_le k x y)) as [Hxy|Hxy].
  - apply Sorted_cons; [by apply Sorted_cons|by apply HdRel_cons].
  - apply Sorted_cons; [done|].
    assert (Hyx : rows_le k y x) by (by destruct (total (rows_le k) x y)).
    destruct Hhd as [|z l' Hyz]; simpl; [by apply HdRel_cons|].
    destruct (decide (rows_le k x z)); by apply HdRel_cons.
Qed.

Lemma insertion_sort_Permutation k rows : insertion_sort k rows ≡ₚ rows.
Proof.
  induction rows as [|x rows IH]; [done|].
  unfold insertion_sort in *. simpl. by rewrite insert_row_Permutation, IH.
Qed.

Lemma insertion_sort_Sorted k rows : Sorted (rows_le k) (insertion_sort k rows).
Proof.
  induction rows as [|x rows IH]; [constructor|].
  by apply insert_row_Sorted.
Qed.

Lemma stable_sort_values_sorted k rows :
  sortable (column k rows) = true →
  ∃ out, stable_sort_values k rows = Ok out ∧ out ≡ₚ rows ∧ Sorted (by_key k) out.
Proof.
  intros Hs. unfold stable_sort_values. rewrite Hs. eexists. split; [done|].
  split; [apply insertion_sort_Permutation|].
  apply Sorted_rows_le; [|apply insertion_sort_Sorted].
  unfold column. by rewrite insertion_sort_Permutation.
Qed.


Definition stable_pandas : Pandas.
Proof.
  refine {| to_datetime := strict_to_datetime;
            sort_values := stable_sort_values |}.
  - intros col. apply length_fmap.
  - intros col i t Hi. unfold strict_to_datetime.
    by rewrite list_lookup_fmap, Hi.
  - intros col i Hi. unfold strict_to_datetime.
    by rewrite list_lookup_fmap, Hi.
  - apply strict_to_datetime_is_date.
  - apply stable_sort_values_sorted.
  - intros k rows Hs. unfold stable_sort_values. by rewrite Hs.
Defined.


End PandasInstances.

(** ** The reconciler *)

Module ReconcilerProofs.
Import Reconciler Samples.

Section with_pandas.
Context `{Pandas}.

(** *** Columns and dates *)

Lemma cell_at_insert k v (r : list cell) :
  cell_at k (<[k:=v]> r) = if decide (k < length r) then v else NA.
Proof.
  unfold cell_at. destruct (decide (k < length r)) as [Hlt|Hge].
  - by rewrite list_lookup_insert_eq.
  - rewrite list_insert_ge by lia. by rewrite lookup_ge_None_2 by lia.
Qed.

Lemma insert_cell_at k (r : list cell) : <[k:=cell_at k r]> r = r.
Proof.
  apply list_insert_id'. intros [c Hc]%lookup_lt_is_Some_2.
  unfold cell_at. by rewrite Hc.
Qed.

Lemma set_column_id k (rows : list (list cell)) :
  set_column k (column k rows) rows = rows.
Proof.
  unfold set_column, column.
  induction rows as [|r rows IH]; [done|]. simpl.
  f_equal; [apply insert_cell_at|apply IH].
Qed.

Lemma column_set_column_is_date k col (rows : list (list cell)) :
  Forall is_date col → Forall is_date (column k (set_column k col rows)).
Proof.
  unfold set_column, column. intros Hcol. revert rows.
  induction Hcol as [|v col Hv _ IH]; intros [|r rows]; simpl; try constructor.
  - rewrite cell_at_insert. by destruct (decide _).
  - apply IH.
Qed.

Lemma to_datetime_dates_id (col : list cell) :
  Forall is_date col → to_datetime col = col.
Proof.
  intros Hcol. apply list_eq_same_length with (length col);
    [done|apply to_datetime_length|].
  intros i x y _ Hx Hy. rewrite Forall_forall in Hcol.
  assert (Hd : is_date y) by (eapply Hcol, list_elem_of_lookup_2, Hy).
  destruct y; try done.
  - apply to_datetime_NA in Hy. congruence.
  - apply to_datetime_Stamp in Hy. congruence.
Qed.

Lemma coerced_rows_is_date k rows :
  Forall is_date (column k (coerced_rows k rows)).
Proof. apply column_set_column_is_date, to_datetime_is_date. Qed.

Lemma coerced_rows_id k rows :
  Forall is_date (column k rows) → coerced_rows k rows = rows.
Proof.
  intros Hcol. unfold coerced_rows.
  by rewrite to_datetime_dates_id, set_column_id.
Qed.

Lemma coerced_rows_length k rows : length (coerced_rows k rows) = length rows.
Proof.
  unfold coerced_rows, set_column.
  rewrite length_zip_with_l_eq; [done|].
  unfold column. by rewrite to_datetime_length, length_fmap.
Qed.

(** A timestamp stays where it is when the column is coerced. *)
Lemma coerced_rows_Stamp k rows i r t :
  rows !! i = Some r → cell_at k r = Stamp t →
  ∃ r', coerced_rows k rows !! i = Some r' ∧ cell_at k r' = Stamp t.
Proof.
  intros Hi Hr. unfold coerced_rows, set_column.
  assert (Hcol : to_datetime (column k rows) !! i = Some (Stamp t)).
  { apply to_datetime_Stamp. unfold column.
    by rewrite list_lookup_fmap, Hi, <- Hr. }
  exists (<[k:=Stamp t]> r). split.
  - rewrite lookup_zip_with, Hi. simpl. by rewrite Hcol.
  - rewrite cell_at_insert. destruct (decide (k < length r)); [done|].
    unfold cell_at in Hr. by rewrite lookup_ge_None_2 in Hr by lia.
Qed.


Lemma elem_of_column k (rows : list (list cell)) c :
  c ∈ column k rows ↔ ∃ r, r ∈ rows ∧ cell_at k r = c.
Proof.
  unfold column. rewrite list_elem_of_fmap.
  split; intros (r & ? & ?); exists r; by split.
Qed.

Lemma the_column_elem label cols dup k :
  the_column label cols dup = Ok k → label ∈ cols.
Proof.
  unfold the_column, positions. intros Hk.
  assert (Hne : positions_from 0 label cols ≠ [])
    by (by destruct (positions_from 0 label cols)).
  clear Hk. revert Hne. generalize 0.
  induction cols as [|c cols IH]; intros n Hne; [done|]. simpl in Hne.
  destruct (decide (c = label)) as [->|_]; [by left|].
  right. by eapply IH.
Qed.

(** *** The steps of the reconciliation *)

Lemma remove_empty_rows_filter headers rows kept :
  remove_empty_rows headers rows = Ok kept →
  kept = filter (λ r, kept_by_cleanup headers r = true) rows.
Proof.
  unfold remove_empty_rows, kept_by_cleanup, dropna_all.
  destruct (positions (Text "Month") headers) as [|m [|]]; intros Hk;
    [| |done]; injection Hk as <-.
  - apply list_filter_iff. intros r.
    rewrite andb_true_r, negb_true_iff. done.
  - rewrite list_filter_filter. apply list_filter_iff. intros r.
    rewrite andb_true_iff, negb_true_iff. tauto.
Qed.

Lemma sort_values_Ok k rows sorted :
  sort_values k rows = Ok sorted →
  sortable (column k rows) = true ∧ sorted ≡ₚ rows ∧ Sorted (by_key k) sorted.
Proof.
  intros Hsort. destruct (sortable (column k rows)) eqn:Hs.
  - destruct (sort_values_sorted k rows Hs) as (out & Hout & Hperm & Hsorted).
    rewrite Hout in Hsort. injection Hsort as <-. done.
  - by rewrite (sort_values_raises k rows Hs) in Hsort.
Qed.

(** What the rewriting of a table produces: the rows that the cleanup
    keeps among the coerced rows and the new rows, in ascending order of
    the Date. *)
Lemma append_and_sort_Ok headers k df_rows new_rows sorted :
  append_and_sort headers k df_rows new_rows = Ok sorted →
  let kept := filter (λ r, kept_by_cleanup headers r = true)
                     (df_rows ++ mjoin (values <$> new_rows)) in
  sortable (column k kept) = true ∧ sorted ≡ₚ kept ∧ Sorted (by_key k) sorted.
Proof.
  intros Hs kept. unfold append_and_sort in Hs.
  destruct (remove_empty_rows headers _) as [kept'|] eqn:Hkept; [|done].
  apply remove_empty_rows_filter in Hkept. subst kept'.
  by apply sort_values_Ok.
Qed.

Lemma load_new_rows_cons cols sheet d f rest :
  load_new_rows cols sheet ((d, f) :: rest) =
    let new_rows := (load_new_rows cols sheet rest).1 in
    let log := (load_new_rows cols sheet rest).2 in
    match prepare cols f sheet with
    | Ok (Some daily_df) => (daily_df :: new_rows, log)
    | Ok None => (new_rows, ColumnMismatch d sheet :: log)
    | Raise e => (new_rows, ErrorReading d e :: log)
    end.
Proof. simpl. by destruct (load_new_rows cols sheet rest). Qed.

(** The frames that the loop admits, in the order of the files. *)
Lemma load_new_rows_frames cols sheet updates :
  (load_new_rows cols sheet updates).1 =
    omap (λ item, match prepare cols item.2 sheet with
                  | Ok (Some daily_df) => Some daily_df
                  | _ => None
                  end) updates.
Proof.
  induction updates as [|[d f] rest IH]; [done|].
  rewrite load_new_rows_cons. cbn -[load_new_rows prepare]. rewrite <- IH.
  by destruct (prepare cols f sheet) as [[?|]|].
Qed.

Lemma elem_of_load_new_rows cols sheet updates daily_df :
  daily_df ∈ (load_new_rows cols sheet updates).1 ↔
  ∃ d f, (d, f) ∈ updates ∧ prepare cols f sheet = Ok (Some daily_df).
Proof.
  rewrite load_new_rows_frames, list_elem_of_omap. split.
  - intros ([d f] & Hin & Hp). exists d, f. split; [done|]. simpl in Hp.
    destruct (prepare cols f sheet) as [[?|]|]; congruence.
  - intros (d & f & Hin & Hp). exists (d, f). split; [done|]. simpl.
    by rewrite Hp.
Qed.

(** The loop reports mismatches and read errors only. *)
Lemma load_new_rows_log cols sheet updates m :
  m ∈ (load_new_rows cols sheet updates).2 →
  ∃ d f, (d, f) ∈ updates ∧
         (m = ColumnMismatch d sheet ∧ prepare cols f sheet = Ok None ∨
          ∃ e, m = ErrorReading d e ∧ prepare cols f sheet = Raise e).
Proof.
  induction updates as [|[d f] rest IH]; [by intros ?%elem_of_nil|].
  rewrite load_new_rows_cons. simpl.
  assert (Hrest : m ∈ (load_new_rows cols sheet rest).2 →
            ∃ d0 f0, (d0, f0) ∈ (d, f) :: rest ∧
              (m = ColumnMismatch d0 sheet ∧ prepare cols f0 sheet = Ok None ∨
               ∃ e, m = ErrorReading d0 e ∧ prepare cols f0 sheet = Raise e)).
  { intros (d0 & f0 & Hin & Hm)%IH. exists d0, f0. split; [by right|done]. }
  destruct (prepare cols f sheet) as [[?|]|e] eqn:Hp; simpl; [done|..].
  - intros [->|Hm]%elem_of_cons; [|by apply Hrest].
    exists d, f. split; [by left|]. by left.
  - intros [->|Hm]%elem_of_cons; [|by apply Hrest].
    exists d, f. split; [by left|]. right. by exists e.
Qed.

(** *** The two ways a reconciliation returns *)

(** The reconciliation of a table with a Date column, unfolded. *)
Lemma reconcile_unfold sheet t daily headers rows k :
  data t = headers :: rows →
  the_column (Text "Date") headers ValueError = Ok k →
  reconcile sheet t daily =
    let df_rows := coerced_rows k rows in
    let updates := updates_needed (existing_dates (column k df_rows)) daily in
    match updates with
    | [] => Ok (t, [])
    | _ =>
        let new_rows := (load_new_rows headers sheet updates).1 in
        let log := Updating sheet (length updates)
                   :: (load_new_rows headers sheet updates).2 in
        match new_rows with
        | [] => Ok (t, log)
        | _ =>
            sorted ← append_and_sort headers k df_rows new_rows;
            Ok (write_back t headers sorted,
                log ++ [Updated sheet (length sorted)])
        end
    end.
Proof.
  intros Hdata Hk. unfold reconcile. rewrite Hdata.
  rewrite decide_True by (by eapply the_column_elem).
  unfold coerce_dates. cbn [columns values]. rewrite Hk.
  cbn [mbind result_bind values].
  destruct (updates_needed _ daily) as [|u updates]; [done|].
  by destruct (load_new_rows headers sheet (u :: updates)) as [new_rows log].
Qed.

(** Either the table is returned as it was, without a word about an
    update, or it is rewritten from the sorted rows. *)
Lemma reconcile_Ok sheet t daily t' log :
  reconcile sheet t daily = Ok (t', log) →
  (t' = t ∧ ∀ n, Updated sheet n ∉ log) ∨
  ∃ headers rows k sorted,
    data t = headers :: rows ∧
    the_column (Text "Date") headers ValueError = Ok k ∧
    let df_rows := coerced_rows k rows in
    let updates := updates_needed (existing_dates (column k df_rows)) daily in
    let new_rows := (load_new_rows headers sheet updates).1 in
    new_rows ≠ [] ∧
    append_and_sort headers k df_rows new_rows = Ok sorted ∧
    t' = write_back t headers sorted ∧
    log = (Updating sheet (length updates)
           :: (load_new_rows headers sheet updates).2)
          ++ [Updated sheet (length sorted)].
Proof.
  intros Hrec.
  destruct (data t) as [|headers rows] eqn:Hdata.
  { left. unfold reconcile in Hrec. rewrite Hdata in Hrec.
    injection Hrec as <- <-. split; [done|].
    intros n [Hn|Hn%elem_of_nil]%elem_of_cons; done. }
  destruct (decide (Text "Date" ∈ headers)) as [Hdate|Hdate]; cycle 1.
  { left. unfold reconcile in Hrec. rewrite Hdata, decide_False in Hrec by done.
    injection Hrec as <- <-. split; [done|].
    intros n [Hn|Hn%elem_of_nil]%elem_of_cons; done. }
  destruct (the_column (Text "Date") headers ValueError) as [k|e] eqn:Hk; cycle 1.
  { unfold reconcile, coerce_dates in Hrec.
    rewrite Hdata, decide_True in Hrec by done.
    cbn [columns] in Hrec. by rewrite Hk in Hrec. }
  rewrite (reconcile_unfold sheet t daily headers rows k Hdata Hk) in Hrec.
  cbn zeta in Hrec.
  destruct (updates_needed _ daily) as [|u us] eqn:Hupd.
  { left. injection Hrec as <- <-. split; [done|]. by intros n ?%elem_of_nil. }
  assert (Hne : u :: us ≠ []) by done.
  remember (u :: us) as updates eqn:Hus. clear Hus.
  assert (Hrec' :
    match (load_new_rows headers sheet updates).1 with
    | [] => Ok (t, Updating sheet (length updates)
                   :: (load_new_rows headers sheet updates).2)
    | _ => sorted ← append_and_sort headers k (coerced_rows k rows)
                       (load_new_rows headers sheet updates).1;
           Ok (write_back t headers sorted,
               (Updating sheet (length updates)
                :: (load_new_rows headers sheet updates).2)
               ++ [Updated sheet (length sorted)])
    end = Ok (t', log)) by (by destruct updates).
  clear Hrec. rename Hrec' into Hrec.
  destruct (load_new_rows headers sheet updates).1 as [|fr new_rows] eqn:Hnew.
  { left. injection Hrec as <- <-. split; [done|].
    intros n [Hn|Hn]%elem_of_cons; [done|].
    apply load_new_rows_log in Hn as (d & f & _ & [[Hn _]|(e & Hn & _)]); done. }
  right.
  destruct (append_and_sort headers k _ (fr :: new_rows)) as [sorted|] eqn:Hs;
    [|done].
  cbn [mbind result_bind] in Hrec. injection Hrec as <- <-.
  exists headers, rows, k, sorted. cbn zeta. rewrite Hupd, Hnew.
  done.
Qed.

(** *** The range and the order of a rewritten table *)

(** C5. When the reconciliation rewrites a table, the new range has the
    [min_col], [min_row] and [max_col] of the old one, and its [max_row]
    is [min_row + 1 + (number of data rows) - 1]. *)
Theorem range_recomputed sheet t daily t' log :
  reconcile sheet t daily = Ok (t', log) →
  t' ≠ t ∨ (∃ n, Updated sheet n ∈ log) →
  min_col (ref t') = min_col (ref t) ∧
  min_row (ref t') = min_row (ref t) ∧
  max_col (ref t') = max_col (ref t) ∧
  max_row (ref t') =
    (min_row (ref t) + 1 + Z.of_nat (length (tail (data t'))) - 1)%Z.
Proof.
  intros Hrec Hmut.
  apply reconcile_Ok in Hrec
    as [[-> Hlog]|(headers & rows & k & sorted & _ & _ & _ & _ & -> & _)].
  - destruct Hmut as [?|[n Hn]]; [done|]. by apply Hlog in Hn.
  - unfold write_back. cbn [ref data min_col min_row max_col max_row tail].
    repeat split. rewrite length_cons. lia.
Qed.


(** *** Alignment by position and column mismatch *)

Lemma positions_from_elem n label cols :
  label ∈ cols → positions_from n label cols ≠ [].
Proof.
  revert n. induction cols as [|c cols IH]; intros n Hin;
    [by apply elem_of_nil in Hin|].
  simpl. destruct (decide (c = label)) as [|Hne]; [done|].
  apply elem_of_cons in Hin as [->|Hin]; [done|]. by apply IH.
Qed.

(** Coercing the dates of a frame changes no label and no cell outside
    the Date column. *)
Lemma coerced_rows_lookup k rows i r :
  rows !! i = Some r →
  ∃ v, coerced_rows k rows !! i = Some (<[k:=v]> r).
Proof.
  intros Hi. unfold coerced_rows, set_column.
  destruct (lookup_lt_is_Some_2 (to_datetime (column k rows)) i) as [v Hv].
  { rewrite to_datetime_length. unfold column. rewrite length_fmap.
    by eapply lookup_lt_Some. }
  exists v. by rewrite lookup_zip_with, Hi, Hv.
Qed.

Lemma coerce_dates_Ok df df' :
  coerce_dates df = Ok df' →
  columns df' = columns df ∧
  ∃ k, the_column (Text "Date") (columns df) ValueError = Ok k ∧
       values df' = coerced_rows k (values df).
Proof.
  unfold coerce_dates.
  destruct (the_column _ _ _) as [k|] eqn:Hk; [|done].
  intros [= <-]. split; [done|]. by exists k.
Qed.

Lemma coerce_dates_Raise df e :
  Text "Date" ∈ columns df → coerce_dates df = Raise e → e = ValueError.
Proof.
  intros Hin. unfold coerce_dates, the_column, positions.
  pose proof (positions_from_elem 0 _ _ Hin).
  destruct (positions_from 0 _ _) as [|k [|]]; [done|done|].
  by intros [= <-].
Qed.

(** What the body of the [try] does with a file that reads. *)
Lemma prepare_read headers f sheet daily_df :
  read_excel f sheet = Ok daily_df →
  prepare headers f sheet =
    daily_df' ← (if decide (Text "Date" ∈ columns daily_df)
                 then coerce_dates daily_df else Ok daily_df);
    if decide (length (columns daily_df') = length headers)
    then Ok (Some (Frame headers (values daily_df')))
    else Ok None.
Proof. intros Hread. unfold prepare. by rewrite Hread. Qed.

Lemma prepare_mismatch headers f sheet daily_df :
  read_excel f sheet = Ok daily_df →
  length (columns daily_df) ≠ length headers →
  prepare headers f sheet = Ok None ∨
  prepare headers f sheet = Raise ValueError.
Proof.
  intros Hread Hlen. rewrite (prepare_read _ _ _ _ Hread).
  destruct (decide (Text "Date" ∈ columns daily_df)) as [Hin|_].
  - destruct (coerce_dates daily_df) as [df'|e] eqn:Hc.
    + apply coerce_dates_Ok in Hc as [Hcols _]. left.
      cbn [mbind result_bind]. rewrite Hcols. by rewrite decide_False.
    + right. by rewrite (coerce_dates_Raise _ _ Hin Hc).
  - left. cbn [mbind result_bind]. by rewrite decide_False.
Qed.

Lemma prepare_Some headers f sheet fr :
  prepare headers f sheet = Ok (Some fr) →
  ∃ daily_df,
    read_excel f sheet = Ok daily_df ∧
    length (columns daily_df) = length headers ∧
    columns fr = headers ∧
    (values fr = values daily_df ∨
     ∃ k, the_column (Text "Date") (columns daily_df) ValueError = Ok k ∧
          values fr = coerced_rows k (values daily_df)).
Proof.
  intros Hp. destruct (read_excel f sheet) as [daily_df|] eqn:Hread;
    [|by unfold prepare in Hp; rewrite Hread in Hp].
  rewrite (prepare_read _ _ _ _ Hread) in Hp. exists daily_df. split; [done|].
  destruct (decide (Text "Date" ∈ columns daily_df)) as [Hin|_].
  - destruct (coerce_dates daily_df) as [df'|e] eqn:Hc; [|done].
    apply coerce_dates_Ok in Hc as (Hcols & k & Hk & Hvals).
    cbn [mbind result_bind] in Hp. rewrite Hcols in Hp.
    destruct (decide (_ = _)) as [Hlen|]; [|done]. injection Hp as <-.
    split; [done|]. split; [done|]. right. exists k. by rewrite <- Hvals.
  - cbn [mbind result_bind] in Hp.
    destruct (decide (_ = _)) as [Hlen|]; [|done]. injection Hp as <-.
    split; [done|]. split; [done|]. by left.
Qed.

(** The table that a reconciliation returns is determined by the frames
    the loop admits. *)
Lemma reconcile_table sheet t daily headers rows k :
  data t = headers :: rows →
  the_column (Text "Date") headers ValueError = Ok k →
  fst <$> reconcile sheet t daily =
    let df_rows := coerced_rows k rows in
    let updates := updates_needed (existing_dates (column k df_rows)) daily in
    match (load_new_rows headers sheet updates).1 with
    | [] => Ok t
    | new_rows =>
        write_back t headers <$> append_and_sort headers k df_rows new_rows
    end.
Proof.
  intros Hdata Hk. rewrite (reconcile_unfold _ _ _ _ _ _ Hdata Hk). cbn zeta.
  destruct (updates_needed _ daily) as [|u us] eqn:Hupd; [done|].
  remember (u :: us) as updates eqn:Hus.
  assert (updates ≠ []) by (by subst).
  destruct updates as [|u' us']; [done|]. clear Hus.
  destruct (load_new_rows headers sheet (u' :: us')).1; [done|].
  by destruct (append_and_sort _ _ _ _).
Qed.

Lemma positions_from_lookup n label cols k :
  k ∈ positions_from n label cols → n ≤ k ∧ cols !! (k - n) = Some label.
Proof.
  revert n. induction cols as [|c cols IH]; intros n Hk;
    [by apply elem_of_nil in Hk|].
  simpl in Hk.
  assert (Hrest : k ∈ positions_from (S n) label cols →
            n ≤ k ∧ (c :: cols) !! (k - n) = Some label).
  { intros [Hle Hl]%IH. split; [lia|].
    by replace (k - n) with (S (k - S n)) by lia. }
  destruct (decide (c = label)) as [->|_]; [|by apply Hrest].
  apply elem_of_cons in Hk as [->|Hk]; [|by apply Hrest].
  split; [done|]. by rewrite Nat.sub_diag.
Qed.

Lemma the_column_lookup label cols dup k :
  the_column label cols dup = Ok k → cols !! k = Some label.
Proof.
  unfold the_column, positions. intros Hk.
  destruct (positions_from 0 label cols) as [|k' [|]] eqn:Hpos; [done| |done].
  injection Hk as ->.
  destruct (positions_from_lookup 0 label cols k) as [_ Hl];
    [rewrite Hpos; by left|].
  by rewrite Nat.sub_0_r in Hl.
Qed.

Lemma load_new_rows_reports cols sheet updates d f :
  (d, f) ∈ updates →
  (prepare cols f sheet = Ok None →
   ColumnMismatch d sheet ∈ (load_new_rows cols sheet updates).2) ∧
  (∀ e, prepare cols f sheet = Raise e →
        ErrorReading d e ∈ (load_new_rows cols sheet updates).2).
Proof.
  induction updates as [|[d' f'] rest IH]; [by intros ?%elem_of_nil|].
  intros Hin. rewrite load_new_rows_cons. cbn zeta.
  apply elem_of_cons in Hin as [[= <- <-]|Hin].
  - split; [intros ->; by left|intros e ->; by left].
  - destruct (IH Hin) as [IH1 IH2].
    destruct (prepare cols f' sheet) as [[?|]|e']; simpl;
      (split; [intros Hp|intros e Hp]); try right; auto.
Qed.

Lemma reconcile_log sheet t daily headers rows k t' log m :
  data t = headers :: rows →
  the_column (Text "Date") headers ValueError = Ok k →
  reconcile sheet t daily = Ok (t', log) →
  m ∈ (load_new_rows headers sheet
         (updates_needed (existing_dates (column k (coerced_rows k rows)))
                         daily)).2 →
  m ∈ log.
Proof.
  intros Hdata Hk Hrec.
  rewrite (reconcile_unfold _ _ _ _ _ _ Hdata Hk) in Hrec. cbn zeta in Hrec.
  destruct (updates_needed _ daily) as [|u us] eqn:Hupd;
    [by intros ?%elem_of_nil|].
  remember (u :: us) as updates eqn:Hus.
  assert (updates ≠ []) by (by subst).
  destruct updates as [|u' us']; [done|]. clear Hus.
  destruct (load_new_rows headers sheet (u' :: us')).1.
  - injection Hrec as <- <-. by right.
  - destruct (append_and_sort _ _ _ _); [|done].
    injection Hrec as <- <-. intros Hm.
    apply elem_of_cons. right. apply elem_of_app. by left.
Qed.

(** C3. The frame of an admitted batch takes the labels of the table
    and keeps every cell at its position, whatever its own labels are;
    coercion touches its Date column only. A batch that reads and whose
    number of columns differs from that of the table is never appended:
    the table comes out as it does without the batch, and when the date
    of the batch passes the date filter the log holds a warning for it,
    the column mismatch or, for a batch with several Date columns, the
    error of the coercion. *)
Theorem mismatch_rejected sheet t headers rows k l1 d f l2 daily_df :
  data t = headers :: rows →
  the_column (Text "Date") headers ValueError = Ok k →
  read_excel f sheet = Ok daily_df →
  length (columns daily_df) ≠ length headers →
  fst <$> reconcile sheet t (l1 ++ (d, f) :: l2) =
    fst <$> reconcile sheet t (l1 ++ l2) ∧
  (d ∉ existing_dates (column k (coerced_rows k rows)) →
   ∀ t' log,
     reconcile sheet t (l1 ++ (d, f) :: l2) = Ok (t', log) →
     ColumnMismatch d sheet ∈ log ∨ ErrorReading d ValueError ∈ log) ∧
  (∀ f' fr,
     prepare headers f' sheet = Ok (Some fr) →
     ∃ df',
       read_excel f' sheet = Ok df' ∧
       length (columns df') = length headers ∧
       columns fr = headers ∧
       length (values fr) = length (values df') ∧
       ∀ i r, values df' !! i = Some r →
         ∃ r', values fr !! i = Some r' ∧
               ∀ j, columns df' !! j ≠ Some (Text "Date") → r' !! j = r !! j).
Proof.
  intros Hdata Hk Hread Hlen.
  pose proof (prepare_mismatch headers f sheet daily_df Hread Hlen) as Hp.
  split; [|split].
  - rewrite !(reconcile_table _ _ _ _ _ _ Hdata Hk). cbn zeta.
    assert (Hframes :
      (load_new_rows headers sheet
         (updates_needed (existing_dates (column k (coerced_rows k rows)))
                         (l1 ++ (d, f) :: l2))).1 =
      (load_new_rows headers sheet
         (updates_needed (existing_dates (column k (coerced_rows k rows)))
                         (l1 ++ l2))).1); [|by rewrite Hframes].
    rewrite !load_new_rows_frames. unfold updates_needed.
    rewrite !filter_app, filter_cons, !omap_app.
    destruct (decide _); [|done]. simpl.
    by destruct Hp as [-> | ->].
  - intros Hd t' log Hrec.
    assert (Hin : (d, f) ∈ updates_needed
              (existing_dates (column k (coerced_rows k rows)))
              (l1 ++ (d, f) :: l2)).
    { apply list_elem_of_filter. split; [done|].
      apply elem_of_app. right. by left. }
    destruct (load_new_rows_reports headers sheet _ d f Hin) as [Hm He].
    destruct Hp as [Hp|Hp]; [left|right];
      eapply reconcile_log; eauto.
  - intros f' fr Hfr.
    apply prepare_Some in Hfr as (df' & Hread' & Hlen' & Hcols & Hvals).
    exists df'. do 3 (split; [done|]).
    destruct Hvals as [->|(kd & Hkd & ->)].
    + split; [done|]. intros i r Hi. by exists r.
    + split; [apply coerced_rows_length|]. intros i r Hi.
      destruct (coerced_rows_lookup kd _ i r Hi) as [v Hv].
      exists (<[kd:=v]> r). split; [done|]. intros j Hj.
      apply list_lookup_insert_ne. intros ->.
      by rewrite (the_column_lookup _ _ _ _ Hkd) in Hj.
Qed.

(** *** Dates that the table already has *)

Lemma filter_length_Forall2 {A B} (P : A → Prop) (Q : B → Prop)
    `{!∀ x, Decision (P x), !∀ x, Decision (Q x)} l1 l2 :
  Forall2 (λ a b, P a → Q b) l1 l2 →
  length (filter P l1) ≤ length (filter Q l2).
Proof.
  induction 1 as [|a b l1 l2 Hab _ IH]; [done|].
  rewrite !filter_cons.
  destruct (decide (P a)) as [Ha|_].
  - rewrite decide_True by auto. simpl. lia.
  - destruct (decide (Q b)); simpl; lia.
Qed.

Lemma filter_nil_Forall {A} (P : A → Prop) `{!∀ x, Decision (P x)} (l : list A) :
  (∀ x, x ∈ l → ¬ P x) → filter P l = [].
Proof.
  induction l as [|x l IH]; intros Hl; [done|].
  rewrite filter_cons, decide_False by (apply Hl; by left).
  apply IH. intros y Hy. apply Hl. by right.
Qed.

Lemma filter_filter_length {A} (P Q : A → Prop)
    `{!∀ x, Decision (P x), !∀ x, Decision (Q x)} (l : list A) :
  length (filter P (filter Q l)) ≤ length (filter P l).
Proof.
  rewrite list_filter_filter.
  rewrite (list_filter_iff _ (λ x, Q x ∧ P x)) by (intros x; tauto).
  rewrite <- list_filter_filter. apply length_filter.
Qed.

(** Coercion keeps every timestamp: a date of the raw column is a date of
    the coerced one, row by row. *)
Lemma coerced_rows_keeps_stamps k rows d :
  Forall2 (λ r r', cell_at k r = Stamp d → cell_at k r' = Stamp d)
          rows (coerced_rows k rows).
Proof.
  apply Forall2_same_length_lookup. split; [by rewrite coerced_rows_length|].
  intros i r r' Hr Hr' Hd.
  destruct (coerced_rows_Stamp k rows i r d Hr Hd) as (r'' & Hr'' & Hd').
  congruence.
Qed.

(** The rows of the admitted frames come from files whose date is not in
    the Date column. *)
Lemma elem_of_new_data headers sheet dates daily r :
  r ∈ mjoin (values <$> (load_new_rows headers sheet
                           (updates_needed dates daily)).1) →
  ∃ d f daily_df,
    (d, f) ∈ daily ∧ (d ∉ dates) ∧
    prepare headers f sheet = Ok (Some daily_df) ∧ r ∈ values daily_df.
Proof.
  intros (vals & Hr & (fr & -> & Hfr)%list_elem_of_fmap)%list_elem_of_join.
  apply elem_of_load_new_rows in Hfr as (d & f & Hin & Hp).
  apply list_elem_of_filter in Hin as [Hd Hin].
  by exists d, f, fr.
Qed.

(** C2, as the code has it. Rows are not unique by Date. What the date
    filter gives is that no row is added for a Date that the Date column
    already has: when the rows of every daily file that passes the filter
    and is admitted carry the date of their file, the produced table has,
    for each Date of the existing table, at most as many rows with that
    Date as before. *)
Theorem no_row_added_for_existing_date sheet t daily t' log headers rows k :
  data t = headers :: rows →
  the_column (Text "Date") headers ValueError = Ok k →
  reconcile sheet t daily = Ok (t', log) →
  (∀ d f daily_df r,
     (d, f) ∈ daily →
     d ∉ existing_dates (column k (coerced_rows k rows)) →
     prepare headers f sheet = Ok (Some daily_df) →
     r ∈ values daily_df → cell_at k r = Stamp d) →
  ∀ d, d ∈ existing_dates (column k (coerced_rows k rows)) →
    length (filter (λ r, cell_at k r = Stamp d) (tail (data t'))) ≤
    length (filter (λ r, cell_at k r = Stamp d) (coerced_rows k rows)).
Proof.
  intros Hdata Hk Hrec Hstamped d Hd.
  apply reconcile_Ok in Hrec
    as [[-> _]|(headers' & rows' & k' & sorted & Hdata' & Hk' & _ & Hs & -> & _)].
  - rewrite Hdata. cbn [tail].
    apply filter_length_Forall2, coerced_rows_keeps_stamps.
  - rewrite Hdata in Hdata'. injection Hdata' as <- <-.
    rewrite Hk in Hk'. injection Hk' as <-.
    apply append_and_sort_Ok in Hs as (_ & Hperm & _).
    cbn [write_back data tail]. rewrite Hperm.
    etrans; [apply filter_filter_length|].
    rewrite filter_app, length_app.
    assert (Hnone : filter (λ r, cell_at k r = Stamp d)
              (mjoin (values <$> (load_new_rows headers sheet
                 (updates_needed
                    (existing_dates (column k (coerced_rows k rows)))
                    daily)).1)) = []).
    { apply filter_nil_Forall. intros r Hr Hrd.
      apply elem_of_new_data in Hr as (d' & f & daily_df & Hin & Hd' & Hp & Hr).
      rewrite (Hstamped d' f daily_df r Hin Hd' Hp Hr) in Hrd.
      by injection Hrd as ->. }
    rewrite Hnone. simpl. lia.
Qed.

(** *** Running the reconciliation again *)






End with_pandas.

Lemma sample_reconcile :
  @reconcile PandasInstances.stable_pandas "SRW_US_Gulf" sample_table
             [(3%Z, file_day3); (4%Z, file_five_columns)]
  = Ok (sample_result, sample_log).
Proof. vm_compute. reflexivity. Qed.

Lemma range_recomputed_witness :
  min_col (ref sample_result) = 1%Z ∧
  min_row (ref sample_result) = 1%Z ∧
  max_col (ref sample_result) = 6%Z ∧
  max_row (ref sample_result) = 6%Z.
Proof.
  apply (range_recomputed (H:=PandasInstances.stable_pandas) "SRW_US_Gulf"
           sample_table [(3%Z, file_day3); (4%Z, file_five_columns)]
           sample_result sample_log).
  - vm_compute. reflexivity.
  - left. discriminate.
Defined.


Lemma mismatch_rejected_witness :
  fst <$> @reconcile PandasInstances.stable_pandas "SRW_US_Gulf" sample_table
            ([(3%Z, file_day3)] ++ (4%Z, file_five_columns) :: []) =
    fst <$> @reconcile PandasInstances.stable_pandas "SRW_US_Gulf" sample_table
              ([(3%Z, file_day3)] ++ []) ∧
  (ColumnMismatch 4 "SRW_US_Gulf" ∈ sample_log ∨
   ErrorReading 4 ValueError ∈ sample_log).
Proof.
  destruct (mismatch_rejected (H:=PandasInstances.stable_pandas) "SRW_US_Gulf"
              sample_table headers6
              [sample_row "Oct" 1; sample_row "Nov" 1; sample_row "Oct" 2] 5
              [(3%Z, file_day3)] 4%Z file_five_columns []
              (Frame [Text "Month"; Text "vs W"; Text "Chg1"; Text "Flat";
                      Text "Chg2"]
                     [[Text "Oct"; Num 10; Num 1; Num 610; Num 5]]))
    as (Htable & Hlog & _).
  - reflexivity.
  - reflexivity.
  - reflexivity.
  - simpl. lia.
  - split; [exact Htable|].
    apply (Hlog ltac:(vm_compute; discriminate) sample_result sample_log).
    vm_compute. reflexivity.
Defined.

Ltac elem_cases H :=
  repeat match type of H with
         | _ ∈ _ :: _ => apply elem_of_cons in H as [H|H]
         | _ ∈ [] => by apply elem_of_nil in H
         end.

Lemma no_row_added_for_existing_date_witness :
  length (filter (λ r, cell_at 5 r = Stamp 1) (tail (data sample_result))) ≤
  length (filter (λ r, cell_at 5 r = Stamp 1)
            (@coerced_rows PandasInstances.stable_pandas 5
               [sample_row "Oct" 1; sample_row "Nov" 1; sample_row "Oct" 2])).
Proof.
  apply (no_row_added_for_existing_date (H:=PandasInstances.stable_pandas)
           "SRW_US_Gulf" sample_table
           [(3%Z, file_day3); (4%Z, file_five_columns)]
           sample_result sample_log headers6
           [sample_row "Oct" 1; sample_row "Nov" 1; sample_row "Oct" 2] 5).
  - reflexivity.
  - reflexivity.
  - vm_compute. reflexivity.
  - intros d f daily_df r Hin _ Hp Hr. elem_cases Hin.
    + injection Hin as -> ->. vm_compute in Hp. injection Hp as <-.
      simpl in Hr. elem_cases Hr; subst r; reflexivity.
    + injection Hin as -> ->. vm_compute in Hp. discriminate Hp.
  - vm_compute. reflexivity.
Defined.


(** Nothing ties the rows of a file to the date of the file: day 5
    never enters the Date column, and every reconciliation appends the
    row of the file again. *)
Lemma misdated_file_appended_twice :
  ∃ t1 log1 t2 log2,
    @reconcile PandasInstances.stable_pandas "SRW_US_Gulf" sample_table
               [(5%Z, file_misdated)] = Ok (t1, log1) ∧
    @reconcile PandasInstances.stable_pandas "SRW_US_Gulf" t1
               [(5%Z, file_misdated)] = Ok (t2, log2) ∧
    length (data t1) = 5 ∧ length (data t2) = 6 ∧ t2 ≠ t1.
Proof.
  eexists _, _, _, _.
  split; [vm_compute; reflexivity|].
  split; [vm_compute; reflexivity|].
  split; [reflexivity|]. split; [reflexivity|]. discriminate.
Qed.


(** One file, two rows, one date. *)
Lemma rows_not_unique_by_date :
  ∃ t' log,
    @reconcile PandasInstances.stable_pandas "SRW_US_Gulf"
               (Table [headers6] (Range 1 1 6 1)) [(3%Z, file_day3)]
    = Ok (t', log) ∧
    tail (data t') = [sample_row "Oct" 3; sample_row "Nov" 3] ∧
    length (tail (data t')) = 2 ∧
    size (existing_dates (column 5 (tail (data t')))) = 1.
Proof.
  eexists _, _. split; [vm_compute; reflexivity|].
  split; [reflexivity|]. split; [reflexivity|]. vm_compute. reflexivity.
Qed.


(** *** Errors in the loop over the sheets *)

Section failure_isolation.
Context `{Pandas}.

(** An exception of one iteration ends the loop. *)
Lemma update_sheets_Raise sheet_name rest wb daily e :
  update_sheet sheet_name wb daily = Raise e →
  update_sheets (sheet_name :: rest) wb daily = Raise e.
Proof. intros Hs. cbn [update_sheets]. by rewrite Hs. Qed.

Lemma sample_rows_dates :
  Forall is_date
    (column 5 [sample_row "Oct" 1; sample_row "Nov" 1; sample_row "Oct" 2]).
Proof. repeat constructor. Qed.

Lemma first_sheet_raises :
  reconcile "SRW_US_Gulf" sample_table [(3%Z, file_without_date_label)]
  = Raise TypeError.
Proof.
  rewrite (reconcile_unfold _ _ _ headers6
             [sample_row "Oct" 1; sample_row "Nov" 1; sample_row "Oct" 2] 5)
    by reflexivity.
  cbn zeta. rewrite (coerced_rows_id _ _ sample_rows_dates).
  replace (updates_needed _ _) with [(3%Z, file_without_date_label)]
    by (by vm_compute).
  cbn [load_new_rows].
  replace (prepare _ _ _) with
    (Ok (Some (Frame headers6
                 [[Text "Oct"; Num 10; Num 1; Num 610; Num 5; Text "abc"]])))
    by (by vm_compute).
  cbn [fst snd length]. unfold append_and_sort.
  replace (remove_empty_rows headers6 _) with
    (Ok [sample_row "Oct" 1; sample_row "Nov" 1; sample_row "Oct" 2;
         [Text "Oct"; Num 10; Num 1; Num 610; Num 5; Text "abc"]])
    by (by vm_compute).
  cbn [mbind result_bind].
  by rewrite sort_values_raises by (by vm_compute).
Qed.

Lemma second_sheet_updates :
  ∃ t' log,
    reconcile "HRW_Texas_Gulf" sample_table [(3%Z, file_without_date_label)]
    = Ok (t', log) ∧
    length (data t') = 5.
Proof.
  rewrite (reconcile_unfold _ _ _ headers6
             [sample_row "Oct" 1; sample_row "Nov" 1; sample_row "Oct" 2] 5)
    by reflexivity.
  cbn zeta. rewrite (coerced_rows_id _ _ sample_rows_dates).
  assert (Hprep : prepare headers6 file_without_date_label "HRW_Texas_Gulf" =
            Ok (Some (Frame headers6 [sample_row "Oct" 3]))).
  { rewrite (prepare_read _ _ _ (Frame headers6 [sample_row "Oct" 3]))
      by reflexivity.
    rewrite decide_True by (by apply (bool_decide_unpack _)).
    unfold coerce_dates. cbn [columns values].
    replace (the_column (Text "Date") headers6 ValueError) with (Ok (A:=nat) 5)
      by reflexivity.
    cbn [mbind result_bind columns values].
    rewrite coerced_rows_id by (repeat constructor). by rewrite decide_True. }
  replace (updates_needed _ _) with [(3%Z, file_without_date_label)]
    by (by vm_compute).
  cbn [load_new_rows]. rewrite Hprep. cbn [fst snd length].
  unfold append_and_sort.
  replace (remove_empty_rows headers6 _) with
    (Ok [sample_row "Oct" 1; sample_row "Nov" 1; sample_row "Oct" 2;
         sample_row "Oct" 3]) by (by vm_compute).
  cbn [mbind result_bind].
  destruct (sort_values_sorted 5
              [sample_row "Oct" 1; sample_row "Nov" 1; sample_row "Oct" 2;
               sample_row "Oct" 3] eq_refl) as (out & -> & Hperm & _).
  eexists _, _. split; [reflexivity|].
  cbn [write_back data length]. by rewrite Hperm.
Qed.

(** C9 fails on the code. With a first sheet whose sort raises, the run
    ends in that exception: nothing is saved, and the second sheet, whose
    reconciliation on its own updates its table, is never reached. *)
Theorem failure_not_isolated :
  update_summary_workbook two_sheets [(3%Z, file_without_date_label)]
  = Raise TypeError ∧
  ∃ t' log,
    reconcile "HRW_Texas_Gulf" sample_table [(3%Z, file_without_date_label)]
    = Ok (t', log) ∧
    length (data t') = 5.
Proof.
  split; [|apply second_sheet_updates].
  unfold update_summary_workbook.
  change SHEET_NAMES with ("SRW_US_Gulf" :: tail SHEET_NAMES).
  rewrite (update_sheets_Raise _ _ _ _ TypeError); [done|].
  unfold update_sheet, two_sheets. cbn [dict_get tables].
  rewrite decide_True by done. cbn [tables dict_get].
  rewrite decide_True by done.
  by rewrite first_sheet_raises.
Qed.

End failure_isolation.

End ReconcilerProofs.

(** ** More on the segmenter *)

Module SegmenterExtras.
Import Segmenter Samples SegmenterProofs.

(** *** When the parsing raises *)

Lemma scan_from_Raise rows :
  ∀ i e, scan_from i rows = Raise e →
         e = IndexError ∧ Exists (λ r, length r < 2) rows.
Proof.
  induction rows as [|r rest IH]; intros i e Hscan; [done|].
  destruct r as [|c0 [|c1 r]].
  - rewrite scan_from_short in Hscan by (simpl; lia).
    injection Hscan as <-. split; [done|]. left. simpl. lia.
  - rewrite scan_from_short in Hscan by (simpl; lia).
    injection Hscan as <-. split; [done|]. left. simpl. lia.
  - rewrite scan_from_cons in Hscan.
    assert (Hrest : scan_from (S i) rest = Raise e).
    { destruct (header_cells c0 c1); [|done].
      by destruct (scan_from (S i) rest). }
    destruct (IH _ _ Hrest) as [-> Hex]. split; [done|]. by right.
Qed.

(** X1. The parsing of an opened document raises in one case only:
    the first table of its first page has a row with fewer than two
    cells, and the exception is then [IndexError]. A document without
    pages, or whose first page has no table, does not raise. *)
Theorem parse_raises_iff (doc : pdf) (date : Z) (e : exn) :
  parse_pdf_to_dfs doc date = Raise e ↔
  e = IndexError ∧
  ∃ raw_data tables pages,
    doc = (raw_data :: tables) :: pages ∧
    Exists (λ r, length r < 2) raw_data.
Proof.
  destruct doc as [|[|raw_data tables] pages]; simpl.
  - split; [done|]. by intros (_ & ? & ? & ? & ? & _).
  - split; [done|]. by intros (_ & ? & ? & ? & ? & _).
  - destruct (section_starts raw_data) as [starts|e'] eqn:Hstarts.
    + destruct (segment_spec raw_data date starts Hstarts) as (res & -> & _).
      split; [done|]. intros (_ & raw' & ? & ? & [= <- <- <-] & Hex).
      pose proof (scan_from_Ok_rows _ _ _ Hstarts) as Hrows.
      apply Exists_exists in Hex as (r & Hr & Hlen).
      rewrite Forall_forall in Hrows. specialize (Hrows r Hr). lia.
    + unfold segment. rewrite Hstarts. cbn [mbind result_bind].
      apply scan_from_Raise in Hstarts as [-> Hex]. split.
      * intros [= <-]. split; [done|]. by eexists _, _, _.
      * by intros [-> _].
Qed.

(** *** The products of a segmentation *)

Lemma dict_set_keys_new {V} (k : string) (v : V) d :
  k ∉ d.*1 → (dict_set k v d).*1 = d.*1 ++ [k].
Proof.
  induction d as [|[k' v'] d IH]; intros Hk; [done|].
  rewrite fmap_cons in Hk. cbn [fst] in Hk.
  apply not_elem_of_cons in Hk as [Hne Hk].
  cbn [dict_set]. rewrite decide_False by done.
  rewrite !fmap_cons. cbn [fst]. by rewrite IH.
Qed.

Lemma SHEET_NAMES_fresh p name :
  SHEET_NAMES !! p = Some name → name ∉ take p SHEET_NAMES.
Proof.
  intros Hp (q & Hq & Hlt)%elem_of_take.
  pose proof (SHEET_NAMES_inj _ _ _ Hp Hq). lia.
Qed.

(** Building the records of a block never raises. *)
Lemma clean_data_Ok col date (rows : list row) :
  is_Ok (clean_data col date rows).
Proof.
  induction rows as [|r rest [es IH]]; [by eexists|].
  cbn [clean_data]. rewrite make_entry_spec, IH. by eexists.
Qed.

Lemma blocks_keys s section_data valid date n :
  ∀ i res res',
    blocks s section_data valid date (seq i n) res = Ok res' →
    res.*1 = take (s * 4 + i) SHEET_NAMES →
    res'.*1 = take (s * 4 + i + n) SHEET_NAMES.
Proof.
  induction n as [|n IH]; intros i res res' Hb Hkeys.
  { injection Hb as <-. by rewrite Nat.add_0_r. }
  cbn [seq blocks] in Hb.
  destruct (SHEET_NAMES !! (s * 4 + i)) as [name|] eqn:Hname.
  - destruct (clean_data_Ok (1 + i * 4) date valid) as [es Hes].
    rewrite Hes in Hb. cbn [mbind result_bind] in Hb.
    apply IH in Hb.
    + by replace (s * 4 + i + S n) with (s * 4 + S i + n) by lia.
    + rewrite dict_set_keys_new
        by (rewrite Hkeys; by apply SHEET_NAMES_fresh).
      rewrite Hkeys. replace (s * 4 + S i) with (S (s * 4 + i)) by lia.
      by rewrite (take_S_r _ _ _ Hname).
  - injection Hb as <-. apply lookup_ge_None in Hname.
    rewrite Hkeys, !take_ge; [done|lia..].
Qed.

Lemma sections_keys (raw_data : grid) starts date :
  ∀ todo s res res',
    sections raw_data starts date s todo res = Ok res' →
    res.*1 = take (s * 4) SHEET_NAMES →
    res'.*1 = take ((s + length todo) * 4) SHEET_NAMES.
Proof.
  induction todo as [|start rest IH]; intros s res res' Hs Hkeys.
  { injection Hs as <-. by rewrite Nat.add_0_r. }
  cbn [sections] in Hs.
  destruct (valid_rows _) as [valid|]; [|done].
  cbn [mbind result_bind] in Hs.
  destruct (blocks _ _ _ _ _ res) as [res1|] eqn:Hb; [|done].
  cbn [mbind result_bind] in Hs.
  apply (blocks_keys _ _ _ _ 4 0) in Hb;
    [|by rewrite Nat.add_0_r].
  apply IH in Hs.
  - by replace (s + length (start :: rest)) with (S s + length rest)
      by (simpl; lia).
  - rewrite Hb. f_equal. lia.
Qed.

Lemma segment_inv (raw_data : grid) (date : Z) res log :
  segment raw_data date = Ok (res, log) →
  ∃ starts,
    section_starts raw_data = Ok starts ∧
    res.*1 = take (4 * length starts) SHEET_NAMES ∧
    log = (if decide (length starts = 7) then []
           else [SectionCountWarning (length starts)]).
Proof.
  unfold segment. intros Hseg.
  destruct (section_starts raw_data) as [starts|] eqn:Hstarts; [|done].
  cbn [mbind result_bind] in Hseg. exists starts. split; [done|].
  destruct (sections _ _ _ _ _ _) as [res'|] eqn:Hs; [|done].
  injection Hseg as <- <-.
  apply sections_keys in Hs; [|done].
  rewrite Hs. split; [f_equal; lia|done].
Qed.

(** X2. The mapping that the segmenter returns has the names of the
    first [4 * n] products as its keys, each once and in the order of
    [SHEET_NAMES], where [n] is the number of section headers found:
    all 28 names from seven sections on, no key for a section beyond
    the seventh, and no key at all for a grid without a header. A
    number of sections other than 7 is reported and does not stop the
    segmentation. *)
Theorem segment_keys (raw_data : grid) (date : Z) res log :
  segment raw_data date = Ok (res, log) →
  ∃ starts,
    section_starts raw_data = Ok starts ∧
    res.*1 = take (4 * length starts) SHEET_NAMES ∧
    NoDup res.*1 ∧
    length res = (4 * length starts) `min` 28 ∧
    log = (if decide (length starts = 7) then []
           else [SectionCountWarning (length starts)]).
Proof.
  intros (starts & Hstarts & Hkeys & Hlog)%segment_inv.
  exists starts. split; [done|]. split; [done|]. split; [|split; [|done]].
  - rewrite Hkeys.
    eapply sublist_NoDup; [apply SHEET_NAMES_NoDup|apply sublist_take].
  - rewrite <- (length_fmap fst res), Hkeys, length_take.
    by rewrite SHEET_NAMES_length.
Qed.

Lemma segment_keys_witness :
  ∃ res log,
    segment sample_grid 20251015 = Ok (res, log) ∧
    res.*1 = take 8 SHEET_NAMES ∧
    length res = 8 ∧
    log = [SectionCountWarning 2].
Proof.
  destruct (segment sample_grid 20251015) as [[res log]|] eqn:Hseg;
    [|by vm_compute in Hseg].
  exists res, log. split; [reflexivity|].
  destruct (segment_keys sample_grid 20251015 res log Hseg)
    as (starts & Hstarts & Hkeys & _ & Hlen & Hlog).
  vm_compute in Hstarts. injection Hstarts as <-.
  split; [exact Hkeys|]. split; [exact Hlen|exact Hlog].
Defined.

(** *** The records of a segmentation *)

Lemma dict_get_elem {V} (k : string) (v : V) d :
  NoDup d.*1 → (k, v) ∈ d → dict_get k d = Some v.
Proof.
  induction d as [|[k' v'] d IH]; intros Hnd Hin; [by apply elem_of_nil in Hin|].
  rewrite fmap_cons in Hnd. cbn [fst] in Hnd.
  apply NoDup_cons in Hnd as [Hk' Hnd]. cbn [dict_get].
  apply elem_of_cons in Hin as [[= -> ->]|Hin].
  - by rewrite decide_True.
  - rewrite decide_False; [by apply IH|].
    intros ->. apply Hk'. apply list_elem_of_fmap. by exists (k, v).
Qed.

Lemma lstrip_head s a t : PyStr.lstrip s = String a t → PyStr.isspace a = false.
Proof.
  induction s as [|b s IH]; [done|]. cbn [PyStr.lstrip].
  destruct (PyStr.isspace b) eqn:Hb; [done|]. by intros [= <- _].
Qed.

Lemma rstrip_cons a s :
  PyStr.rstrip (String a s) =
    match PyStr.rstrip s with
    | EmptyString => if PyStr.isspace a then EmptyString else String a EmptyString
    | t => String a t
    end.
Proof. done. Qed.

Lemma rstrip_idemp s : PyStr.rstrip (PyStr.rstrip s) = PyStr.rstrip s.
Proof.
  induction s as [|a s IH]; [done|]. rewrite rstrip_cons.
  destruct (PyStr.rstrip s) as [|b u] eqn:Hs.
  - destruct (PyStr.isspace a) eqn:Ha; [done|].
    rewrite rstrip_cons. cbn [PyStr.rstrip]. by rewrite Ha.
  - rewrite rstrip_cons, IH. done.
Qed.

Lemma lstrip_rstrip s a t :
  s = String a t → PyStr.isspace a = false →
  PyStr.lstrip (PyStr.rstrip s) = PyStr.rstrip s.
Proof.
  intros -> Ha. rewrite rstrip_cons.
  destruct (PyStr.rstrip t); rewrite ?Ha; cbn [PyStr.lstrip]; by rewrite Ha.
Qed.

(** Trimming a trimmed string changes nothing. *)
Lemma strip_idemp s : PyStr.strip (PyStr.strip s) = PyStr.strip s.
Proof.
  unfold PyStr.strip.
  destruct (PyStr.lstrip s) as [|a t] eqn:Hs; [done|].
  rewrite (lstrip_rstrip (String a t) a t eq_refl (lstrip_head _ _ _ Hs)).
  apply rstrip_idemp.
Qed.

Lemma block_frame_records (section_data : grid) date k e :
  e ∈ records (block_frame section_data date k) →
  ∃ r c0, r ∈ drop 2 section_data ∧ r !! 0 = Some c0 ∧
          valid_cell c0 = true ∧ 1 + k * 4 < length r ∧
          e = record_of (1 + k * 4) date r.
Proof.
  unfold block_frame. rewrite records_make_frame.
  intros (r & He & Hr)%list_elem_of_bind. unfold contribution in He.
  destruct (valid r && (1 + k * 4 <? length r)) eqn:Hv;
    [|by apply elem_of_nil in He].
  apply list_elem_of_singleton in He as ->.
  apply andb_true_iff in Hv as [Hv Hlen%Nat.ltb_lt].
  destruct r as [|c0 r]; [done|]. by exists (c0 :: r), c0.
Qed.

Lemma segment_frames (raw_data : grid) (date : Z) res log name df :
  segment raw_data date = Ok (res, log) → (name, df) ∈ res →
  ∃ starts s start k,
    section_starts raw_data = Ok starts ∧
    starts !! s = Some start ∧ k < 4 ∧
    SHEET_NAMES !! (s * 4 + k) = Some name ∧
    df = block_frame (section_of raw_data starts s start) date k.
Proof.
  intros Hseg Hin.
  destruct (segment_inv _ _ _ _ Hseg) as (starts & Hstarts & Hkeys & _).
  destruct (segment_spec raw_data date starts Hstarts) as (res' & Hseg' & Hres).
  rewrite Hseg in Hseg'. injection Hseg' as <-.
  assert (Hname : name ∈ res.*1) by (apply list_elem_of_fmap; by exists (name, df)).
  rewrite Hkeys in Hname.
  apply elem_of_take in Hname as (p & Hp & Hlt).
  pose proof (Nat.div_mod_eq p 4) as Hdiv.
  pose proof (Nat.mod_upper_bound p 4 ltac:(lia)) as Hmod.
  destruct (lookup_lt_is_Some_2 starts (p / 4) ltac:(lia)) as [start Hs].
  exists starts, (p / 4), start, (p mod 4).
  replace (p / 4 * 4 + p mod 4) with p by lia.
  do 4 (split; [done|]).
  assert (Hnd : NoDup res.*1).
  { rewrite Hkeys.
    eapply sublist_NoDup; [apply SHEET_NAMES_NoDup|apply sublist_take]. }
  pose proof (dict_get_elem _ _ _ Hnd Hin) as Hget.
  rewrite (Hres (p / 4) start (p mod 4) name Hs Hmod) in Hget;
    [congruence|].
  by replace (p / 4 * 4 + p mod 4) with p by lia.
Qed.

(** X3. Every record of every frame that the segmenter returns carries
    the date of the report, and its Month is a non-empty text without
    white space at either end, of at most 15 characters, that mentions
    neither "Price" nor "Disclaimer". A frame that has a record has the
    six columns Month, a comparison label, Chg1, Flat, Chg2 and Date. *)
Theorem records_well_formed (raw_data : grid) (date : Z) res log name df e :
  segment raw_data date = Ok (res, log) →
  (name, df) ∈ res →
  e ∈ records df →
  Date e = date ∧
  PyStr.nonempty (Month e) = true ∧
  PyStr.strip (Month e) = Month e ∧
  PyStr.len (Month e) ≤ 15 ∧
  PyStr.contains "Price" (Month e) = false ∧
  PyStr.contains "Disclaimer" (Month e) = false ∧
  ∃ label, columns df = ["Month"; label; "Chg1"; "Flat"; "Chg2"; "Date"].
Proof.
  intros Hseg Hin He.
  destruct (segment_frames _ _ _ _ _ _ Hseg Hin)
    as (starts & s & start & k & _ & _ & _ & _ & ->).
  assert (Hcols : ∃ label,
    columns (block_frame (section_of raw_data starts s start) date k) =
      ["Month"; label; "Chg1"; "Flat"; "Chg2"; "Date"]).
  { unfold block_frame in *. rewrite columns_make_frame.
    rewrite records_make_frame in He.
    destruct (_ ≫= _); [by apply elem_of_nil in He|by eexists]. }
  apply block_frame_records in He as (r & c0 & _ & Hc0 & Hv & _ & ->).
  apply valid_cell_true in Hv as (Htext & Hprice & Hdisc & Hlen).
  unfold record_of, cell_or_empty. rewrite Hc0. cbn [default Month Date].
  unfold has_text in Htext. apply andb_true_iff in Htext as [_ Htext].
  rewrite strip_idemp. done.
Qed.

Lemma records_well_formed_witness :
  ∃ res log df e,
    segment sample_grid 20251015 = Ok (res, log) ∧
    (("SRW_US_Gulf" : string), df) ∈ res ∧ e ∈ records df ∧
    Date e = 20251015%Z ∧ PyStr.strip (Month e) = Month e.
Proof.
  destruct (segment sample_grid 20251015) as [[res log]|] eqn:Hseg;
    [|by vm_compute in Hseg].
  vm_compute in Hseg. injection Hseg as <- <-.
  eexists _, _, _, _. split; [reflexivity|].
  assert (Hin : (("SRW_US_Gulf" : string),
                 Frame ["Month"; "vs W"; "Chg1"; "Flat"; "Chg2"; "Date"]
                   [Entry "Oct" (Some "95") (Some "-2") (Some "6.10")
                          (Some "0.05") 20251015]) ∈
                default [] (fst <$> match segment sample_grid 20251015 with
                                    | Ok x => Some x | Raise _ => None end))
    by (vm_compute; left).
  assert (He : Entry "Oct" (Some "95") (Some "-2") (Some "6.10")
                     (Some "0.05") 20251015 ∈
               records (Frame ["Month"; "vs W"; "Chg1"; "Flat"; "Chg2"; "Date"]
                   [Entry "Oct" (Some "95") (Some "-2") (Some "6.10")
                          (Some "0.05") 20251015]))
    by (simpl; left).
  split; [exact Hin|]. split; [exact He|].
  destruct (records_well_formed sample_grid 20251015 _ _ _ _ _ eq_refl Hin He)
    as (Hdate & _ & Hstrip & _).
  split; [exact Hdate|exact Hstrip].
Defined.

(** *** The sections tile the grid *)

Lemma section_of_last (raw_data : grid) starts s start :
  length starts ≤ S s →
  section_of raw_data starts s start = drop start raw_data.
Proof.
  intros Hs. unfold section_of, slice.
  rewrite decide_False by lia.
  apply take_ge. rewrite length_drop. lia.
Qed.

Lemma section_of_next (raw_data : grid) starts s start next :
  starts !! S s = Some next →
  section_of raw_data starts s start =
    take (next - start) (drop start raw_data).
Proof.
  intros Hnext. unfold section_of, slice.
  pose proof (lookup_lt_Some _ _ _ Hnext).
  rewrite decide_True by lia.
  by rewrite Nat.add_1_r, Hnext.
Qed.

Lemma sections_tile_from (raw_data : grid) starts :
  ∀ todo pre,
    starts = pre ++ todo → StronglySorted lt todo →
    mjoin (imap (λ j, section_of raw_data starts (length pre + j)) todo) =
      drop (default (length raw_data) (head todo)) raw_data.
Proof.
  induction todo as [|start rest IH]; intros pre Hstarts Hsorted.
  { simpl. by rewrite drop_all. }
  apply StronglySorted_inv in Hsorted as [Hsorted Hlt].
  rewrite imap_cons.
  rewrite (imap_ext _ (λ j, section_of raw_data starts (length (pre ++ [start]) + j)));
    cycle 1.
  { intros j x _. cbn [compose]. f_equal. rewrite length_app. simpl. lia. }
  change (mjoin (?x :: ?l)) with (x ++ mjoin l).
  rewrite (IH (pre ++ [start])) by (by rewrite <-?app_assoc).
  rewrite Nat.add_0_r.
  destruct rest as [|next rest].
  - cbn [head default from_option id]. rewrite drop_all, app_nil_r.
    apply section_of_last. subst starts. rewrite length_app. simpl. lia.
  - cbn [head default from_option id].
    apply Forall_cons in Hlt as [Hlt _].
    rewrite (section_of_next _ _ _ _ next).
    + replace (drop next raw_data)
        with (drop (next - start) (drop start raw_data))
        by (rewrite drop_drop; f_equal; lia).
      apply take_drop.
    + subst starts. rewrite lookup_app_r by lia.
      by replace (S (length pre) - length pre) with 1 by lia.
Qed.

(** X4. The sections tile the grid. Section [j] runs from its header to
    the row before the next header, the last one to the end of the
    grid: put one after the other, in order, the sections are the grid
    from the first header on. Every such row belongs to exactly one
    section, and the rows above the first header to none. *)
Theorem sections_tile (raw_data : grid) (starts : list nat) :
  section_starts raw_data = Ok starts →
  mjoin (imap (section_of raw_data starts) starts) =
    drop (default (length raw_data) (head starts)) raw_data.
Proof.
  intros Hstarts.
  pose proof (scan_from_Ok_rows _ _ _ Hstarts) as Hrows.
  destruct (scan_from_spec raw_data Hrows 0) as (starts' & Hscan & Hsorted & _).
  unfold section_starts in Hstarts. rewrite Hstarts in Hscan.
  injection Hscan as <-.
  apply (sections_tile_from raw_data starts starts []); done.
Qed.

Lemma sections_tile_witness :
  mjoin (imap (section_of sample_grid [0; 3]) [0; 3]) = sample_grid.
Proof. apply (sections_tile sample_grid [0; 3]). reflexivity. Defined.

End SegmenterExtras.

(** ** More on the reconciler *)

Module ReconcilerExtras.
Import Reconciler Samples ReconcilerProofs.

Section with_pandas.
Context `{Pandas}.

(** *** When a reconciliation raises *)

Lemma positions_from_complete n label cols j :
  cols !! j = Some label → n + j ∈ positions_from n label cols.
Proof.
  revert n j. induction cols as [|c cols IH]; intros n j Hj; [done|].
  cbn [positions_from]. destruct j as [|j]; simpl in Hj.
  - injection Hj as ->. rewrite decide_True by done.
    rewrite Nat.add_0_r. left.
  - replace (n + S j) with (S n + j) by lia.
    destruct (decide _); [right|]; by apply IH.
Qed.

Lemma the_column_unique label cols dup k j :
  the_column label cols dup = Ok k → cols !! j = Some label → j = k.
Proof.
  unfold the_column, positions. intros Hk Hj.
  pose proof (positions_from_complete 0 label cols j Hj) as Hin.
  destruct (positions_from 0 label cols) as [|k' [|]]; try done.
  injection Hk as <-. by apply list_elem_of_singleton in Hin.
Qed.

Lemma the_column_positions label cols dup k :
  the_column label cols dup = Ok k ↔ positions label cols = [k].
Proof.
  unfold the_column.
  destruct (positions label cols) as [|k' [|]]; split; try done;
    by intros [= ->].
Qed.

Lemma sortable_dates keys : Forall is_date keys → sortable keys = true.
Proof.
  intros Hk. apply PandasInstances.sortable_spec. intros a b Ha Hb Hna Hnb.
  rewrite Forall_forall in Hk. pose proof (Hk a Ha). pose proof (Hk b Hb).
  by destruct a, b.
Qed.

Lemma append_and_sort_Raise headers k df_rows new_rows e :
  append_and_sort headers k df_rows new_rows = Raise e →
  (e = AttributeError ∧ 2 ≤ length (positions (Text "Month") headers)) ∨
  (e = TypeError ∧
   sortable (column k (filter (λ r, kept_by_cleanup headers r = true)
                              (df_rows ++ mjoin (values <$> new_rows))))
   = false).
Proof.
  unfold append_and_sort. intros Hs.
  destruct (remove_empty_rows headers _) as [kept|e'] eqn:Hkept.
  - right. apply remove_empty_rows_filter in Hkept as ->.
    cbn [mbind result_bind] in Hs.
    destruct (sortable (column k (filter _ _))) eqn:Hsort.
    + destruct (sort_values_sorted _ _ Hsort) as (out & Hout & _). congruence.
    + rewrite (sort_values_raises _ _ Hsort) in Hs. by injection Hs as <-.
  - left. cbn [mbind result_bind] in Hs. injection Hs as <-.
    unfold remove_empty_rows in Hkept.
    destruct (positions (Text "Month") headers) as [|m [|m' ms]]; try done.
    injection Hkept as <-. split; [done|simpl; lia].
Qed.

Lemma reconcile_Raise sheet t daily e :
  reconcile sheet t daily = Raise e →
  ∃ headers rows,
    data t = headers :: rows ∧
    ((e = ValueError ∧ 2 ≤ length (positions (Text "Date") headers)) ∨
     ∃ k, the_column (Text "Date") headers ValueError = Ok k ∧
          append_and_sort headers k (coerced_rows k rows)
            (load_new_rows headers sheet
               (updates_needed
                  (existing_dates (column k (coerced_rows k rows)))
                  daily)).1 = Raise e).
Proof.
  intros Hrec. destruct (data t) as [|headers rows] eqn:Hdata.
  { unfold reconcile in Hrec. by rewrite Hdata in Hrec. }
  exists headers, rows. split; [done|].
  destruct (decide (Text "Date" ∈ headers)) as [Hdate|Hdate]; cycle 1.
  { unfold reconcile in Hrec. by rewrite Hdata, decide_False in Hrec. }
  destruct (the_column (Text "Date") headers ValueError) as [k|e'] eqn:Hk.
  - right. exists k. split; [done|].
    rewrite (reconcile_unfold _ _ _ _ _ _ Hdata Hk) in Hrec.
    cbn zeta in Hrec.
    destruct (updates_needed _ daily) as [|u us]; [done|].
    remember (u :: us) as updates eqn:Hus.
    assert (updates ≠ []) by (by subst).
    destruct updates as [|u' us']; [done|]. clear Hus.
    destruct (load_new_rows headers sheet (u' :: us')).1; [done|].
    destruct (append_and_sort _ _ _ _); cbn [mbind result_bind] in Hrec;
      congruence.
  - left. unfold reconcile, coerce_dates in Hrec.
    rewrite Hdata, decide_True in Hrec by done.
    cbn [columns] in Hrec. rewrite Hk in Hrec.
    cbn [mbind result_bind] in Hrec. injection Hrec as <-.
    unfold the_column, positions in *.
    pose proof (positions_from_elem 0 _ _ Hdate).
    destruct (positions_from 0 _ headers) as [|k [|k' ks]]; try done.
    injection Hk as <-. split; [done|simpl; lia].
Qed.

(** The rows of an admitted frame whose sheet has a Date label: the
    Date column is coerced where the label is. *)
Lemma prepare_Some_dated headers f sheet fr daily_df :
  read_excel f sheet = Ok daily_df →
  Text "Date" ∈ columns daily_df →
  prepare headers f sheet = Ok (Some fr) →
  ∃ kd, the_column (Text "Date") (columns daily_df) ValueError = Ok kd ∧
        values fr = coerced_rows kd (values daily_df).
Proof.
  intros Hread Hin Hp. rewrite (prepare_read _ _ _ _ Hread) in Hp.
  rewrite decide_True in Hp by done.
  destruct (coerce_dates daily_df) as [df'|] eqn:Hc; [|done].
  apply coerce_dates_Ok in Hc as (Hcols & kd & Hkd & Hvals).
  cbn [mbind result_bind] in Hp.
  destruct (decide _); [|done]. injection Hp as <-.
  exists kd. by rewrite <- Hvals.
Qed.

#[local] Instance is_date_dec c : Decision (is_date c).
Proof. destruct c; simpl; apply _. Defined.

Lemma not_sortable_row k (rows : list row) :
  sortable (column k rows) = false →
  ∃ r, r ∈ rows ∧ ¬ is_date (cell_at k r).
Proof.
  intros Hs.
  destruct (decide (Exists (λ r, ¬ is_date (cell_at k r)) rows)) as [Hex|Hall].
  - apply Exists_exists in Hex as (r & Hr & Hd). by exists r.
  - rewrite (sortable_dates (column k rows)) in Hs; [done|].
    apply Forall_forall. intros c (r & Hr & <-)%elem_of_column.
    destruct (decide (is_date (cell_at k r))) as [|Hd]; [done|].
    exfalso. apply Hall, Exists_exists. by exists r.
Qed.

(** X5. A reconciliation raises in three cases only, each with its own
    exception: [ValueError] when the header of the table has the label
    Date more than once (also when there is nothing to add);
    [AttributeError] when it has the label Month more than once;
    [TypeError] when a daily file whose date is not in the table is
    admitted with a row that has, at the position of the table's Date,
    a value that is neither a timestamp nor missing. *)
Theorem reconcile_raises sheet t daily e :
  reconcile sheet t daily = Raise e →
  ∃ headers rows,
    data t = headers :: rows ∧
    ((e = ValueError ∧ 2 ≤ length (positions (Text "Date") headers)) ∨
     (e = AttributeError ∧ 2 ≤ length (positions (Text "Month") headers)) ∨
     (e = TypeError ∧
      ∃ k d f fr r,
        positions (Text "Date") headers = [k] ∧
        (d, f) ∈ daily ∧
        (d ∉ existing_dates (column k (coerced_rows k rows))) ∧
        prepare headers f sheet = Ok (Some fr) ∧
        r ∈ values fr ∧ ¬ is_date (cell_at k r))).
Proof.
  intros (headers & rows & Hdata & [?|(k & Hk & Hs)])%reconcile_Raise;
    exists headers, rows; (split; [done|]); [by left|right].
  apply append_and_sort_Raise in Hs as [?|[-> Hs]]; [by left|right].
  split; [done|].
  apply not_sortable_row in Hs as (r & Hr & Hd).
  apply list_elem_of_filter in Hr as [_ Hr].
  apply elem_of_app in Hr as [Hr|Hr].
  { exfalso. apply Hd.
    pose proof (coerced_rows_is_date k rows) as Hall.
    rewrite Forall_forall in Hall. apply Hall, elem_of_column. by exists r. }
  apply elem_of_new_data in Hr as (d & f & fr & Hin & Hnew & Hp & Hr).
  exists k, d, f, fr, r. by rewrite <- the_column_positions.
Qed.

(** X6. A reconciliation returns whenever the labels are in order: the
    header of the table has the label Date once and the label Month at
    most once, and every sheet of a daily file that reads has the label
    Date where the table has it. Neither the coercion of the dates, the
    cleanup nor the sort raises then. *)
Theorem reconcile_returns sheet t daily headers rows k :
  data t = headers :: rows →
  positions (Text "Date") headers = [k] →
  length (positions (Text "Month") headers) ≤ 1 →
  (∀ d f df, (d, f) ∈ daily → read_excel f sheet = Ok df →
             columns df !! k = Some (Text "Date")) →
  is_Ok (reconcile sheet t daily).
Proof.
  intros Hdata Hk Hmonth Hfiles.
  destruct (reconcile sheet t daily) as [out|e] eqn:Hrec; [by exists out|].
  exfalso.
  apply reconcile_Raise in Hrec as (headers' & rows' & Hdata' & Hcase).
  rewrite Hdata in Hdata'. injection Hdata' as <- <-.
  destruct Hcase as [[_ Hlen]|(k' & Hk' & Hs)].
  { rewrite Hk in Hlen. simpl in Hlen. lia. }
  apply the_column_positions in Hk'. rewrite Hk in Hk'. injection Hk' as <-.
  apply append_and_sort_Raise in Hs as [[_ Hlen]|[_ Hs]]; [lia|].
  apply not_sortable_row in Hs as (r & Hr & Hd). apply Hd.
  apply list_elem_of_filter in Hr as [_ Hr].
  apply elem_of_app in Hr as [Hr|Hr].
  { pose proof (coerced_rows_is_date k rows) as Hall.
    rewrite Forall_forall in Hall. apply Hall, elem_of_column. by exists r. }
  apply elem_of_new_data in Hr as (d & f & fr & Hin & _ & Hp & Hr).
  destruct (prepare_Some _ _ _ _ Hp) as (daily_df & Hread & _).
  pose proof (Hfiles d f daily_df Hin Hread) as Hlabel.
  destruct (prepare_Some_dated _ _ _ _ _ Hread
              (list_elem_of_lookup_2 _ _ _ Hlabel) Hp) as (kd & Hkd & Hvals).
  rewrite (the_column_unique _ _ _ _ _ Hkd Hlabel) in *.
  rewrite Hvals in Hr.
  pose proof (coerced_rows_is_date kd (values daily_df)) as Hall.
  rewrite Forall_forall in Hall. apply Hall, elem_of_column. by exists r.
Qed.

(** *** A daily file that does not read *)

Lemma prepare_unread headers f sheet e :
  read_excel f sheet = Raise e → prepare headers f sheet = Raise e.
Proof. intros Hread. unfold prepare. by rewrite Hread. Qed.

(** X7. A daily file that cannot be read for a product, because the
    file is unreadable or has no sheet of that name, is skipped: the
    table comes out as it does without the file, and when the date of
    the file is not in the table the error is reported with that
    date. *)
Theorem read_error_skipped sheet t headers rows k l1 d f l2 e :
  data t = headers :: rows →
  the_column (Text "Date") headers ValueError = Ok k →
  read_excel f sheet = Raise e →
  fst <$> reconcile sheet t (l1 ++ (d, f) :: l2) =
    fst <$> reconcile sheet t (l1 ++ l2) ∧
  (d ∉ existing_dates (column k (coerced_rows k rows)) →
   ∀ t' log,
     reconcile sheet t (l1 ++ (d, f) :: l2) = Ok (t', log) →
     ErrorReading d e ∈ log).
Proof.
  intros Hdata Hk Hread.
  pose proof (prepare_unread headers f sheet e Hread) as Hp.
  split.
  - rewrite !(reconcile_table _ _ _ _ _ _ Hdata Hk). cbn zeta.
    assert (Hframes :
      (load_new_rows headers sheet
         (updates_needed (existing_dates (column k (coerced_rows k rows)))
                         (l1 ++ (d, f) :: l2))).1 =
      (load_new_rows headers sheet
         (updates_needed (existing_dates (column k (coerced_rows k rows)))
                         (l1 ++ l2))).1); [|by rewrite Hframes].
    rewrite !load_new_rows_frames. unfold updates_needed.
    rewrite !filter_app, filter_cons, !omap_app.
    destruct (decide _); [|done]. simpl. by rewrite Hp.
  - intros Hd t' log Hrec.
    assert (Hin : (d, f) ∈ updates_needed
              (existing_dates (column k (coerced_rows k rows)))
              (l1 ++ (d, f) :: l2)).
    { apply list_elem_of_filter. split; [done|].
      apply elem_of_app. right. by left. }
    destruct (load_new_rows_reports headers sheet _ d f Hin) as [_ He].
    eapply reconcile_log; eauto.
Qed.

(** *** The rows of a rewritten table *)

(** X8. A reconciliation loses and invents no row. Either the table is
    returned as it was, or it keeps its header and its data rows are,
    up to their order, the rows that the cleanup keeps among the rows
    it had, with their Date coerced, followed by the rows of the
    admitted daily files: every such row the same number of times. *)
Theorem rows_conserved sheet t daily t' log headers rows k :
  data t = headers :: rows →
  the_column (Text "Date") headers ValueError = Ok k →
  reconcile sheet t daily = Ok (t', log) →
  t' = t ∨
  (hd [] (data t') = headers ∧
   tail (data t') ≡ₚ
     filter (λ r, kept_by_cleanup headers r = true)
       (coerced_rows k rows ++
        mjoin (values <$>
                 (load_new_rows headers sheet
                    (updates_needed
                       (existing_dates (column k (coerced_rows k rows)))
                       daily)).1))).
Proof.
  intros Hdata Hk Hrec.
  apply reconcile_Ok in Hrec
    as [[-> _]|(headers' & rows' & k' & sorted & Hdata' & Hk' & _ & Hs & -> & _)];
    [by left|right].
  rewrite Hdata in Hdata'. injection Hdata' as <- <-.
  rewrite Hk in Hk'. injection Hk' as <-.
  apply append_and_sort_Ok in Hs as (_ & Hperm & _).
  by cbn [write_back data hd tail].
Qed.

(** *** The workbook *)

Lemma dict_set_keys_old {V} (k : string) (v : V) d :
  k ∈ d.*1 → (dict_set k v d).*1 = d.*1.
Proof.
  induction d as [|[k' v'] d IH]; intros Hk; [by apply elem_of_nil in Hk|].
  rewrite fmap_cons in Hk. cbn [fst dict_set] in *.
  destruct (decide (k' = k)) as [->|Hne]; [done|].
  apply elem_of_cons in Hk as [->|Hk]; [done|].
  rewrite !fmap_cons. cbn [fst]. by rewrite IH.
Qed.

Lemma dict_get_Some_elem {V} (k : string) (v : V) d :
  dict_get k d = Some v → k ∈ d.*1.
Proof.
  induction d as [|[k' v'] d IH]; [done|]. cbn [dict_get].
  rewrite fmap_cons. cbn [fst].
  destruct (decide (k' = k)) as [->|_]; [by left|]. right. by apply IH.
Qed.

Lemma dict_set_get_id {V} (k : string) (v : V) d :
  dict_get k d = Some v → dict_set k v d = d.
Proof.
  induction d as [|[k' v'] d IH]; [done|]. cbn [dict_get dict_set].
  destruct (decide (k' = k)) as [->|_]; [by intros [= ->]|].
  intros Hget. by rewrite IH.
Qed.

(** What one iteration of the loop over the sheets does. *)
Lemma update_sheet_Ok sheet wb daily wb1 log :
  update_sheet sheet wb daily = Ok (wb1, log) →
  (wb1 = wb ∧ ∀ s n, Updated s n ∉ log) ∨
  ∃ ws name t t',
    dict_get sheet wb = Some ws ∧
    name ∈ (tables ws).*1 ∧
    (dict_set name t (tables ws) = tables ws) ∧
    reconcile sheet t daily = Ok (t', log) ∧
    wb1 = dict_set sheet (Worksheet (dict_set name t' (tables ws))) wb.
Proof.
  unfold update_sheet. intros Hu.
  destruct (dict_get sheet wb) as [ws|] eqn:Hws; cycle 1.
  { left. injection Hu as <- <-. split; [done|].
    intros s n [?|?%elem_of_nil]%elem_of_cons; done. }
  destruct (tables ws) as [|[first_name first] rest] eqn:Htables.
  { left. injection Hu as <- <-. split; [done|].
    intros s n [?|?%elem_of_nil]%elem_of_cons; done. }
  right. rewrite <- Htables in *.
  destruct (dict_get sheet (tables ws)) as [t|] eqn:Ht.
  - destruct (reconcile sheet t daily) as [[t' log']|] eqn:Hrec; [|done].
    cbn [mbind result_bind] in Hu. injection Hu as <- <-.
    exists ws, sheet, t, t'. split; [done|].
    split; [by eapply dict_get_Some_elem|].
    split; [by apply dict_set_get_id|]. done.
  - destruct (reconcile sheet first daily) as [[t' log']|] eqn:Hrec; [|done].
    cbn [mbind result_bind] in Hu. injection Hu as <- <-.
    exists ws, first_name, first, t'. split; [done|].
    rewrite Htables.
    split; [rewrite fmap_cons; by left|].
    split; [cbn [dict_set]; by rewrite decide_True|]. done.
Qed.

Lemma update_sheet_keys sheet wb daily wb1 log :
  update_sheet sheet wb daily = Ok (wb1, log) →
  wb1.*1 = wb.*1 ∧
  (∀ name, name ≠ sheet → dict_get name wb1 = dict_get name wb) ∧
  (∀ ws, dict_get sheet wb = Some ws →
         ∃ ws', dict_get sheet wb1 = Some ws' ∧
                (tables ws').*1 = (tables ws).*1).
Proof.
  intros [[-> _]|(ws & name & t & t' & Hws & Hname & _ & _ & ->)]%update_sheet_Ok.
  { split; [done|]. split; [done|]. intros ws Hws. by exists ws. }
  split; [|split].
  - apply dict_set_keys_old. by eapply dict_get_Some_elem.
  - intros name' Hne. by apply dict_get_set_ne.
  - intros ws0 Hws0. rewrite Hws in Hws0. injection Hws0 as <-.
    eexists. split; [apply dict_get_set_eq|].
    cbn [tables]. by apply dict_set_keys_old.
Qed.

Lemma update_sheets_cons sheet rest wb daily wb' log :
  update_sheets (sheet :: rest) wb daily = Ok (wb', log) →
  ∃ wb1 log1 log2,
    update_sheet sheet wb daily = Ok (wb1, log1) ∧
    update_sheets rest wb1 daily = Ok (wb', log2) ∧
    log = log1 ++ log2.
Proof.
  cbn [update_sheets]. intros Hu.
  destruct (update_sheet sheet wb daily) as [[wb1 log1]|] eqn:Hu1; [|done].
  cbn [mbind result_bind] in Hu.
  destruct (update_sheets rest wb1 daily) as [[wb2 log2]|] eqn:Hu2; [|done].
  cbn [mbind result_bind] in Hu. injection Hu as <- <-.
  by exists wb1, log1, log2.
Qed.

Lemma update_sheets_keys names :
  ∀ wb daily wb' log,
    update_sheets names wb daily = Ok (wb', log) →
    wb'.*1 = wb.*1 ∧
    (∀ name, name ∉ names → dict_get name wb' = dict_get name wb) ∧
    (∀ name ws, dict_get name wb = Some ws →
                ∃ ws', dict_get name wb' = Some ws' ∧
                       (tables ws').*1 = (tables ws).*1).
Proof.
  induction names as [|sheet rest IH]; intros wb daily wb' log Hu.
  { injection Hu as <- <-. split; [done|]. split; [done|].
    intros name ws Hws. by exists ws. }
  apply update_sheets_cons in Hu as (wb1 & log1 & log2 & Hu1 & Hu2 & ->).
  apply update_sheet_keys in Hu1 as (Hkeys1 & Hother1 & Hsame1).
  apply IH in Hu2 as (Hkeys2 & Hother2 & Hsame2).
  split; [congruence|]. split.
  - intros name [Hne Hrest]%not_elem_of_cons.
    by rewrite Hother2, Hother1.
  - intros name ws Hws.
    assert (Hws1 : ∃ ws1, dict_get name wb1 = Some ws1 ∧
                          (tables ws1).*1 = (tables ws).*1).
    { destruct (decide (name = sheet)) as [->|Hne]; [by apply Hsame1|].
      exists ws. by rewrite Hother1. }
    destruct Hws1 as (ws1 & Hws1 & Heq1).
    destruct (Hsame2 name ws1 Hws1) as (ws' & Hws' & Heq2).
    exists ws'. split; [done|congruence].
Qed.

Lemma update_summary_workbook_Ok wb daily wb' log :
  update_summary_workbook wb daily = Ok (wb', log) →
  ∃ log0, update_sheets SHEET_NAMES wb daily = Ok (wb', log0) ∧
          log = log0 ++ [SavingWorkbook; Done].
Proof.
  unfold update_summary_workbook. intros Hu.
  destruct (update_sheets SHEET_NAMES wb daily) as [[wb0 log0]|]; [|done].
  cbn [mbind result_bind] in Hu. injection Hu as <- <-. by exists log0.
Qed.

(** X9. The update keeps the structure of the workbook: the sheets and
    their order, and in every sheet the tables and their names. A
    sheet that is not named after one of the 28 products is returned
    as it was. *)
Theorem workbook_structure wb daily wb' log :
  update_summary_workbook wb daily = Ok (wb', log) →
  wb'.*1 = wb.*1 ∧
  (∀ name, name ∉ SHEET_NAMES → dict_get name wb' = dict_get name wb) ∧
  (∀ name ws, dict_get name wb = Some ws →
              ∃ ws', dict_get name wb' = Some ws' ∧
                     (tables ws').*1 = (tables ws).*1).
Proof.
  intros (log0 & Hu & _)%update_summary_workbook_Ok.
  by eapply update_sheets_keys.
Qed.

(** An iteration looks at the sheet of its product only. *)
Lemma update_sheet_local sheet wb wb2 daily wb1 log :
  dict_get sheet wb2 = dict_get sheet wb →
  update_sheet sheet wb daily = Ok (wb1, log) →
  ∃ wb2', update_sheet sheet wb2 daily = Ok (wb2', log) ∧
          dict_get sheet wb2' = dict_get sheet wb1.
Proof.
  unfold update_sheet. intros Heq. rewrite Heq.
  destruct (dict_get sheet wb) as [ws|] eqn:Hws; cycle 1.
  { intros [= <- <-]. exists wb2. split; [done|]. congruence. }
  destruct (tables ws) as [|[first_name first] rest] eqn:Htables.
  { intros [= <- <-]. exists wb2. split; [done|]. congruence. }
  destruct (match dict_get sheet ((first_name, first) :: rest) with
            | Some t => (sheet, t)
            | None => (first_name, first)
            end) as [name t].
  destruct (reconcile sheet t daily) as [[t' log']|]; [|done].
  cbn [mbind result_bind]. intros [= <- <-].
  eexists. split; [done|]. by rewrite !dict_get_set_eq.
Qed.

Lemma update_sheets_each names :
  NoDup names →
  ∀ wb daily wb' log name,
    update_sheets names wb daily = Ok (wb', log) → name ∈ names →
    ∃ wb1 log1,
      update_sheet name wb daily = Ok (wb1, log1) ∧
      dict_get name wb' = dict_get name wb1 ∧
      log1 `sublist_of` log.
Proof.
  induction 1 as [|sheet rest Hfresh Hnd IH];
    intros wb daily wb' log name Hu Hin; [by apply elem_of_nil in Hin|].
  apply update_sheets_cons in Hu as (wbA & logA & logB & HuA & HuB & ->).
  destruct (decide (name = sheet)) as [->|Hne].
  - exists wbA, logA. split; [done|]. split.
    + by apply (update_sheets_keys _ _ _ _ _ HuB).
    + by apply sublist_inserts_r.
  - apply elem_of_cons in Hin as [?|Hin]; [done|].
    destruct (IH _ _ _ _ _ HuB Hin) as (wb1A & log1 & Hu1 & Hget & Hsub).
    pose proof (update_sheet_keys _ _ _ _ _ HuA) as (_ & Hother & _).
    destruct (update_sheet_local name wbA wb daily wb1A log1)
      as (wb1 & Hu1' & Hget'); [by rewrite Hother|done|].
    exists wb1, log1. split; [done|]. split; [congruence|].
    by apply sublist_inserts_l.
Qed.

(** X10. The sheets are reconciled independently of each other. When
    the update returns, the sheet of each product in the workbook it
    returns is the one that the iteration for that product alone makes
    of the workbook as loaded, and what that iteration reports is part
    of the log, in order. *)
Theorem sheets_independent wb daily wb' log name :
  update_summary_workbook wb daily = Ok (wb', log) →
  name ∈ SHEET_NAMES →
  ∃ wb1 log1,
    update_sheet name wb daily = Ok (wb1, log1) ∧
    dict_get name wb' = dict_get name wb1 ∧
    log1 `sublist_of` log.
Proof.
  intros (log0 & Hu & ->)%update_summary_workbook_Ok Hin.
  destruct (update_sheets_each _ SHEET_NAMES_NoDup _ _ _ _ _ Hu Hin)
    as (wb1 & log1 & Hu1 & Hget & Hsub).
  exists wb1, log1. split; [done|]. split; [done|].
  by apply sublist_inserts_r.
Qed.

Lemma update_sheet_unchanged sheet wb daily wb1 log :
  update_sheet sheet wb daily = Ok (wb1, log) →
  (∀ s n, Updated s n ∉ log) → wb1 = wb.
Proof.
  intros [[-> _]|(ws & name & t & t' & Hws & _ & Hset & Hrec & ->)]%update_sheet_Ok
    Hlog; [done|].
  apply reconcile_Ok in Hrec
    as [[-> _]|(headers & rows & k & sorted & _ & _ & _ & _ & _ & ->)].
  - rewrite Hset. apply dict_set_get_id. by destruct ws.
  - exfalso. apply (Hlog sheet (length sorted)).
    apply elem_of_app. right. by left.
Qed.

Lemma update_sheets_unchanged names :
  ∀ wb daily wb' log,
    update_sheets names wb daily = Ok (wb', log) →
    (∀ s n, Updated s n ∉ log) → wb' = wb.
Proof.
  induction names as [|sheet rest IH]; intros wb daily wb' log Hu Hlog.
  { by injection Hu as <- <-. }
  apply update_sheets_cons in Hu as (wb1 & log1 & log2 & Hu1 & Hu2 & ->).
  apply update_sheet_unchanged in Hu1 as ->.
  - apply (IH _ _ _ _ Hu2). intros s n Hin. apply (Hlog s n).
    apply elem_of_app. by right.
  - intros s n Hin. apply (Hlog s n). apply elem_of_app. by left.
Qed.

Lemma reconcile_no_files sheet t t' log :
  reconcile sheet t [] = Ok (t', log) → ∀ s n, Updated s n ∉ log.
Proof.
  intros Hrec s n Hin. unfold reconcile in Hrec.
  destruct (data t) as [|headers rows].
  { injection Hrec as <- <-.
    by apply elem_of_cons in Hin as [?|?%elem_of_nil]. }
  destruct (decide _); cycle 1.
  { injection Hrec as <- <-.
    by apply elem_of_cons in Hin as [?|?%elem_of_nil]. }
  destruct (coerce_dates _); [|done]. cbn [mbind result_bind] in Hrec.
  destruct (the_column _ _ _); [|done]. cbn [mbind result_bind] in Hrec.
  cbn in Hrec. injection Hrec as <- <-. by apply elem_of_nil in Hin.
Qed.

(** X11. The workbook changes only where the log says so: when the
    update reports no updated sheet, no table of the workbook that is
    saved differs from the one that was loaded. This is the case when
    there is no daily file. *)
Theorem unchanged_without_update wb daily wb' log :
  update_summary_workbook wb daily = Ok (wb', log) →
  ((∀ s n, Updated s n ∉ log) → wb' = wb) ∧
  (daily = [] → wb' = wb).
Proof.
  intros (log0 & Hu & ->)%update_summary_workbook_Ok.
  assert (Hmain : (∀ s n, Updated s n ∉ log0) → wb' = wb)
    by (by eapply update_sheets_unchanged).
  split.
  - intros Hlog. apply Hmain. intros s n Hin. apply (Hlog s n).
    apply elem_of_app. by left.
  - intros ->. apply Hmain. intros s n Hin.
    clear Hmain. revert wb wb' log0 Hu Hin.
    induction SHEET_NAMES as [|sheet rest IH]; intros wb wb' log0 Hu Hin.
    { injection Hu as _ <-. by apply elem_of_nil in Hin. }
    apply update_sheets_cons in Hu as (wb1 & log1 & log2 & Hu1 & Hu2 & ->).
    apply elem_of_app in Hin as [Hin|Hin]; [|by eapply IH].
    apply update_sheet_Ok in Hu1
      as [[_ Hlog]|(ws & name & t & t' & _ & _ & _ & Hrec & _)].
    + by apply (Hlog s n).
    + by apply (reconcile_no_files _ _ _ _ Hrec s n).
Qed.

End with_pandas.

(** A table whose header has the label Date twice cannot be reconciled,
    even with no daily file. *)
Lemma reconcile_raises_witness :
  ∃ headers rows,
    data (Table [[Text "Date"; Text "Date"]] (Range 1 1 2 1)) = headers :: rows ∧
    2 ≤ length (positions (Text "Date") headers).
Proof.
  destruct (reconcile_raises (H:=PandasInstances.stable_pandas) "SRW_US_Gulf"
              (Table [[Text "Date"; Text "Date"]] (Range 1 1 2 1)) []
              ValueError)
    as (headers & rows & Hdata & Hcase).
  - reflexivity.
  - exists headers, rows. split; [exact Hdata|].
    destruct Hcase as [[_ Hlen]|[[He _]|[He _]]];
      [exact Hlen|discriminate He|discriminate He].
Defined.

Lemma reconcile_returns_witness :
  is_Ok (@reconcile PandasInstances.stable_pandas "SRW_US_Gulf" sample_table
           [(3%Z, file_day3)]).
Proof.
  apply (reconcile_returns (H:=PandasInstances.stable_pandas) "SRW_US_Gulf"
           sample_table [(3%Z, file_day3)] headers6
           [sample_row "Oct" 1; sample_row "Nov" 1; sample_row "Oct" 2] 5).
  - reflexivity.
  - reflexivity.
  - simpl. lia.
  - intros d f df Hin Hread.
    apply list_elem_of_singleton in Hin. injection Hin as -> ->.
    vm_compute in Hread. injection Hread as <-. reflexivity.
Defined.

Lemma read_error_skipped_witness :
  fst <$> @reconcile PandasInstances.stable_pandas "SRW_US_Gulf" sample_table
            ([] ++ (4%Z, Unreadable IOError) :: [(3%Z, file_day3)]) =
    fst <$> @reconcile PandasInstances.stable_pandas "SRW_US_Gulf" sample_table
              ([] ++ [(3%Z, file_day3)]).
Proof.
  apply (read_error_skipped (H:=PandasInstances.stable_pandas) "SRW_US_Gulf"
           sample_table headers6
           [sample_row "Oct" 1; sample_row "Nov" 1; sample_row "Oct" 2] 5
           [] 4%Z (Unreadable IOError) [(3%Z, file_day3)] IOError).
  - reflexivity.
  - reflexivity.
  - reflexivity.
Defined.

Lemma rows_conserved_witness :
  sample_result = sample_table ∨
  (hd [] (data sample_result) = headers6 ∧
   length (tail (data sample_result)) = 5).
Proof.
  destruct (rows_conserved (H:=PandasInstances.stable_pandas) "SRW_US_Gulf"
              sample_table [(3%Z, file_day3); (4%Z, file_five_columns)]
              sample_result sample_log headers6
              [sample_row "Oct" 1; sample_row "Nov" 1; sample_row "Oct" 2] 5)
    as [Hsame|[Hhd Hperm]].
  - reflexivity.
  - reflexivity.
  - vm_compute. reflexivity.
  - left. exact Hsame.
  - right. split; [exact Hhd|reflexivity].
Defined.

Lemma workbook_structure_witness :
  ∃ wb' log,
    @update_summary_workbook PandasInstances.stable_pandas two_sheets
      [(3%Z, file_day3)] = Ok (wb', log) ∧
    wb'.*1 = two_sheets.*1.
Proof.
  destruct (@update_summary_workbook PandasInstances.stable_pandas two_sheets
              [(3%Z, file_day3)]) as [[wb' log]|] eqn:Hu;
    [|by vm_compute in Hu].
  exists wb', log. split; [reflexivity|].
  apply (workbook_structure (H:=PandasInstances.stable_pandas) two_sheets
           [(3%Z, file_day3)] wb' log Hu).
Defined.

Lemma sheets_independent_witness :
  ∃ wb' log wb1 log1,
    @update_summary_workbook PandasInstances.stable_pandas two_sheets
      [(3%Z, file_day3)] = Ok (wb', log) ∧
    @update_sheet PandasInstances.stable_pandas "HRW_Texas_Gulf" two_sheets
      [(3%Z, file_day3)] = Ok (wb1, log1) ∧
    dict_get "HRW_Texas_Gulf" wb' = dict_get "HRW_Texas_Gulf" wb1.
Proof.
  destruct (@update_summary_workbook PandasInstances.stable_pandas two_sheets
              [(3%Z, file_day3)]) as [[wb' log]|] eqn:Hu;
    [|by vm_compute in Hu].
  destruct (sheets_independent (H:=PandasInstances.stable_pandas) two_sheets
              [(3%Z, file_day3)] wb' log "HRW_Texas_Gulf" Hu)
    as (wb1 & log1 & Hu1 & Hget & _).
  - apply (bool_decide_unpack _). by vm_compute.
  - exists wb', log, wb1, log1. split; [reflexivity|].
    split; [exact Hu1|exact Hget].
Defined.

Lemma unchanged_without_update_witness :
  ∃ log,
    @update_summary_workbook PandasInstances.stable_pandas two_sheets []
    = Ok (two_sheets, log).
Proof.
  destruct (@update_summary_workbook PandasInstances.stable_pandas two_sheets [])
    as [[wb' log]|] eqn:Hu; [|by vm_compute in Hu].
  exists log. f_equal. f_equal.
  by apply (unchanged_without_update (H:=PandasInstances.stable_pandas)
              two_sheets [] wb' log Hu).
Defined.

End ReconcilerExtras.

(** ** File names *)

Module FileNamesProofs.
Import FileNames.

Lemma append_nil_l (s : string) : "" +:+ s = s.
Proof. reflexivity. Qed.

Lemma append_cons a (s1 s2 : string) :
  String a s1 +:+ s2 = String a (s1 +:+ s2).
Proof. reflexivity. Qed.

Ltac unfold_append :=
  repeat (rewrite append_cons || rewrite append_nil_l).

Ltac unfold_append_in H :=
  repeat (rewrite append_cons in H || rewrite append_nil_l in H).

Lemma append_assoc (s1 s2 s3 : string) :
  (s1 +:+ s2) +:+ s3 = s1 +:+ s2 +:+ s3.
Proof. induction s1 as [|a s1 IH]; unfold_append; by rewrite ?IH. Qed.

Lemma append_nil_r (s : string) : s +:+ "" = s.
Proof. induction s as [|a s IH]; unfold_append; by rewrite ?IH. Qed.

Lemma length_append (s1 s2 : string) :
  String.length (s1 +:+ s2) = String.length s1 + String.length s2.
Proof. induction s1 as [|a s1 IH]; unfold_append; simpl; by rewrite ?IH. Qed.

Lemma append_eq_length (p1 s1 p2 s2 : string) :
  p1 +:+ s1 = p2 +:+ s2 → String.length p1 = String.length p2 →
  p1 = p2 ∧ s1 = s2.
Proof.
  revert p2. induction p1 as [|a p1 IH]; intros [|b p2]; unfold_append;
    simpl; try done.
  intros [= -> Heq] [= Hlen]. destruct (IH _ Heq Hlen) as [-> ->]. done.
Qed.

Lemma literal_app lit s : literal lit (lit +:+ s) = Some s.
Proof.
  induction lit as [|a lit IH]; unfold_append; simpl; [done|].
  by rewrite decide_True.
Qed.

Lemma literal_Some lit s rest : literal lit s = Some rest → s = lit +:+ rest.
Proof.
  revert s. induction lit as [|a lit IH]; intros s; unfold_append; simpl;
    [by intros [= ->]|].
  destruct s as [|b s]; [done|]. destruct (decide (a = b)) as [->|]; [|done].
  intros Hl. by rewrite (IH _ Hl).
Qed.

Lemma digits_Some n s g rest :
  digits n s = Some (g, rest) → s = g +:+ rest ∧ is_digits n g = true.
Proof.
  revert s g. induction n as [|n IH]; intros s g; simpl.
  { by intros [= <- <-]. }
  destruct s as [|a s]; [done|]. destruct (isdigit a) eqn:Ha; [|done].
  destruct (digits n s) as [[ds rest']|] eqn:Hd; [|done].
  cbn [mbind option_bind]. intros [= <- <-].
  destruct (IH _ _ Hd) as [-> Hds].
  unfold_append. simpl. by rewrite Ha.
Qed.

Lemma digits_app n g rest :
  is_digits n g = true → digits n (g +:+ rest) = Some (g, rest).
Proof.
  revert g. induction n as [|n IH]; intros [|a g]; unfold_append; simpl;
    try done.
  intros [Ha Hg]%andb_true_iff. rewrite Ha, (IH _ Hg). done.
Qed.

Lemma is_digits_length n g : is_digits n g = true → String.length g = n.
Proof.
  revert g. induction n as [|n IH]; intros [|a g]; simpl; try done.
  intros [_ Hg]%andb_true_iff. by rewrite (IH _ Hg).
Qed.

Lemma is_digits_app n1 n2 g1 g2 :
  is_digits n1 g1 = true → is_digits n2 g2 = true →
  is_digits (n1 + n2) (g1 +:+ g2) = true.
Proof.
  revert g1. induction n1 as [|n1 IH]; intros [|a g1]; unfold_append; simpl;
    try done.
  intros [Ha Hg]%andb_true_iff Hg2. rewrite Ha. by apply IH.
Qed.

(** *** The search *)

Lemma search_here {A} (pattern : string → option A) s m :
  pattern s = Some m → search pattern s = Some m.
Proof. intros Hp. destruct s; simpl; by rewrite Hp. Qed.

Lemma search_cons {A} (pattern : string → option A) a s :
  search pattern (String a s) =
    match pattern (String a s) with
    | Some m => Some m
    | None => search pattern s
    end.
Proof. done. Qed.

(** A search finds the first position at which the pattern matches. *)
Lemma search_Some {A} (pattern : string → option A) s m :
  search pattern s = Some m ↔
  ∃ pre suf,
    s = pre +:+ suf ∧ pattern suf = Some m ∧
    ∀ pre' suf', s = pre' +:+ suf' →
                 String.length pre' < String.length pre → pattern suf' = None.
Proof.
  induction s as [|a s IH].
  - simpl. split.
    + intros Hp. exists "", "". split; [done|]. split.
      * by destruct (pattern "").
      * intros pre' suf' _ Hlen. simpl in Hlen. lia.
    + intros (pre & suf & Hs & Hp & _).
      destruct pre; [|done]. unfold_append_in Hs. subst suf. by rewrite Hp.
  - rewrite search_cons. split.
    + destruct (pattern (String a s)) as [m'|] eqn:Hhere.
      * intros [= ->]. exists "", (String a s). split; [done|].
        split; [done|]. intros pre' suf' _ Hlen. simpl in Hlen. lia.
      * intros (pre & suf & -> & Hp & Hfirst)%IH.
        exists (String a pre), suf. split; [done|]. split; [done|].
        intros [|b pre'] suf' Heq Hlen.
        { unfold_append_in Heq. by subst suf'. }
        unfold_append_in Heq. simpl in Hlen. injection Heq as <- Heq.
        apply (Hfirst pre' suf' Heq). lia.
    + intros (pre & suf & Hs & Hp & Hfirst).
      destruct pre as [|b pre].
      * unfold_append_in Hs. subst suf. by rewrite Hp.
      * unfold_append_in Hs. injection Hs as <- ->.
        rewrite (Hfirst "" (String a (pre +:+ suf)) eq_refl)
          by (simpl; lia).
        apply IH. exists pre, suf. split; [done|]. split; [done|].
        intros pre' suf' Heq Hlen.
        apply (Hfirst (String a pre') suf');
          [unfold_append; by rewrite Heq|simpl; lia].
Qed.

Lemma search_None {A} (pattern : string → option A) s :
  search pattern s = None ↔ ∀ pre suf, s = pre +:+ suf → pattern suf = None.
Proof.
  induction s as [|a s IH].
  - simpl. split.
    + intros Hp [|b pre] suf; [|done]. unfold_append. intros <-.
      by destruct (pattern "").
    + intros Hall. by rewrite (Hall "" "" eq_refl).
  - rewrite search_cons. split.
    + destruct (pattern (String a s)) as [m'|] eqn:Hhere; [done|].
      intros Hs [|b pre] suf Heq.
      * unfold_append_in Heq. by subst suf.
      * unfold_append_in Heq. injection Heq as <- Heq.
        by apply (proj1 IH Hs pre suf).
    + intros Hall. rewrite (Hall "" (String a s) eq_refl).
      apply IH. intros pre suf ->. by apply (Hall (String a pre) suf).
Qed.

Lemma search_is_Some {A} (pattern : string → option A) pre suf m :
  pattern suf = Some m → is_Some (search pattern (pre +:+ suf)).
Proof.
  intros Hp. destruct (search pattern (pre +:+ suf)) as [m'|] eqn:Hs;
    [by exists m'|].
  rewrite search_None in Hs. by rewrite (Hs pre suf eq_refl) in Hp.
Qed.

(** *** The two patterns *)

Lemma report_pattern_Some s g :
  report_pattern s = Some g ↔
  ∃ y m d rest,
    is_digits 4 y = true ∧ is_digits 2 m = true ∧ is_digits 2 d = true ∧
    g = y +:+ "-" +:+ m +:+ "-" +:+ d ∧
    s = "RJODailyFOBComparative" +:+ g +:+ rest.
Proof.
  unfold report_pattern. split.
  - destruct (literal _ s) as [s1|] eqn:H1; [|done].
    cbn [mbind option_bind].
    destruct (digits 4 s1) as [[y s2]|] eqn:H2; [|done].
    cbn [mbind option_bind].
    destruct (literal "-" s2) as [s3|] eqn:H3; [|done].
    cbn [mbind option_bind].
    destruct (digits 2 s3) as [[m s4]|] eqn:H4; [|done].
    cbn [mbind option_bind].
    destruct (literal "-" s4) as [s5|] eqn:H5; [|done].
    cbn [mbind option_bind].
    destruct (digits 2 s5) as [[d s6]|] eqn:H6; [|done].
    cbn [mbind option_bind]. intros [= <-].
    apply literal_Some in H1, H3, H5.
    apply digits_Some in H2 as [H2 Hy], H4 as [H4 Hm], H6 as [H6 Hd].
    exists y, m, d, s6. do 4 (split; [done|]).
    subst. by rewrite !append_assoc.
  - intros (y & m & d & rest & Hy & Hm & Hd & -> & ->).
    rewrite literal_app. cbn [mbind option_bind].
    rewrite !append_assoc.
    rewrite (digits_app 4 y) by done. cbn [mbind option_bind].
    rewrite (literal_app "-"). cbn [mbind option_bind].
    rewrite (digits_app 2 m) by done. cbn [mbind option_bind].
    rewrite (literal_app "-"). cbn [mbind option_bind].
    rewrite (digits_app 2 d) by done. done.
Qed.

Lemma daily_pattern_Some s g :
  daily_pattern s = Some g ↔
  ∃ rest, is_digits 8 g = true ∧ s = "FOB_" +:+ g +:+ rest.
Proof.
  unfold daily_pattern. split.
  - destruct (literal _ s) as [s1|] eqn:H1; [|done].
    cbn [mbind option_bind].
    destruct (digits 8 s1) as [[d s2]|] eqn:H2; [|done].
    cbn [mbind option_bind]. intros [= <-].
    apply literal_Some in H1. apply digits_Some in H2 as [H2 Hd].
    exists s2. by subst.
  - intros (rest & Hg & ->).
    rewrite literal_app. cbn [mbind option_bind].
    by rewrite (digits_app 8 g).
Qed.

Lemma endswith_app suffix pre : endswith suffix (pre +:+ suffix) = true.
Proof.
  induction pre as [|a pre IH]; unfold_append.
  - destruct suffix; cbn [endswith]; by rewrite String.eqb_refl.
  - cbn [endswith]. rewrite IH. by rewrite orb_true_r.
Qed.

(** X12. [get_date_from_filename] returns the date of the first
    occurrence of the report prefix that is followed by four digits, a
    dash, two digits, a dash and two digits, wherever the occurrence is
    in the name and whatever follows; it returns [None] exactly when
    the name has no such occurrence. The digits are not checked to be
    a day of the calendar. *)
Theorem get_date_from_filename_spec (filename : string) :
  (∀ g,
     get_date_from_filename filename = Some g ↔
     ∃ pre post y m d,
       is_digits 4 y = true ∧ is_digits 2 m = true ∧ is_digits 2 d = true ∧
       g = y +:+ "-" +:+ m +:+ "-" +:+ d ∧
       filename = pre +:+ "RJODailyFOBComparative" +:+ g +:+ post ∧
       ∀ pre' post' y' m' d',
         is_digits 4 y' = true → is_digits 2 m' = true →
         is_digits 2 d' = true →
         filename = pre' +:+ "RJODailyFOBComparative" +:+
                    (y' +:+ "-" +:+ m' +:+ "-" +:+ d') +:+ post' →
         String.length pre ≤ String.length pre') ∧
  (get_date_from_filename filename = None ↔
   ∀ pre post y m d,
     is_digits 4 y = true → is_digits 2 m = true → is_digits 2 d = true →
     filename ≠ pre +:+ "RJODailyFOBComparative" +:+
                (y +:+ "-" +:+ m +:+ "-" +:+ d) +:+ post).
Proof.
  assert (Hget : get_date_from_filename filename = search report_pattern filename).
  { unfold get_date_from_filename. by destruct (search _ _). }
  rewrite Hget. split.
  - intros g. rewrite search_Some. split.
    + intros (pre & suf & -> & Hp & Hfirst).
      apply report_pattern_Some in Hp as (y & m & d & post & Hy & Hm & Hd & -> & ->).
      exists pre, post, y, m, d. do 5 (split; [done|]).
      intros pre' post' y' m' d' Hy' Hm' Hd' Heq.
      destruct (decide (String.length pre ≤ String.length pre')); [done|].
      assert (report_pattern
                ("RJODailyFOBComparative" +:+
                 (y' +:+ "-" +:+ m' +:+ "-" +:+ d') +:+ post') =
              Some (y' +:+ "-" +:+ m' +:+ "-" +:+ d')) as Hp'.
      { apply report_pattern_Some. by exists y', m', d', post'. }
      by rewrite (Hfirst pre' _ Heq) in Hp' by lia.
    + intros (pre & post & y & m & d & Hy & Hm & Hd & -> & -> & Hfirst).
      exists pre, ("RJODailyFOBComparative" +:+
                   (y +:+ "-" +:+ m +:+ "-" +:+ d) +:+ post).
      split; [done|]. split.
      { apply report_pattern_Some. by exists y, m, d, post. }
      intros pre' suf' Heq Hlen.
      destruct (report_pattern suf') as [g'|] eqn:Hp'; [|done].
      apply report_pattern_Some in Hp'
        as (y' & m' & d' & post' & Hy' & Hm' & Hd' & -> & ->).
      pose proof (Hfirst pre' post' y' m' d' Hy' Hm' Hd' Heq). lia.
  - rewrite search_None. split.
    + intros Hnone pre post y m d Hy Hm Hd Heq.
      assert (report_pattern
                ("RJODailyFOBComparative" +:+
                 (y +:+ "-" +:+ m +:+ "-" +:+ d) +:+ post) =
              Some (y +:+ "-" +:+ m +:+ "-" +:+ d)) as Hp.
      { apply report_pattern_Some. by exists y, m, d, post. }
      by rewrite (Hnone pre _ Heq) in Hp.
    + intros Hnone pre suf ->.
      destruct (report_pattern suf) as [g|] eqn:Hp; [|done].
      apply report_pattern_Some in Hp
        as (y & m & d & post & Hy & Hm & Hd & -> & ->).
      by destruct (Hnone pre post y m d Hy Hm Hd).
Qed.

End FileNamesProofs.

(** ** The [datetime] interface has a model *)

Module DatetimeInstance.
Import FileNames Dates DatetimeModel FileNamesProofs.
Local Open Scope Z_scope.

Lemma isdigit_digit a :
  isdigit a = true →
  ∃ k, 0 ≤ k < 10 ∧ a = digit k ∧ Z.of_nat (nat_of_ascii a) - 48 = k.
Proof.
  unfold isdigit. intros [Hlo%Nat.leb_le Hhi%Nat.leb_le]%andb_true_iff.
  exists (Z.of_nat (nat_of_ascii a) - 48). split; [lia|]. split; [|done].
  unfold digit.
  replace (Z.to_nat (48 + (Z.of_nat (nat_of_ascii a) - 48)))
    with (nat_of_ascii a) by lia.
  by rewrite ascii_nat_embedding.
Qed.

Lemma is_digits_2 g :
  is_digits 2 g = true →
  ∃ a b, 0 ≤ a < 10 ∧ 0 ≤ b < 10 ∧
         g = String (digit a) (String (digit b) "") ∧ int g = 10 * a + b.
Proof.
  destruct g as [|c1 [|c2 [|]]]; simpl; rewrite ?andb_false_r; try done.
  intros [H1 [H2 _]%andb_true_iff]%andb_true_iff.
  destruct (isdigit_digit _ H1) as (a & Ha & Hc1 & Hv1).
  destruct (isdigit_digit _ H2) as (b & Hb & Hc2 & Hv2).
  exists a, b. do 2 (split; [done|]). split; [by rewrite <- Hc1, <- Hc2|].
  unfold int. cbn [int_from]. lia.
Qed.

Lemma is_digits_4 g :
  is_digits 4 g = true →
  ∃ a b c d, 0 ≤ a < 10 ∧ 0 ≤ b < 10 ∧ 0 ≤ c < 10 ∧ 0 ≤ d < 10 ∧
    g = String (digit a) (String (digit b)
          (String (digit c) (String (digit d) ""))) ∧
    int g = 1000 * a + 100 * b + 10 * c + d.
Proof.
  destruct g as [|c1 [|c2 [|c3 [|c4 [|]]]]]; simpl; rewrite ?andb_false_r;
    try done.
  intros [H1 [H2 [H3 [H4 _]%andb_true_iff]%andb_true_iff]%andb_true_iff]%andb_true_iff.
  destruct (isdigit_digit _ H1) as (a & Ha & Hc1 & Hv1).
  destruct (isdigit_digit _ H2) as (b & Hb & Hc2 & Hv2).
  destruct (isdigit_digit _ H3) as (c & Hc & Hc3 & Hv3).
  destruct (isdigit_digit _ H4) as (d & Hd & Hc4 & Hv4).
  exists a, b, c, d. do 4 (split; [done|]).
  split; [by rewrite <- Hc1, <- Hc2, <- Hc3, <- Hc4|].
  unfold int. cbn [int_from]. lia.
Qed.

Lemma show2_int g :
  is_digits 2 g = true → show2 (int g) = g ∧ 0 ≤ int g < 100.
Proof.
  intros (a & b & Ha & Hb & -> & ->)%is_digits_2. split; [|lia].
  unfold show2.
  replace ((10 * a + b) / 10 mod 10) with a
    by (Z.div_mod_to_equations; lia).
  replace ((10 * a + b) mod 10) with b by (Z.div_mod_to_equations; lia).
  done.
Qed.

Lemma show4_int g :
  is_digits 4 g = true → show4 (int g) = g ∧ 0 ≤ int g < 10000.
Proof.
  intros (a & b & c & d & Ha & Hb & Hc & Hd & -> & ->)%is_digits_4.
  split; [|lia]. unfold show4, show2.
  replace ((1000 * a + 100 * b + 10 * c + d) / 1000 mod 10) with a
    by (Z.div_mod_to_equations; lia).
  replace ((1000 * a + 100 * b + 10 * c + d) / 100 mod 10) with b
    by (Z.div_mod_to_equations; lia).
  replace ((1000 * a + 100 * b + 10 * c + d) / 10 mod 10) with c
    by (Z.div_mod_to_equations; lia).
  replace ((1000 * a + 100 * b + 10 * c + d) mod 10) with d
    by (Z.div_mod_to_equations; lia).
  done.
Qed.

Lemma digits_all n g : is_digits n g = true → digits n g = Some (g, "").
Proof.
  intros Hg. rewrite <- (append_nil_r g) at 1. by apply digits_app.
Qed.

Lemma parse_dashed_app y m d :
  is_digits 4 y = true → is_digits 2 m = true → is_digits 2 d = true →
  parse_dashed (y +:+ "-" +:+ m +:+ "-" +:+ d) = Some (y, m, d).
Proof.
  intros Hy Hm Hd. unfold parse_dashed.
  rewrite (digits_app 4 y) by done. cbn [mbind option_bind].
  rewrite (literal_app "-"). cbn [mbind option_bind].
  rewrite (digits_app 2 m) by done. cbn [mbind option_bind].
  rewrite (literal_app "-"). cbn [mbind option_bind].
  by rewrite (digits_all 2 d).
Qed.

Lemma parse_compact_app y m d :
  is_digits 4 y = true → is_digits 2 m = true → is_digits 2 d = true →
  parse_compact (y +:+ m +:+ d) = Some (y, m, d).
Proof.
  intros Hy Hm Hd. unfold parse_compact.
  rewrite (digits_app 4 y) by done. cbn [mbind option_bind].
  rewrite (digits_app 2 m) by done. cbn [mbind option_bind].
  by rewrite (digits_all 2 d).
Qed.

Lemma model_strftime_compact y m d :
  is_digits 4 y = true → is_digits 2 m = true → is_digits 2 d = true →
  model_strftime (datetime (int y) (int m) (int d)) "%Y%m%d" = y +:+ m +:+ d.
Proof.
  intros Hy Hm Hd.
  destruct (show4_int y Hy) as [Hsy Hby].
  destruct (show2_int m Hm) as [Hsm Hbm].
  destruct (show2_int d Hd) as [Hsd Hbd].
  unfold model_strftime, datetime.
  replace ((int y * 10000 + int m * 100 + int d) / 10000) with (int y)
    by (Z.div_mod_to_equations; lia).
  replace ((int y * 10000 + int m * 100 + int d) / 100 mod 100) with (int m)
    by (Z.div_mod_to_equations; lia).
  replace ((int y * 10000 + int m * 100 + int d) mod 100) with (int d)
    by (Z.div_mod_to_equations; lia).
  by rewrite Hsy, Hsm, Hsd.
Qed.

Lemma model_strptime_dashed y m d :
  is_digits 4 y = true → is_digits 2 m = true → is_digits 2 d = true →
  model_strptime (y +:+ "-" +:+ m +:+ "-" +:+ d) "%Y-%m-%d" =
    if valid_date (int y) (int m) (int d)
    then Ok (datetime (int y) (int m) (int d)) else Raise ValueError.
Proof.
  intros Hy Hm Hd. unfold model_strptime.
  rewrite decide_True by done. by rewrite parse_dashed_app.
Qed.

Lemma model_strptime_compact y m d :
  is_digits 4 y = true → is_digits 2 m = true → is_digits 2 d = true →
  model_strptime (y +:+ m +:+ d) "%Y%m%d" =
    if valid_date (int y) (int m) (int d)
    then Ok (datetime (int y) (int m) (int d)) else Raise ValueError.
Proof.
  intros Hy Hm Hd. unfold model_strptime.
  rewrite decide_False by done. rewrite decide_True by done.
  by rewrite parse_compact_app.
Qed.

Definition model_datetime : Datetime.
Proof.
  refine {| strptime := model_strptime;
            strftime := model_strftime |}.
  - apply model_strptime_dashed.
  - apply model_strptime_compact.
  - intros y m d Hy Hm Hd _ _. by apply model_strftime_compact.
Defined.

End DatetimeInstance.

(** ** The two steps on the directories *)

Module DailyFilesProofs.
Import FileNames Dates DailyFiles FileNamesProofs.

Section with_libraries.
Context `{Datetime} (to_excel : Segmenter.results → write_outcome).

(** *** The dates in the names of the reports *)

Lemma get_date_shape pdf_file g :
  get_date_from_filename pdf_file = Some g →
  ∃ y m d,
    is_digits 4 y = true ∧ is_digits 2 m = true ∧ is_digits 2 d = true ∧
    g = y +:+ "-" +:+ m +:+ "-" +:+ d.
Proof.
  unfold get_date_from_filename.
  destruct (search report_pattern pdf_file) as [g'|] eqn:Hs; [|done].
  intros [= ->].
  apply search_Some in Hs as (pre & suf & _ & Hp & _).
  apply report_pattern_Some in Hp as (y & m & d & rest & Hy & Hm & Hd & -> & _).
  by exists y, m, d.
Qed.

Lemma get_date_nonempty pdf_file g :
  get_date_from_filename pdf_file = Some g → PyStr.nonempty g = true.
Proof.
  intros (y & m & d & Hy & _ & _ & ->)%get_date_shape.
  destruct y as [|a y]; [done|]. by rewrite append_cons.
Qed.

(** The conversion of line 205 gives the day that the digits denote, or
    raises [ValueError]. *)
Lemma strptime_report_date pdf_file g :
  get_date_from_filename pdf_file = Some g →
  ∃ y m d,
    is_digits 4 y = true ∧ is_digits 2 m = true ∧ is_digits 2 d = true ∧
    g = y +:+ "-" +:+ m +:+ "-" +:+ d ∧
    strptime g "%Y-%m-%d" =
      if valid_date (int y) (int m) (int d)
      then Ok (datetime (int y) (int m) (int d)) else Raise ValueError.
Proof.
  intros (y & m & d & Hy & Hm & Hd & ->)%get_date_shape.
  exists y, m, d. do 4 (split; [done|]). by apply strptime_dashed.
Qed.

(** *** One report *)

Lemma process_pdf_Raise pdf_file src csv e :
  process_pdf to_excel pdf_file src csv = Raise e ↔
  ∃ g, get_date_from_filename pdf_file = Some g ∧
       strptime g "%Y-%m-%d" = Raise e.
Proof.
  unfold process_pdf.
  destruct (get_date_from_filename pdf_file) as [g|] eqn:Hg; cycle 1.
  { split; [done|]. by intros (g & ? & _). }
  rewrite (get_date_nonempty _ _ Hg). cbn [negb].
  destruct (strptime g "%Y-%m-%d") as [date_obj|e'] eqn:Hd.
  - cbn [mbind result_bind]. split; [|by intros (g' & [= <-] & ?); congruence].
    destruct (decide _); [done|].
    destruct (parse_path src date_obj) as [[[|? ?] ?]|]; [done| |done].
    by destruct (to_excel _).
  - cbn [mbind result_bind]. split.
    + intros [= <-]. by exists g.
    + intros (g' & [= <-] & ?). congruence.
Qed.

(** What one iteration leaves in [csv/]: the directory as it was, or
    one more file, named after the day of the report and left by the
    writer on the frames of the report. *)
Lemma process_pdf_Ok pdf_file src csv csv' log :
  process_pdf to_excel pdf_file src csv = Ok (csv', log) →
  csv' = csv ∨
  ∃ g date_obj f doc dfs parser_log,
    get_date_from_filename pdf_file = Some g ∧
    strptime g "%Y-%m-%d" = Ok date_obj ∧
    csv !! output_name date_obj = None ∧
    csv' = <[output_name date_obj:=f]> csv ∧
    src = Ok doc ∧
    Segmenter.parse_pdf_to_dfs doc date_obj = Ok (dfs, parser_log) ∧
    dfs ≠ [] ∧
    (to_excel dfs = Saved f ∨ ∃ e, to_excel dfs = WriteFailed e (Some f)).
Proof.
  unfold process_pdf.
  destruct (get_date_from_filename pdf_file) as [g|] eqn:Hg; cycle 1.
  { intros [= <- _]. by left. }
  rewrite (get_date_nonempty _ _ Hg). cbn [negb].
  destruct (strptime g "%Y-%m-%d") as [date_obj|] eqn:Hd; [|done].
  cbn [mbind result_bind].
  destruct (decide _) as [|Hnew]; [intros [= <- _]; by left|].
  assert (csv !! output_name date_obj = None) as Hnone.
  { destruct (csv !! output_name date_obj) eqn:Hl; [|done].
    destruct Hnew. by eexists. }
  unfold parse_path.
  destruct src as [doc|]; cbn [mbind result_bind];
    [|intros [= <- _]; by left].
  destruct (Segmenter.parse_pdf_to_dfs doc date_obj) as [[dfs parser_log]|]
    eqn:Hparse; [|intros [= <- _]; by left].
  destruct dfs as [|df dfs]; [intros [= <- _]; by left|].
  destruct (to_excel (df :: dfs)) as [f|e [f|]] eqn:Hw;
    intros [= <- _]; [right|right|by left].
  - exists g, date_obj, f, doc, (df :: dfs), parser_log.
    do 6 (split; [done|]). split; [done|]. by left.
  - exists g, date_obj, f, doc, (df :: dfs), parser_log.
    do 6 (split; [done|]). split; [done|]. right. by exists e.
Qed.

Lemma process_pdf_grows pdf_file src csv csv' log :
  process_pdf to_excel pdf_file src csv = Ok (csv', log) → csv ⊆ csv'.
Proof.
  intros [->|(g & date_obj & f & _ & _ & _ & _ & _ & Hnone & -> & _)]%process_pdf_Ok;
    [done|].
  by apply insert_subseteq.
Qed.

(** An iteration that has run leaves nothing to do: on a directory that
    holds what it left, it creates no file. *)
Lemma process_pdf_again pdf_file src csv csv1 log csv2 :
  process_pdf to_excel pdf_file src csv = Ok (csv1, log) → csv1 ⊆ csv2 →
  ∃ log', process_pdf to_excel pdf_file src csv2 = Ok (csv2, log').
Proof.
  unfold process_pdf.
  destruct (get_date_from_filename pdf_file) as [g|] eqn:Hg; cycle 1.
  { intros _ _. by eexists. }
  rewrite (get_date_nonempty _ _ Hg). cbn [negb].
  destruct (strptime g "%Y-%m-%d") as [date_obj|] eqn:Hd; [|done].
  cbn [mbind result_bind]. intros Hrun Hsub.
  destruct (decide (is_Some (csv2 !! output_name date_obj))) as [|Hnew2];
    [by eexists|].
  destruct (decide (is_Some (csv !! output_name date_obj))) as [[f Hf]|Hnew].
  { injection Hrun as <- _. destruct Hnew2. exists f.
    by eapply lookup_weaken. }
  destruct (parse_path src date_obj) as [[dfs parser_log]|]; [|by eexists].
  destruct dfs as [|df dfs]; [by eexists|].
  destruct (to_excel (df :: dfs)) as [f|e [f|]]; [| |by eexists];
    injection Hrun as <- _; destruct Hnew2; exists f;
    (eapply lookup_weaken; [|done]); apply lookup_insert_eq.
Qed.

(** *** The loop *)

Lemma process_files_cons pdf_file src rest csv :
  process_files to_excel ((pdf_file, src) :: rest) csv =
    match process_pdf to_excel pdf_file src csv with
    | Ok (csv', log) =>
        let r := process_files to_excel rest csv' in
        Run (files r) (log ++ printed r) (raised r)
    | Raise e => Run csv [] (Some e)
    end.
Proof. done. Qed.

Lemma process_files_grows pdf_files :
  ∀ csv, csv ⊆ files (process_files to_excel pdf_files csv).
Proof.
  induction pdf_files as [|[pdf_file src] rest IH]; intros csv; [done|].
  rewrite process_files_cons.
  destruct (process_pdf to_excel pdf_file src csv) as [[csv' log]|] eqn:Hp;
    [|done].
  cbn [files]. etrans; [by eapply process_pdf_grows|apply IH].
Qed.

Lemma process_files_new pdf_files :
  ∀ csv name f,
    csv !! name = None →
    files (process_files to_excel pdf_files csv) !! name = Some f →
    ∃ pdf_file g date_obj doc dfs parser_log,
      (pdf_file, Ok doc) ∈ pdf_files ∧
      get_date_from_filename pdf_file = Some g ∧
      strptime g "%Y-%m-%d" = Ok date_obj ∧
      name = output_name date_obj ∧
      Segmenter.parse_pdf_to_dfs doc date_obj = Ok (dfs, parser_log) ∧
      dfs ≠ [] ∧
      (to_excel dfs = Saved f ∨ ∃ e, to_excel dfs = WriteFailed e (Some f)).
Proof.
  induction pdf_files as [|[pdf_file src] rest IH]; intros csv name f Hnone Hf.
  { cbn in Hf. congruence. }
  rewrite process_files_cons in Hf.
  destruct (process_pdf to_excel pdf_file src csv) as [[csv' log]|] eqn:Hp;
    [|cbn in Hf; congruence].
  cbn [files] in Hf.
  assert (Hrest : csv' !! name = None →
    ∃ p g date_obj doc dfs parser_log,
      (p, Ok doc) ∈ (pdf_file, src) :: rest ∧
      get_date_from_filename p = Some g ∧
      strptime g "%Y-%m-%d" = Ok date_obj ∧
      name = output_name date_obj ∧
      Segmenter.parse_pdf_to_dfs doc date_obj = Ok (dfs, parser_log) ∧
      dfs ≠ [] ∧
      (to_excel dfs = Saved f ∨ ∃ e, to_excel dfs = WriteFailed e (Some f))).
  { intros Hnone'.
    destruct (IH csv' name f Hnone' Hf)
      as (p & g & d & doc & dfs & pl & Hin & Hrest).
    exists p, g, d, doc, dfs, pl. split; [by right|done]. }
  apply process_pdf_Ok in Hp
    as [->|(g & date_obj & f' & doc & dfs & pl & Hg & Hd & Hnew & -> & -> & Hparse & Hne & Hw)];
    [by apply Hrest|].
  destruct (decide (name = output_name date_obj)) as [->|Hname];
    [|apply Hrest; by rewrite lookup_insert_ne].
  assert (f' = f) as ->.
  { pose proof (process_files_grows rest (<[output_name date_obj:=f']> csv))
      as Hsub.
    pose proof (lookup_weaken _ _ _ _ (lookup_insert_eq csv _ f') Hsub).
    congruence. }
  exists pdf_file, g, date_obj, doc, dfs, pl. split; [by left|done].
Qed.

(** A second run on what a first run left creates nothing and ends as
    the first did. *)
Lemma process_files_again pdf_files :
  ∀ csv csv2,
    files (process_files to_excel pdf_files csv) ⊆ csv2 →
    files (process_files to_excel pdf_files csv2) = csv2 ∧
    raised (process_files to_excel pdf_files csv2) =
      raised (process_files to_excel pdf_files csv).
Proof.
  induction pdf_files as [|[pdf_file src] rest IH]; intros csv csv2 Hsub;
    [done|].
  rewrite !process_files_cons. rewrite process_files_cons in Hsub.
  destruct (process_pdf to_excel pdf_file src csv) as [[csv1 log]|e] eqn:Hp.
  - cbn [files raised] in *.
    assert (csv1 ⊆ csv2) as Hsub1
      by (etrans; [apply process_files_grows|done]).
    destruct (process_pdf_again _ _ _ _ _ _ Hp Hsub1) as [log' ->].
    cbn [files raised]. by apply IH.
  - apply process_pdf_Raise in Hp.
    by rewrite (proj2 (process_pdf_Raise pdf_file src csv2 e) Hp).
Qed.

Lemma process_files_raised pdf_files :
  ∀ csv e,
    raised (process_files to_excel pdf_files csv) = Some e ↔
    e = ValueError ∧
    ∃ pdf_file src y m d,
      (pdf_file, src) ∈ pdf_files ∧
      get_date_from_filename pdf_file =
        Some (y +:+ "-" +:+ m +:+ "-" +:+ d) ∧
      is_digits 4 y = true ∧ is_digits 2 m = true ∧ is_digits 2 d = true ∧
      valid_date (int y) (int m) (int d) = false.
Proof.
  induction pdf_files as [|[pdf_file src] rest IH]; intros csv e.
  { cbn. split; [done|]. by intros (_ & ? & ? & ? & ? & ? & ?%elem_of_nil & _). }
  rewrite process_files_cons.
  destruct (process_pdf to_excel pdf_file src csv) as [[csv1 log]|e'] eqn:Hp.
  - cbn [raised]. rewrite IH. split.
    + intros (-> & p & s & y & m & d & Hin & Hrest). split; [done|].
      exists p, s, y, m, d. split; [by right|done].
    + intros (-> & p & s & y & m & d & Hin & Hg & Hy & Hm & Hd & Hbad).
      split; [done|]. exists p, s, y, m, d. split; [|done].
      apply elem_of_cons in Hin as [[= -> ->]|Hin]; [|done].
      exfalso.
      assert (process_pdf to_excel pdf_file src csv = Raise ValueError) as Hr.
      { apply process_pdf_Raise. eexists. split; [done|].
        by rewrite strptime_dashed, Hbad. }
      congruence.
  - cbn [raised].
    apply process_pdf_Raise in Hp as (g & Hg & Hd).
    destruct (strptime_report_date _ _ Hg)
      as (y & m & d & Hy & Hm & Hdd & -> & Hconv).
    rewrite Hconv in Hd.
    destruct (valid_date (int y) (int m) (int d)) eqn:Hv; [done|].
    injection Hd as <-. split.
    + intros [= <-]. split; [done|].
      exists pdf_file, src, y, m, d. split; [by left|done].
    + by intros [-> _].
Qed.

(** X13. Step 1 ends with an exception exactly when a listed name that
    ends in [.pdf] carries, after the report prefix, a date that is no
    day of the calendar, such as a month 13 or a 30 February: the
    conversion of line 205 is outside the [try], and the exception is
    [ValueError]. What opening the document, the parser or the writer
    raise never ends the run. *)
Theorem step1_raises_iff listing csv e :
  raised (process_daily_pdfs to_excel listing csv) = Some e ↔
  e = ValueError ∧
  ∃ pdf_file src y m d,
    (pdf_file, src) ∈ listing ∧
    endswith ".pdf" pdf_file = true ∧
    get_date_from_filename pdf_file = Some (y +:+ "-" +:+ m +:+ "-" +:+ d) ∧
    is_digits 4 y = true ∧ is_digits 2 m = true ∧ is_digits 2 d = true ∧
    valid_date (int y) (int m) (int d) = false.
Proof.
  unfold process_daily_pdfs. cbn [raised]. rewrite process_files_raised.
  split.
  - intros (-> & p & s & y & m & d & [Hpdf Hin]%list_elem_of_filter & Hrest).
    split; [done|]. by exists p, s, y, m, d.
  - intros (-> & p & s & y & m & d & Hin & Hpdf & Hrest).
    split; [done|]. exists p, s, y, m, d. split; [|done].
    by apply list_elem_of_filter.
Qed.

(** X14. Step 1 only adds files to [csv/]. A file that is there stays
    as it is, also when a report of its day is listed. A file that
    appears is named after the day in the name of a listed [.pdf], and
    is what the writer left for the frames parsed from that document
    with that day, which are not empty. *)
Theorem csv_files_kept listing csv name :
  (∀ f, csv !! name = Some f →
        files (process_daily_pdfs to_excel listing csv) !! name = Some f) ∧
  (∀ f, csv !! name = None →
        files (process_daily_pdfs to_excel listing csv) !! name = Some f →
        ∃ pdf_file g date_obj doc dfs parser_log,
          (pdf_file, Ok doc) ∈ listing ∧
          endswith ".pdf" pdf_file = true ∧
          get_date_from_filename pdf_file = Some g ∧
          strptime g "%Y-%m-%d" = Ok date_obj ∧
          name = output_name date_obj ∧
          Segmenter.parse_pdf_to_dfs doc date_obj = Ok (dfs, parser_log) ∧
          dfs ≠ [] ∧
          (to_excel dfs = Saved f ∨
           ∃ e, to_excel dfs = WriteFailed e (Some f))).
Proof.
  unfold process_daily_pdfs. cbn [files]. split.
  - intros f Hf. eapply lookup_weaken; [done|apply process_files_grows].
  - intros f Hnone Hf.
    destruct (process_files_new _ _ _ _ Hnone Hf)
      as (p & g & date_obj & doc & dfs & pl & [Hpdf Hin]%list_elem_of_filter & Hrest).
    by exists p, g, date_obj, doc, dfs, pl.
Qed.

(** X15. Step 1 is idempotent: run again on the same listing and on
    the directory that the first run left, with documents and a writer
    that behave as before, it creates no file and ends the way the
    first run did. *)
Theorem step1_idempotent listing csv :
  files (process_daily_pdfs to_excel listing
           (files (process_daily_pdfs to_excel listing csv))) =
    files (process_daily_pdfs to_excel listing csv) ∧
  raised (process_daily_pdfs to_excel listing
            (files (process_daily_pdfs to_excel listing csv))) =
    raised (process_daily_pdfs to_excel listing csv).
Proof.
  unfold process_daily_pdfs. cbn [files raised].
  by apply process_files_again.
Qed.

(** *** The names of the daily files *)

Lemma is_digits_split g :
  is_digits 8 g = true →
  ∃ y m d, g = y +:+ m +:+ d ∧
           is_digits 4 y = true ∧ is_digits 2 m = true ∧ is_digits 2 d = true.
Proof.
  destruct g as [|a1 [|a2 [|a3 [|a4 [|a5 [|a6 [|a7 [|a8 [|]]]]]]]]];
    cbn [is_digits]; rewrite ?andb_false_r; try done.
  intros Hg. repeat (apply andb_true_iff in Hg as [? Hg]).
  exists (String a1 (String a2 (String a3 (String a4 "")))),
         (String a5 (String a6 "")), (String a7 (String a8 "")).
  split; [done|]. cbn [is_digits].
  repeat match goal with Hd : isdigit _ = true |- _ => rewrite Hd; clear Hd end.
  done.
Qed.

Lemma daily_date_cases name :
  daily_date name = None ∨
  ∃ y m d,
    is_digits 4 y = true ∧ is_digits 2 m = true ∧ is_digits 2 d = true ∧
    startswith "FOB_" name = true ∧ endswith ".xlsx" name = true ∧
    search daily_pattern name = Some (y +:+ m +:+ d) ∧
    daily_date name =
      Some (if valid_date (int y) (int m) (int d)
            then Ok (datetime (int y) (int m) (int d))
            else Raise ValueError).
Proof.
  unfold daily_date.
  destruct (startswith "FOB_" name) eqn:Hstart; [|by left].
  destruct (endswith ".xlsx" name) eqn:Hend; [|by left].
  cbn [andb].
  destruct (search daily_pattern name) as [g|] eqn:Hs; [|by left].
  right. cbn [mbind option_bind].
  pose proof Hs as (pre & suf & _ & Hp & _)%search_Some.
  apply daily_pattern_Some in Hp as (rest & Hg & _).
  apply is_digits_split in Hg as (y & m & d & -> & Hy & Hm & Hd).
  exists y, m, d. do 6 (split; [done|]). by rewrite strptime_compact.
Qed.

Lemma list_daily_files_cons name file rest acc :
  list_daily_files ((name, file) :: rest) acc =
    match daily_date name with
    | None => list_daily_files rest acc
    | Some (Ok d_obj) => list_daily_files rest (date_dict_set d_obj file acc)
    | Some (Raise e) => Raise e
    end.
Proof.
  cbn [list_daily_files]. unfold daily_date.
  destruct (startswith "FOB_" name && endswith ".xlsx" name); [|done].
  destruct (search daily_pattern name) as [g|]; [|done].
  cbn [mbind option_bind]. by destruct (strptime g "%Y%m%d").
Qed.

(** The name that step 1 gives to the file of a day of a year from 1000
    on. *)
Lemma output_name_digits y m d :
  is_digits 4 y = true → is_digits 2 m = true → is_digits 2 d = true →
  valid_date (int y) (int m) (int d) = true → (1000 ≤ int y)%Z →
  output_name (datetime (int y) (int m) (int d)) =
    "FOB_" +:+ (y +:+ m +:+ d) +:+ ".xlsx".
Proof.
  intros Hy Hm Hd Hv Hyear. unfold output_name.
  by rewrite strftime_compact.
Qed.

Lemma daily_date_digits y m d :
  is_digits 4 y = true → is_digits 2 m = true → is_digits 2 d = true →
  daily_date ("FOB_" +:+ (y +:+ m +:+ d) +:+ ".xlsx") =
    Some (if valid_date (int y) (int m) (int d)
          then Ok (datetime (int y) (int m) (int d)) else Raise ValueError).
Proof.
  intros Hy Hm Hd. unfold daily_date.
  assert (startswith "FOB_" ("FOB_" +:+ (y +:+ m +:+ d) +:+ ".xlsx") = true) as ->.
  { unfold startswith. unfold_append. cbn. by destruct (_ +:+ _). }
  assert (endswith ".xlsx" ("FOB_" +:+ (y +:+ m +:+ d) +:+ ".xlsx") = true) as ->.
  { rewrite <- !append_assoc. apply endswith_app. }
  cbn [andb].
  rewrite (search_here daily_pattern _ (y +:+ m +:+ d)); cycle 1.
  { apply daily_pattern_Some. exists ".xlsx". split; [|done].
    apply (is_digits_app 4 4); [done|]. by apply (is_digits_app 2 2). }
  cbn [mbind option_bind]. by rewrite strptime_compact.
Qed.

(** X16. The name of a daily file reads back as its day. For a day of
    a year from 1000 on, step 1 names the file [FOB_], the eight digits
    of the day, [.xlsx], and step 2 reads in that name the day that
    step 1 read in the name of the report. *)
Theorem output_name_read_back y m d file :
  is_digits 4 y = true → is_digits 2 m = true → is_digits 2 d = true →
  valid_date (int y) (int m) (int d) = true → (1000 ≤ int y)%Z →
  ∃ date_obj,
    strptime (y +:+ "-" +:+ m +:+ "-" +:+ d) "%Y-%m-%d" = Ok date_obj ∧
    output_name date_obj = "FOB_" +:+ (y +:+ m +:+ d) +:+ ".xlsx" ∧
    list_daily_files [(output_name date_obj, file)] [] = Ok [(date_obj, file)].
Proof.
  intros Hy Hm Hd Hv Hyear. exists (datetime (int y) (int m) (int d)).
  split; [by rewrite strptime_dashed, Hv|].
  rewrite output_name_digits by done. split; [done|].
  rewrite list_daily_files_cons, daily_date_digits by done.
  by rewrite Hv.
Qed.

(** *** The listing of the daily files *)

Lemma date_dict_set_keys {V} (k : Z) (v : V) dict k' :
  k' ∈ (date_dict_set k v dict).*1 ↔ k' = k ∨ k' ∈ dict.*1.
Proof.
  induction dict as [|[k0 v0] dict IH]; cbn [date_dict_set].
  - rewrite fmap_cons. cbn [fst]. by rewrite elem_of_cons.
  - destruct (decide (k0 = k)) as [->|Hne]; rewrite !fmap_cons; cbn [fst];
      rewrite !elem_of_cons; [tauto|]. rewrite IH. tauto.
Qed.

Lemma date_dict_set_NoDup {V} (k : Z) (v : V) dict :
  NoDup dict.*1 → NoDup (date_dict_set k v dict).*1.
Proof.
  induction dict as [|[k0 v0] dict IH]; cbn [date_dict_set].
  - intros _. rewrite fmap_cons. apply NoDup_singleton.
  - rewrite fmap_cons. cbn [fst]. intros [Hk0 Hnd]%NoDup_cons.
    destruct (decide (k0 = k)) as [->|Hne]; rewrite fmap_cons; cbn [fst];
      apply NoDup_cons; [done|].
    split; [|by apply IH]. rewrite date_dict_set_keys. intros [?|?]; done.
Qed.

Lemma date_dict_set_elem {V} (k : Z) (v : V) dict k' v' :
  NoDup dict.*1 →
  (k', v') ∈ date_dict_set k v dict ↔
  (k' = k ∧ v' = v) ∨ (k' ≠ k ∧ (k', v') ∈ dict).
Proof.
  induction dict as [|[k0 v0] dict IH]; cbn [date_dict_set].
  - intros _. rewrite list_elem_of_singleton. split.
    + intros [= -> ->]. by left.
    + intros [[-> ->]|[_ ?%elem_of_nil]]; done.
  - rewrite fmap_cons. cbn [fst]. intros [Hk0 Hnd]%NoDup_cons.
    destruct (decide (k0 = k)) as [->|Hne]; rewrite !elem_of_cons.
    + split.
      * intros [[= -> ->]|Hin]; [by left|].
        right. split; [|by right]. intros ->. apply Hk0.
        apply list_elem_of_fmap. by exists (k, v').
      * intros [[-> ->]|[Hne [[= -> ->]|Hin]]]; [by left|done|by right].
    + rewrite (IH Hnd). split.
      * intros [[= -> ->]|[?|[? ?]]]; [right|by left|right];
          (split; [done|]); [by left|by right].
      * intros [[-> ->]|[Hne' [[= -> ->]|Hin]]];
          [right; by left|by left|right; right; by split].
Qed.

Lemma list_daily_files_Raise listing :
  ∀ acc e,
    list_daily_files listing acc = Raise e ↔
    e = ValueError ∧
    ∃ name file y m d,
      (name, file) ∈ listing ∧
      startswith "FOB_" name = true ∧ endswith ".xlsx" name = true ∧
      search daily_pattern name = Some (y +:+ m +:+ d) ∧
      is_digits 4 y = true ∧ is_digits 2 m = true ∧ is_digits 2 d = true ∧
      valid_date (int y) (int m) (int d) = false.
Proof.
  induction listing as [|[name file] rest IH]; intros acc e.
  { cbn. split; [done|]. by intros (_ & ? & ? & ? & ? & ? & ?%elem_of_nil & _). }
  rewrite list_daily_files_cons.
  assert (Hrest : ∀ acc',
    (∀ y m d, search daily_pattern name = Some (y +:+ m +:+ d) →
       startswith "FOB_" name = true → endswith ".xlsx" name = true →
       is_digits 4 y = true → is_digits 2 m = true → is_digits 2 d = true →
       valid_date (int y) (int m) (int d) = true) →
    list_daily_files rest acc' = Raise e ↔
    e = ValueError ∧
    ∃ name' file' y m d,
      (name', file') ∈ (name, file) :: rest ∧
      startswith "FOB_" name' = true ∧ endswith ".xlsx" name' = true ∧
      search daily_pattern name' = Some (y +:+ m +:+ d) ∧
      is_digits 4 y = true ∧ is_digits 2 m = true ∧ is_digits 2 d = true ∧
      valid_date (int y) (int m) (int d) = false).
  { intros acc' Hgood. rewrite IH. split.
    - intros (-> & n & f & y & m & d & Hin & Hrest). split; [done|].
      exists n, f, y, m, d. split; [by right|done].
    - intros (-> & n & f & y & m & d & Hin & Hst & Hen & Hs & Hy & Hm & Hd & Hbad).
      split; [done|]. exists n, f, y, m, d. split; [|done].
      apply elem_of_cons in Hin as [[= -> ->]|Hin]; [|done].
      rewrite (Hgood y m d) in Hbad; done. }
  destruct (daily_date_cases name)
    as [Hnone|(y & m & d & Hy & Hm & Hd & Hst & Hen & Hs & Hdate)].
  - rewrite Hnone. apply Hrest. intros y m d Hs Hst Hen _ _ _.
    unfold daily_date in Hnone. by rewrite Hst, Hen, Hs in Hnone.
  - rewrite Hdate.
    destruct (valid_date (int y) (int m) (int d)) eqn:Hv.
    + apply Hrest. intros y' m' d' Hs' _ _ Hy' Hm' Hd'.
      rewrite Hs in Hs'. injection Hs' as Heq.
      unfold daily_date in Hdate. rewrite Hst, Hen, Hs in Hdate.
      cbn [andb mbind option_bind] in Hdate. injection Hdate as Hdate.
      rewrite Heq, (strptime_compact y' m' d') in Hdate by done.
      by destruct (valid_date (int y') (int m') (int d')).
    + split.
      * intros [= <-]. split; [done|].
        exists name, file, y, m, d. split; [by left|done].
      * by intros [-> _].
Qed.

Lemma list_daily_files_keys listing :
  ∀ acc daily,
    list_daily_files listing acc = Ok daily →
    ∀ date_obj,
      (date_obj ∈ acc.*1 ∨
       ∃ name file, (name, file) ∈ listing ∧
                    daily_date name = Some (Ok date_obj)) →
      date_obj ∈ daily.*1.
Proof.
  induction listing as [|[name file] rest IH]; intros acc daily Hl date_obj.
  { injection Hl as <-. intros [?|(? & ? & ?%elem_of_nil & _)]; done. }
  rewrite list_daily_files_cons in Hl.
  destruct (daily_date name) as [[d0|]|] eqn:Hdate; [|done|].
  - intros Hcase. apply (IH _ _ Hl). rewrite date_dict_set_keys.
    destruct Hcase as [?|(n & f & [[= -> ->]|Hin]%elem_of_cons & Hd)].
    + left. by right.
    + left. left. congruence.
    + right. by exists n, f.
  - intros Hcase. apply (IH _ _ Hl).
    destruct Hcase as [?|(n & f & [[= -> ->]|Hin]%elem_of_cons & Hd)].
    + by left.
    + congruence.
    + right. by exists n, f.
Qed.

(** The dict that the loop builds: one entry for each day, and for each
    day the last listed file whose name reads as that day. *)
Lemma list_daily_files_spec listing :
  ∀ acc daily,
    NoDup acc.*1 →
    list_daily_files listing acc = Ok daily →
    NoDup daily.*1 ∧
    ∀ date_obj file,
      (date_obj, file) ∈ daily ↔
      (∃ l1 name l2,
         listing = l1 ++ (name, file) :: l2 ∧
         daily_date name = Some (Ok date_obj) ∧
         ∀ name' file', (name', file') ∈ l2 →
                        daily_date name' ≠ Some (Ok date_obj)) ∨
      ((date_obj, file) ∈ acc ∧
       ∀ name' file', (name', file') ∈ listing →
                      daily_date name' ≠ Some (Ok date_obj)).
Proof.
  induction listing as [|[name0 file0] rest IH]; intros acc daily Hnd Hl.
  { injection Hl as <-. split; [done|]. intros date_obj file. split.
    - intros Hin. right. split; [done|]. by intros ? ? ?%elem_of_nil.
    - intros [(l1 & ? & ? & Heq & _)|[? _]]; [|done].
      by destruct l1. }
  rewrite list_daily_files_cons in Hl.
  assert (Hlast : ∀ date_obj file,
    (∃ l1 name l2,
       (name0, file0) :: rest = l1 ++ (name, file) :: l2 ∧
       daily_date name = Some (Ok date_obj) ∧
       ∀ name' file', (name', file') ∈ l2 →
                      daily_date name' ≠ Some (Ok date_obj)) ↔
    (file = file0 ∧ daily_date name0 = Some (Ok date_obj) ∧
     ∀ name' file', (name', file') ∈ rest →
                    daily_date name' ≠ Some (Ok date_obj)) ∨
    (∃ l1 name l2,
       rest = l1 ++ (name, file) :: l2 ∧
       daily_date name = Some (Ok date_obj) ∧
       ∀ name' file', (name', file') ∈ l2 →
                      daily_date name' ≠ Some (Ok date_obj))).
  { intros date_obj file. split.
    - intros ([|x l1] & name & l2 & Heq & Hd & Hlater).
      + injection Heq as <- <- <-. by left.
      + injection Heq as <- ->. right. by exists l1, name, l2.
    - intros [(-> & Hd & Hlater)|(l1 & name & l2 & -> & Hd & Hlater)].
      + by exists [], name0, rest.
      + by exists ((name0, file0) :: l1), name, l2. }
  assert (Hnone : ∀ date_obj,
    (∀ name' file', (name', file') ∈ (name0, file0) :: rest →
                    daily_date name' ≠ Some (Ok date_obj)) ↔
    daily_date name0 ≠ Some (Ok date_obj) ∧
    ∀ name' file', (name', file') ∈ rest →
                   daily_date name' ≠ Some (Ok date_obj)).
  { intros date_obj. split.
    - intros Hall. split; [by apply (Hall name0 file0); left|].
      intros n f Hin. apply (Hall n f). by right.
    - intros [Hhd Htl] n f [[= -> ->]|Hin]%elem_of_cons; [done|].
      by apply (Htl n f). }
  destruct (daily_date name0) as [[d0|]|] eqn:Hdate; [|done|].
  - destruct (IH _ _ (date_dict_set_NoDup d0 file0 acc Hnd) Hl) as [Hnd' Hiff].
    split; [done|]. intros date_obj file.
    rewrite Hiff, Hlast, Hnone, (date_dict_set_elem _ _ _ _ _ Hnd). split.
    + intros [?|[[[-> ->]|[Hne Hin]] Hrest]].
      * left. by right.
      * left. left. done.
      * right. split; [done|]. split; [congruence|done].
    + intros [[(-> & [= ->] & Hrest)|?]|(Hin & Hne & Hrest)].
      * right. split; [by left|done].
      * by left.
      * right. split; [|done]. right. split; [congruence|done].
  - destruct (IH _ _ Hnd Hl) as [Hnd' Hiff].
    split; [done|]. intros date_obj file.
    rewrite Hiff, Hlast, Hnone. split.
    + intros [?|[Hin Hrest]]; [left; by right|right; done].
    + intros [[(_ & ? & _)|?]|(Hin & _ & Hrest)];
        [done|by left|right; done].
Qed.

(** X17. A name of [csv/] that starts with [FOB_], ends with [.xlsx]
    and has, after its first [FOB_] that eight digits follow, digits
    that are no day of the calendar makes the listing of the daily
    files raise [ValueError], and nothing else does. The conversion of
    line 254 is in no [try]: with such a name in [csv/] and a summary
    workbook that loads, the update raises before it looks at a sheet,
    and saves nothing. *)
Theorem bad_daily_name_aborts `{Reconciler.Pandas} listing :
  (∀ e,
     list_daily_files listing [] = Raise e ↔
     e = ValueError ∧
     ∃ name file y m d,
       (name, file) ∈ listing ∧
       startswith "FOB_" name = true ∧ endswith ".xlsx" name = true ∧
       search daily_pattern name = Some (y +:+ m +:+ d) ∧
       is_digits 4 y = true ∧ is_digits 2 m = true ∧ is_digits 2 d = true ∧
       valid_date (int y) (int m) (int d) = false) ∧
  (∀ e wb,
     list_daily_files listing [] = Raise e →
     update_summary_file (Some (Ok wb)) listing = Raise e).
Proof.
  split; [intros e; apply list_daily_files_Raise|].
  intros e wb Hl. unfold update_summary_file. by rewrite Hl.
Qed.

(** X18. The dict of the daily files has one entry for each day that a
    listed name reads as, and the file of that entry is the last listed
    file whose name reads as that day: of two files of one day, such as
    a copy beside the original, only one is merged. *)
Theorem daily_files_last_wins listing daily :
  list_daily_files listing [] = Ok daily →
  NoDup daily.*1 ∧
  ∀ date_obj file,
    (date_obj, file) ∈ daily ↔
    ∃ l1 name l2,
      listing = l1 ++ (name, file) :: l2 ∧
      daily_date name = Some (Ok date_obj) ∧
      ∀ name' file', (name', file') ∈ l2 →
                     daily_date name' ≠ Some (Ok date_obj).
Proof.
  intros Hl.
  destruct (list_daily_files_spec listing [] daily (NoDup_nil_2) Hl)
    as [Hnd Hiff].
  split; [done|]. intros date_obj file. rewrite Hiff. split.
  - by intros [?|[?%elem_of_nil _]].
  - intros ?. by left.
Qed.

(** *** From step 1 to step 2 *)

Lemma process_pdf_creates pdf_file doc csv csv' log g date_obj dfs parser_log :
  process_pdf to_excel pdf_file (Ok doc) csv = Ok (csv', log) →
  get_date_from_filename pdf_file = Some g →
  strptime g "%Y-%m-%d" = Ok date_obj →
  Segmenter.parse_pdf_to_dfs doc date_obj = Ok (dfs, parser_log) →
  dfs ≠ [] →
  (∃ f, to_excel dfs = Saved f ∨ ∃ e, to_excel dfs = WriteFailed e (Some f)) →
  is_Some (csv' !! output_name date_obj).
Proof.
  unfold process_pdf. intros Hrun Hg Hd Hparse Hne (f & Hw).
  rewrite Hg, (get_date_nonempty _ _ Hg), Hd in Hrun.
  cbn [negb mbind result_bind] in Hrun.
  destruct (decide _) as [Hex|_]; [by injection Hrun as <- _|].
  unfold parse_path in Hrun. cbn [mbind result_bind] in Hrun.
  rewrite Hparse in Hrun. destruct dfs as [|df dfs]; [done|].
  destruct Hw as [Hw|[e Hw]]; rewrite Hw in Hrun; injection Hrun as <- _;
    rewrite lookup_insert_eq; by eexists.
Qed.

Lemma process_files_creates pdf_files :
  ∀ csv pdf_file doc g date_obj dfs parser_log,
    (pdf_file, Ok doc) ∈ pdf_files →
    raised (process_files to_excel pdf_files csv) = None →
    get_date_from_filename pdf_file = Some g →
    strptime g "%Y-%m-%d" = Ok date_obj →
    Segmenter.parse_pdf_to_dfs doc date_obj = Ok (dfs, parser_log) →
    dfs ≠ [] →
    (∃ f, to_excel dfs = Saved f ∨ ∃ e, to_excel dfs = WriteFailed e (Some f)) →
    is_Some (files (process_files to_excel pdf_files csv) !! output_name date_obj).
Proof.
  induction pdf_files as [|[p src] rest IH];
    intros csv pdf_file doc g date_obj dfs pl Hin Hraised Hg Hd Hparse Hne Hw;
    [by apply elem_of_nil in Hin|].
  rewrite process_files_cons in *.
  destruct (process_pdf to_excel p src csv) as [[csv1 log]|] eqn:Hp; [|done].
  cbn [files raised] in *.
  apply elem_of_cons in Hin as [[= <- <-]|Hin]; [|by eapply IH].
  destruct (process_pdf_creates _ _ _ _ _ _ _ _ _ Hp Hg Hd Hparse Hne Hw)
    as [f Hf].
  exists f. eapply lookup_weaken; [done|apply process_files_grows].
Qed.

(** X19. What step 1 converts, step 2 considers. When a listed [.pdf]
    carries a day of a year from 1000 on, its document parses to frames
    that are not empty and the writer leaves a file for them, then
    after a run of step 1 that ends without an exception the dict of
    the daily files, built from any listing of [csv/], has that day
    among its keys. *)
Theorem converted_day_is_listed listing csv csv_listing daily
    pdf_file doc y m d dfs parser_log :
  (pdf_file, Ok doc) ∈ listing →
  endswith ".pdf" pdf_file = true →
  get_date_from_filename pdf_file = Some (y +:+ "-" +:+ m +:+ "-" +:+ d) →
  is_digits 4 y = true → is_digits 2 m = true → is_digits 2 d = true →
  valid_date (int y) (int m) (int d) = true → (1000 ≤ int y)%Z →
  Segmenter.parse_pdf_to_dfs doc (datetime (int y) (int m) (int d))
    = Ok (dfs, parser_log) →
  dfs ≠ [] →
  (∃ f, to_excel dfs = Saved f ∨ ∃ e, to_excel dfs = WriteFailed e (Some f)) →
  raised (process_daily_pdfs to_excel listing csv) = None →
  csv_listing ≡ₚ map_to_list (files (process_daily_pdfs to_excel listing csv)) →
  list_daily_files csv_listing [] = Ok daily →
  datetime (int y) (int m) (int d) ∈ daily.*1.
Proof.
  intros Hin Hpdf Hg Hy Hm Hd Hv Hyear Hparse Hne Hw Hraised Hperm Hl.
  unfold process_daily_pdfs in *. cbn [files raised] in *.
  assert (Hconv : strptime (y +:+ "-" +:+ m +:+ "-" +:+ d) "%Y-%m-%d" =
                  Ok (datetime (int y) (int m) (int d)))
    by (by rewrite strptime_dashed, Hv).
  assert (Hin' : (pdf_file, Ok doc) ∈
                 filter (λ f, endswith ".pdf" f.1 = true) listing)
    by (by apply list_elem_of_filter).
  destruct (process_files_creates _ csv pdf_file doc _ _ dfs parser_log
              Hin' Hraised Hg Hconv Hparse Hne Hw)
    as [f Hf].
  apply (list_daily_files_keys _ _ _ Hl). right.
  exists (output_name (datetime (int y) (int m) (int d))), f. split.
  - rewrite Hperm. by apply elem_of_map_to_list.
  - rewrite output_name_digits, daily_date_digits by done. by rewrite Hv.
Qed.

End with_libraries.

Example get_date_docstring :
  get_date_from_filename "RJODailyFOBComparative2025-10-15202510.pdf"
  = Some "2025-10-15".
Proof. reflexivity. Qed.

(** The date is found wherever the prefix is, and is not checked. *)
Example get_date_anywhere :
  get_date_from_filename "old_RJODailyFOBComparative2025-13-45.pdf.bak"
  = Some "2025-13-45" ∧
  get_date_from_filename "RJODailyFOBComparative2025-1-5.pdf" = None.
Proof. split; reflexivity. Qed.

(** A report named for 30 February ends step 1. *)
Example misdated_report_ends_step1 :
  raised (@process_daily_pdfs DatetimeInstance.model_datetime
            PipelineSamples.sample_writer PipelineSamples.misdated_listing ∅)
  = Some ValueError.
Proof. reflexivity. Qed.

Lemma output_name_read_back_witness :
  @list_daily_files DatetimeInstance.model_datetime
    [("FOB_20251015.xlsx", Samples.file_day3)] []
  = Ok [(20251015%Z, Samples.file_day3)].
Proof.
  destruct (output_name_read_back (H:=DatetimeInstance.model_datetime)
              "2025" "10" "15" Samples.file_day3)
    as (date_obj & Hconv & Hname & Hlist).
  - reflexivity.
  - reflexivity.
  - reflexivity.
  - reflexivity.
  - vm_compute. discriminate.
  - vm_compute in Hconv. injection Hconv as <-.
    rewrite Hname in Hlist. exact Hlist.
Defined.

Lemma daily_files_last_wins_witness :
  ∃ daily,
    @list_daily_files DatetimeInstance.model_datetime
      PipelineSamples.listing_with_copy [] = Ok daily ∧
    NoDup daily.*1 ∧
    (20251015%Z, Samples.file_day3) ∈ daily.
Proof.
  exists [(20251015%Z, Samples.file_day3)].
  destruct (daily_files_last_wins (H:=DatetimeInstance.model_datetime)
              PipelineSamples.listing_with_copy
              [(20251015%Z, Samples.file_day3)]) as [Hnd _].
  - reflexivity.
  - split; [reflexivity|]. split; [exact Hnd|left].
Defined.

Lemma converted_day_is_listed_witness :
  ∃ daily,
    @list_daily_files DatetimeInstance.model_datetime
      (map_to_list
         (files (@process_daily_pdfs DatetimeInstance.model_datetime
                   PipelineSamples.sample_writer
                   PipelineSamples.sample_listing ∅))) []
    = Ok daily ∧
    datetime 2025 10 15 ∈ daily.*1.
Proof.
  destruct (@list_daily_files DatetimeInstance.model_datetime
      (map_to_list
         (files (@process_daily_pdfs DatetimeInstance.model_datetime
                   PipelineSamples.sample_writer
                   PipelineSamples.sample_listing ∅))) [])
    as [daily|] eqn:Hl; [|by vm_compute in Hl].
  exists daily. split; [reflexivity|].
  eapply (converted_day_is_listed (H:=DatetimeInstance.model_datetime)
            PipelineSamples.sample_writer PipelineSamples.sample_listing ∅
            _ daily "RJODailyFOBComparative2025-10-15202510.pdf"
            PipelineSamples.sample_pdf "2025" "10" "15").
  - left.
  - reflexivity.
  - reflexivity.
  - reflexivity.
  - reflexivity.
  - reflexivity.
  - reflexivity.
  - vm_compute. discriminate.
  - vm_compute. reflexivity.
  - discriminate.
  - eexists. left. reflexivity.
  - reflexivity.
  - reflexivity.
  - exact Hl.
Defined.

End DailyFilesProofs.
